(** * debrebuild: the buildinfo parser, the snapshot client, the dependency
      resolver and the checksum verifier of [debrebuild.py]

    A shallow embedding of the pure core of [debrebuild.py].  Python strings
    are [string]s whose characters stand for code points below 256, Python
    dictionaries are insertion-ordered association lists, exceptions are the
    [Raise] branch of a result type, and the objects the code mutates
    ([Package], [BuildInfo]) are threaded explicitly.  The libraries the
    script calls ([Deb822], [dateutil], [requests], [apt]) are the inputs of
    the functions that use them. *)

From Stdlib Require Import List String Ascii ZArith Lia Bool Arith.
From Stdlib Require Import Sorting.Sorted Sorting.Permutation.
Import ListNotations.
Open Scope string_scope.

(** ** Exceptions *)

(** One constructor per [raise] site of the script, named after the error
    taxonomy of the specification, and one per built-in exception that the
    script lets escape. *)
Inductive exn : Type :=
| BuildInfoNotFound                      (* "Cannot find buildinfo file" *)
| InvalidField (line : string)           (* "Cannot parse package: %s" *)
| MultipleArch                           (* "More than one architecture ..." *)
| MissingRequired                        (* "Need Build-Architecture field" *)
| UnknownBaseFiles                       (* "Cannot determine Debian version" *)
| BadDate                                (* "Cannot parse 'Build-Date'" *)
| BadJSON                                (* "Cannot parse response for package" *)
| ArchMismatchExplicit                   (* "... was explicitly requested ..." *)
| ArchMismatchImplicit                   (* "... was implicitly requested ..." *)
| NoArchMatch                            (* "Cannot find package in architecture" *)
| AmbiguousBinary                        (* "More than one package with the same hash" *)
| NoBinaryFound                          (* "No package with the right hash" *)
| UnresolvedDependencies                 (* "Cannot locate the following packages" *)
| FileCountDiffers                       (* "... a different number of files." *)
| SizeDiffers (f : string)               (* "Size differs for {}" *)
| MissingChecksumAlg (f p : string)      (* "{} is not used in both buildinfo files" *)
| ChecksumDiffers (f p : string)         (* "Value of {} differs for {}" *)
| PyKeyError (key : string)
| PyIndexError
| PyTypeError
| PyValueError.

Inductive result (A : Type) : Type :=
| OK (a : A)
| Raise (e : exn).
Arguments OK {A} a.
Arguments Raise {A} e.

Definition bind {A B} (r : result A) (k : A -> result B) : result B :=
  match r with
  | OK a => k a
  | Raise e => Raise e
  end.

Notation "'let*' x ':=' r 'in' k" := (bind r (fun x => k))
  (at level 10, x name, r at level 100, k at level 200).

(** [for x in xs: body] where the body may raise and updates one variable. *)
Fixpoint for_each {A S} (body : S -> A -> result S) (xs : list A) (s : S)
  : result S :=
  match xs with
  | [] => OK s
  | x :: xs' => let* s' := body s x in for_each body xs' s'
  end.

(** ** Python strings *)

Module Py.

Definition chr (n : nat) : ascii := ascii_of_nat n.
Definition newline : ascii := chr 10.
Definition dquote : ascii := chr 34.

(** [str.isspace] on one character, for code points below 256. *)
Definition isspace (c : ascii) : bool :=
  let n := nat_of_ascii c in
  (((9 <=? n) && (n <=? 13)) || ((28 <=? n) && (n <=? 32))
   || (n =? 133) || (n =? 160))%nat.

Definition startswith (s p : string) : bool := prefix p s.

Fixpoint endswith (s p : string) : bool :=
  (s =? p) ||
  match s with
  | "" => false
  | String _ s' => endswith s' p
  end.

Fixpoint drop (n : nat) (s : string) : string :=
  match n, s with
  | S k, String _ s' => drop k s'
  | _, _ => s
  end.

(** [s.lstrip('\n')] *)
Fixpoint lstrip_nl (s : string) : string :=
  match s with
  | String c s' => if Ascii.eqb c newline then lstrip_nl s' else s
  | "" => ""
  end.

(** [s.split(sep)] for a one-character separator. *)
Fixpoint split_chr (sep : ascii) (s : string) : list string :=
  match s with
  | "" => [""]
  | String c s' =>
      if Ascii.eqb c sep then "" :: split_chr sep s'
      else match split_chr sep s' with
           | h :: t => String c h :: t
           | [] => [String c ""]
           end
  end.

(** [s.split()]: the maximal runs of characters that are not whitespace. *)
Fixpoint split (s : string) : list string :=
  match s with
  | "" => []
  | String c s' =>
      if isspace c then split s'
      else match s' with
           | "" => [String c ""]
           | String c' _ =>
               if isspace c' then String c "" :: split s'
               else match split s' with
                    | h :: t => String c h :: t
                    | [] => [String c ""]
                    end
           end
  end.

Fixpoint lstrip (s : string) : string :=
  match s with
  | String c s' => if isspace c then lstrip s' else s
  | "" => ""
  end.

Fixpoint rstrip (s : string) : string :=
  match s with
  | "" => ""
  | String c s' =>
      match rstrip s' with
      | "" => if isspace c then "" else String c ""
      | r => String c r
      end
  end.

(** [s.strip()] *)
Definition strip (s : string) : string := rstrip (lstrip s).

(** [s.replace(old, new)] for a non-empty [old]: the occurrences are taken
    left to right and do not overlap; [skip] counts the characters of a
    replaced occurrence that remain to be dropped. *)
Fixpoint replace_from (old new : string) (skip : nat) (s : string) : string :=
  match s with
  | "" => ""
  | String c s' =>
      match skip with
      | S k => replace_from old new k s'
      | O =>
          if prefix old s
          then new ++ replace_from old new (String.length old - 1) s'
          else String c (replace_from old new 0 s')
      end
  end.

Definition replace (s old new : string) : string := replace_from old new 0 s.

Definition lower_chr (c : ascii) : ascii :=
  let n := nat_of_ascii c in
  if (((65 <=? n) && (n <=? 90))
      || ((192 <=? n) && (n <=? 222) && negb (n =? 215)))%nat
  then chr (n + 32) else c.

(** [s.lower()] *)
Fixpoint lower (s : string) : string :=
  match s with
  | "" => ""
  | String c s' => String (lower_chr c) (lower s')
  end.

(** Truth value of an attribute that is [None] or a string. *)
Definition truthy (o : option string) : bool :=
  match o with
  | Some s => negb (s =? "")
  | None => false
  end.

(** [len([x for x in xs if x == v])] *)
Definition count (v : string) (xs : list string) : nat :=
  List.length (filter (String.eqb v) xs).

(** *** The two regular expressions of the parser

    [re.match] is a backtracking matcher anchored at the start of the line.
    [greedy_dot next] is a dot-star group followed by the pattern [next]:
    the group takes as many characters other than a newline as it can and
    gives them back one at a time until [next] matches.  [expect lit next]
    is the literal [lit] followed by [next]. *)

Fixpoint greedy_dot {B} (next : string -> option B) (s : string)
  : option (string * B) :=
  let here := option_map (fun b => ("", b)) (next s) in
  match s with
  | "" => here
  | String c s' =>
      if Ascii.eqb c newline then here
      else match greedy_dot next s' with
           | Some (g, b) => Some (String c g, b)
           | None => here
           end
  end.

Definition expect {B} (lit : string) (next : string -> option B) (s : string)
  : option B :=
  if prefix lit s then next (drop (String.length lit) s) else None.

Definition accept (_ : string) : option unit := Some tt.

(** The pattern of [parsePkgBuildDepend]: a dot-star group, the literal
    [ (= ], a second dot-star group, a closing parenthesis and any number of
    commas, which match the empty string if need be.  Groups 1 and 2. *)
Definition match_build_depend (pkg : string) : option (string * string) :=
  match greedy_dot (expect " (= " (greedy_dot (expect ")" accept))) pkg with
  | Some (g1, (g2, _)) => Some (g1, g2)
  | None => None
  end.

(** The pattern of the [Environment] handler: one character that is not
    [=], a dot-star group, [=] and a double quote, a second dot-star group
    and a double quote.  Groups 1 and 2.  The character class consumes the
    first character of the line; group 1 starts at the second one. *)
Definition match_environment (line : string) : option (string * string) :=
  match line with
  | "" => None
  | String c s =>
      if Ascii.eqb c "="%char then None
      else
        match greedy_dot (expect (String "=" (String dquote ""))
                            (greedy_dot (expect (String dquote "") accept))) s
        with
        | Some (g1, (g2, _)) => Some (g1, g2)
        | None => None
        end
  end.

End Py.

(** ** Python dictionaries with string keys

    A [dict] keeps its keys in insertion order, and the verifier and the
    resolver iterate over them, so the model is an association list in which
    [set] overwrites in place and appends a new key at the end. *)

Module Dict.

Definition t (V : Type) : Type := list (string * V).

Fixpoint get {V} (d : t V) (k : string) : option V :=
  match d with
  | [] => None
  | (k', v) :: d' => if k' =? k then Some v else get d' k
  end.

Fixpoint set {V} (d : t V) (k : string) (v : V) : t V :=
  match d with
  | [] => [(k, v)]
  | (k', v') :: d' =>
      if k' =? k then (k', v) :: d' else (k', v') :: set d' k v
  end.

Definition keys {V} (d : t V) : list string := map fst d.

Definition mem {V} (d : t V) (k : string) : bool :=
  match get d k with Some _ => true | None => false end.

(** [d[k]], which raises [KeyError] for a missing key. *)
Definition item {V} (d : t V) (k : string) : result V :=
  match get d k with
  | Some v => OK v
  | None => Raise (PyKeyError k)
  end.

End Dict.

(** ** Data model *)

(** [class Package].  [name] and [version] are strings; the other three
    attributes start as [None]. *)
Record Package : Type := mkPackage {
  name : string;
  version : string;
  architecture : option string;
  first_seen : option string;
  hash : option string
}.

(** [Package(name, version, architecture=None)] *)
Definition Package_init (n v : string) (a : option string) : Package :=
  mkPackage n v a None None.

(** [parsePkgBuildDepend]: [None] when the line does not match. *)
Definition parsePkgBuildDepend (pkg : string) : option Package :=
  match Py.match_build_depend pkg with
  | Some (g1, g2) => Some (Package_init (Py.strip g1) (Py.strip g2) None)
  | None => None
  end.

(** The value of [checksums]: filename, then property ([size] or the name
    of an algorithm), then the recorded text. *)
Definition checksums_t : Type := Dict.t (Dict.t string).

(** [class BuildInfo].  [bi_architecture] is [None] until an [Architecture]
    field is read; the three flags are assigned at the end of [__init__]. *)
Record BuildInfo : Type := mkBuildInfo {
  source : option string;
  bi_architecture : option (list string);
  binary : option (list string);
  bi_version : option string;
  build_path : option string;
  build_arch : option string;
  build_date : option string;
  host_arch : option string;
  checksums : checksums_t;
  build_depends : list Package;
  env : Dict.t string;
  debian_suite : option string;
  build_source : bool;
  build_archall : bool;
  build_archany : bool
}.

Definition BuildInfo_empty : BuildInfo :=
  mkBuildInfo None None None None None None None None [] [] [] None
              false false false.

(** Attribute assignments [self.x = v]. *)
Definition set_source v b := mkBuildInfo v (bi_architecture b) (binary b)
  (bi_version b) (build_path b) (build_arch b) (build_date b) (host_arch b)
  (checksums b) (build_depends b) (env b) (debian_suite b) (build_source b)
  (build_archall b) (build_archany b).
Definition set_architecture v b := mkBuildInfo (source b) v (binary b)
  (bi_version b) (build_path b) (build_arch b) (build_date b) (host_arch b)
  (checksums b) (build_depends b) (env b) (debian_suite b) (build_source b)
  (build_archall b) (build_archany b).
Definition set_binary v b := mkBuildInfo (source b) (bi_architecture b) v
  (bi_version b) (build_path b) (build_arch b) (build_date b) (host_arch b)
  (checksums b) (build_depends b) (env b) (debian_suite b) (build_source b)
  (build_archall b) (build_archany b).
Definition set_version v b := mkBuildInfo (source b) (bi_architecture b)
  (binary b) v (build_path b) (build_arch b) (build_date b) (host_arch b)
  (checksums b) (build_depends b) (env b) (debian_suite b) (build_source b)
  (build_archall b) (build_archany b).
Definition set_build_path v b := mkBuildInfo (source b) (bi_architecture b)
  (binary b) (bi_version b) v (build_arch b) (build_date b) (host_arch b)
  (checksums b) (build_depends b) (env b) (debian_suite b) (build_source b)
  (build_archall b) (build_archany b).
Definition set_build_arch v b := mkBuildInfo (source b) (bi_architecture b)
  (binary b) (bi_version b) (build_path b) v (build_date b) (host_arch b)
  (checksums b) (build_depends b) (env b) (debian_suite b) (build_source b)
  (build_archall b) (build_archany b).
Definition set_build_date v b := mkBuildInfo (source b) (bi_architecture b)
  (binary b) (bi_version b) (build_path b) (build_arch b) v (host_arch b)
  (checksums b) (build_depends b) (env b) (debian_suite b) (build_source b)
  (build_archall b) (build_archany b).
Definition set_host_arch v b := mkBuildInfo (source b) (bi_architecture b)
  (binary b) (bi_version b) (build_path b) (build_arch b) (build_date b) v
  (checksums b) (build_depends b) (env b) (debian_suite b) (build_source b)
  (build_archall b) (build_archany b).
Definition set_checksums v b := mkBuildInfo (source b) (bi_architecture b)
  (binary b) (bi_version b) (build_path b) (build_arch b) (build_date b)
  (host_arch b) v (build_depends b) (env b) (debian_suite b) (build_source b)
  (build_archall b) (build_archany b).
Definition set_build_depends v b := mkBuildInfo (source b) (bi_architecture b)
  (binary b) (bi_version b) (build_path b) (build_arch b) (build_date b)
  (host_arch b) (checksums b) v (env b) (debian_suite b) (build_source b)
  (build_archall b) (build_archany b).
Definition set_env v b := mkBuildInfo (source b) (bi_architecture b)
  (binary b) (bi_version b) (build_path b) (build_arch b) (build_date b)
  (host_arch b) (checksums b) (build_depends b) v (debian_suite b)
  (build_source b) (build_archall b) (build_archany b).
Definition set_debian_suite v b := mkBuildInfo (source b) (bi_architecture b)
  (binary b) (bi_version b) (build_path b) (build_arch b) (build_date b)
  (host_arch b) (checksums b) (build_depends b) (env b) v
  (build_source b) (build_archall b) (build_archany b).
Definition set_flags src all any b := mkBuildInfo (source b)
  (bi_architecture b) (binary b) (bi_version b) (build_path b) (build_arch b)
  (build_date b) (host_arch b) (checksums b) (build_depends b) (env b)
  (debian_suite b) src all any.

(** ** 4.A  The buildinfo parser: [BuildInfo.__init__] *)

(** The lines of a folded value: [value.lstrip('\n').split('\n')]. *)
Definition folded_lines (value : string) : list string :=
  Py.split_chr Py.newline (Py.lstrip_nl value).

(** One line of a [Checksums-<alg>] field.  [parsed_line[2]] raises
    [IndexError] on a line of fewer than three tokens.  The dictionary
    literal is built first, so that an algorithm called [size] overwrites
    the size. *)
Definition checksums_line (alg : string) (cs : checksums_t) (line : string)
  : result checksums_t :=
  match Py.split line with
  | h :: sz :: f :: _ =>
      let cs1 :=
        match Dict.get cs f with
        | Some (_ :: _) => cs
        | _ => Dict.set cs f []
        end in
      let entry := match Dict.get cs1 f with Some e => e | None => [] end in
      let literal := Dict.set [("size", sz)] alg h in
      let entry' :=
        fold_left (fun e kv => Dict.set e (fst kv) (snd kv)) literal entry in
      OK (Dict.set cs1 f entry')
  | _ => Raise PyIndexError
  end.

Definition checksums_field (field value : string) (cs : checksums_t)
  : result checksums_t :=
  let alg := Py.lower (Py.replace field "Checksums-" "") in
  for_each (checksums_line alg) (folded_lines value) cs.

Definition build_depends_line (deps : list Package) (pkg : string)
  : result (list Package) :=
  match parsePkgBuildDepend pkg with
  | Some p => OK (deps ++ [p])%list
  | None => Raise (InvalidField pkg)
  end.

(** One line of the [Environment] field: a line that does not match is
    passed over, there is no [else] branch. *)
Definition environment_line (e : Dict.t string) (line : string)
  : Dict.t string :=
  match Py.match_environment line with
  | Some (g1, g2) => Dict.set e (Py.strip g1) (Py.strip g2)
  | None => e
  end.

(** The body of the loop over [paragraph.items()]: a sequence of [if]
    statements, each tested in turn. *)
Definition handle_item (b : BuildInfo) (item : string * string)
  : result BuildInfo :=
  let '(field, value) := item in
  let b := if field =? "Source" then set_source (Some value) b else b in
  let b := if field =? "Architecture"
           then set_architecture (Some (Py.split value)) b else b in
  let b := if field =? "Binary"
           then set_binary (Some (Py.split value)) b else b in
  let b := if field =? "Version" then set_version (Some value) b else b in
  let b := if field =? "Build-Path"
           then set_build_path (Some value) b else b in
  let b := if field =? "Build-Architecture"
           then set_build_arch (Some value) b else b in
  let b := if field =? "Build-Date"
           then set_build_date (Some value) b else b in
  let b := if field =? "Host-Architecture"
           then set_host_arch (Some value) b else b in
  let* b :=
    if Py.startswith field "Checksums-"
    then let* cs := checksums_field field value (checksums b) in
         OK (set_checksums cs b)
    else OK b in
  let* b :=
    if field =? "Installed-Build-Depends"
    then let* deps := for_each build_depends_line (folded_lines value)
                               (build_depends b) in
         OK (set_build_depends deps b)
    else OK b in
  if field =? "Environment"
  then OK (set_env (fold_left environment_line (folded_lines value) (env b)) b)
  else OK b.

(** The loop over the paragraphs and their items. *)
Definition scan_paragraphs (paragraphs : list (list (string * string)))
  : result BuildInfo :=
  for_each handle_item (List.concat paragraphs) BuildInfo_empty.

(** The end of [__init__], after the file is read.  Iterating over an
    [architecture] that is still [None] raises [TypeError].  [candidate] is
    the name drawn from [tempfile._get_candidate_names()]. *)
Definition finish_init (candidate : string) (b : BuildInfo)
  : result BuildInfo :=
  match bi_architecture b with
  | None => Raise PyTypeError
  | Some archs =>
      let src := (Py.count "source" archs =? 1)%nat in
      let all := (Py.count "all" archs =? 1)%nat in
      let archs' :=
        filter (fun a => negb (a =? "source") && negb (a =? "all")) archs in
      if (1 <? List.length archs')%nat then Raise MultipleArch
      else
        let b := set_architecture (Some archs') b in
        let b := set_flags src all (List.length archs' =? 1)%nat b in
        if negb (Py.truthy (build_arch b)) then Raise MissingRequired
        else
          let b := if Py.truthy (host_arch b) then b
                   else set_host_arch (build_arch b) b in
          let b :=
            if Py.truthy (build_path b) then b
            else set_build_path
                   (Some ("/build/"
                          ++ match source b with Some s => s | None => "None" end
                          ++ "-" ++ candidate)) b in
          OK b
  end.

(** [BuildInfo(buildinfo_file)]: [file] is [None] when the path does not
    exist, and otherwise the paragraphs [Deb822.iter_paragraphs] yields,
    each as its list of (field, value) items. *)
Definition BuildInfo_init (candidate : string)
    (file : option (list (list (string * string)))) : result BuildInfo :=
  match file with
  | None => Raise BuildInfoNotFound
  | Some paragraphs =>
      let* b := scan_paragraphs paragraphs in
      finish_init candidate b
  end.

(** ** [BuildInfo.get_debian_suite] and [BuildInfo.get_build_date] *)

Definition DEBIAN_VERSION : Dict.t string :=
  [("6", "squeeze"); ("7", "wheezy"); ("8", "jessie"); ("9", "stretch");
   ("10", "buster"); ("11", "bullseye"); ("12", "bookworm")].

(** The loop of [get_debian_suite]: every [base-files] entry is looked up
    under its whole version string; the assignment to [self.debian_suite]
    made before a later entry raises is kept. *)
Fixpoint debian_suite_loop (deps : list Package) (b : BuildInfo)
  : BuildInfo * result unit :=
  match deps with
  | [] => (b, OK tt)
  | pkg :: deps' =>
      if name pkg =? "base-files" then
        match Dict.get DEBIAN_VERSION (version pkg) with
        | Some suite => debian_suite_loop deps' (set_debian_suite (Some suite) b)
        | None => (b, Raise UnknownBaseFiles)
        end
      else debian_suite_loop deps' b
  end.

Definition get_debian_suite (b : BuildInfo)
  : BuildInfo * result (option string) :=
  if Py.truthy (debian_suite b) then (b, OK (debian_suite b))
  else
    match debian_suite_loop (build_depends b) b with
    | (b', OK _) => (b', OK (debian_suite b'))
    | (b', Raise e) => (b', Raise e)
    end.

(** A [datetime] as [dateutil] returns it: the calendar fields as written
    in the text, and the offset from UTC in minutes, [None] for a naive
    value. *)
Record datetime : Type := mkDatetime {
  year : nat;
  month : nat;
  day : nat;
  hour : nat;
  minute : nat;
  second : nat;
  utcoffset : option Z
}.

Module Strftime.

Definition digit (n : nat) : string :=
  String (Py.chr (48 + n mod 10)) "".

(** Decimal digits of [n]; [fuel] bounds the number of digits. *)
Fixpoint decimal (fuel n : nat) : string :=
  match fuel with
  | O => ""
  | S k => if (n <? 10)%nat then digit n
           else decimal k (n / 10) ++ digit n
  end.

(** [%m], [%d], [%H], [%M], [%S]: two digits. *)
Definition two (n : nat) : string := digit (n / 10) ++ digit n.

(** [%Y]: the year in decimal, as the C library prints it. *)
Definition Y (n : nat) : string := decimal 20 n.

End Strftime.

(** [dt.strftime("%Y%m%dT%H%M%SZ")]: the fields of [dt] itself, whatever
    its offset, and a literal [Z]. *)
Definition strftime_snapshot (dt : datetime) : string :=
  Strftime.Y (year dt) ++ Strftime.two (month dt) ++ Strftime.two (day dt)
  ++ "T" ++ Strftime.two (hour dt) ++ Strftime.two (minute dt)
  ++ Strftime.two (second dt) ++ "Z".

(** The instant a [datetime] denotes, in seconds since 1970-01-01T00:00:00
    UTC (a naive value is read as UTC).  This is the reading of the
    specification, [YYYYMMDDTHHMMSSZ] in UTC; the script has no such
    computation. *)
Definition days_from_civil (y m d : Z) : Z :=
  let y' := (if m <=? 2 then y - 1 else y)%Z in
  let era := (y' / 400)%Z in
  let yoe := (y' - era * 400)%Z in
  let mp := (if m <=? 2 then m + 9 else m - 3)%Z in
  let doy := ((153 * mp + 2) / 5 + d - 1)%Z in
  let doe := (yoe * 365 + yoe / 4 - yoe / 100 + doy)%Z in
  (era * 146097 + doe - 719468)%Z.

Definition instant (dt : datetime) : Z :=
  (days_from_civil (Z.of_nat (year dt)) (Z.of_nat (month dt))
                   (Z.of_nat (day dt)) * 86400
   + Z.of_nat (hour dt) * 3600 + Z.of_nat (minute dt) * 60
   + Z.of_nat (second dt)
   - 60 * match utcoffset dt with Some o => o | None => 0 end)%Z.

Section Dates.

(** [dateutil.parser.parse]: [None] stands for its [ParserError], a
    [ValueError]. *)
Variable parsedate : string -> option datetime.

(** [get_build_date].  An absent [Build-Date] reaches [parsedate] as
    [None], a [TypeError] that the [except ValueError] clause lets pass. *)
Definition get_build_date (b : BuildInfo) : result string :=
  match build_date b with
  | None => Raise PyTypeError
  | Some text =>
      match parsedate text with
      | Some dt => OK (strftime_snapshot dt)
      | None => Raise BadDate
      end
  end.

(** [parsedate(s).strftime("%Y%m%dT%H%M%SZ")] with no handler around it. *)
Definition snapshot_timestamp (s : string) : result string :=
  match parsedate s with
  | Some dt => OK (strftime_snapshot dt)
  | None => Raise PyValueError
  end.

End Dates.

(** ** 4.B  The snapshot client: [Rebuilder.get_bin_date] *)

(** The JSON document of [/mr/binary/<name>/<version>/binfiles?fileinfo=1]. *)
Record bin_result : Type := mkBinResult {
  r_hash : string;
  r_architecture : string
}.

Record file_entry : Type := mkFileEntry {
  archive_name : string;
  fe_first_seen : string
}.

Record binfiles : Type := mkBinfiles {
  bf_result : option (list bin_result);     (* absent: [data.get] gives [[]] *)
  bf_fileinfo : option (Dict.t (list file_entry))
}.

Definition opt_eqb (a b : option string) : bool :=
  match a, b with
  | Some x, Some y => x =? y
  | None, None => true
  | _, _ => false
  end.

Definition set_pkg_architecture (a : option string) (p : Package) : Package :=
  mkPackage (name p) (version p) a (first_seen p) (hash p).

Definition set_pkg_found (seen h : string) (p : Package) : Package :=
  mkPackage (name p) (version p) (architecture p) (Some seen) (Some h).

(** The scan of the [else] branch: the hash of the first result in the
    wanted architecture, [None] if there is none. *)
Fixpoint first_hash_for (pkgarch : option string) (rs : list bin_result)
  : option string :=
  match rs with
  | [] => None
  | r :: rs' =>
      if opt_eqb (Some (r_architecture r)) pkgarch then Some (r_hash r)
      else first_hash_for pkgarch rs'
  end.

(** The end of [get_bin_date], from [package_from_main] on. *)
Definition bin_date_from_main (data : binfiles) (pkghash : string)
    (package : Package) : Package * result string :=
  match bf_fileinfo data with
  | None => (package, Raise (PyKeyError "fileinfo"))
  | Some fi =>
      let entries := match Dict.get fi pkghash with Some l => l | None => [] end in
      match filter (fun e => archive_name e =? "debian") entries with
      | [] => (package, Raise NoBinaryFound)
      | [e] => let package := set_pkg_found (fe_first_seen e) pkghash package in
               (package, OK (fe_first_seen e))
      | _ :: _ :: _ => (package, Raise AmbiguousBinary)
      end
  end.

(** [get_bin_date]: [bi_build_arch] is [self.buildinfo.build_arch], [resp]
    the decoded answer of the service ([None] when it is not JSON).  The
    function returns the package as the call leaves it, together with the
    value returned or the exception raised. *)
Definition get_bin_date (bi_build_arch : option string)
    (resp : option binfiles) (package : Package) : Package * result string :=
  let pkgarch := architecture package in
  match resp with
  | None => (package, Raise BadJSON)
  | Some data =>
      let results := match bf_result data with Some l => l | None => [] end in
      match results with
      | [r] =>
          let pkghash := r_hash r in
          let package := set_pkg_architecture (Some (r_architecture r)) package in
          if Py.truthy pkgarch && negb (opt_eqb pkgarch (architecture package))
          then (package, Raise ArchMismatchExplicit)
          else if negb (Py.truthy pkgarch)
                  && negb (opt_eqb bi_build_arch (architecture package))
                  && negb (opt_eqb (Some "all") (architecture package))
          then (package, Raise ArchMismatchImplicit)
          else bin_date_from_main data pkghash package
      | _ =>
          let pkgarch := if Py.truthy pkgarch then pkgarch else bi_build_arch in
          let pkghash := first_hash_for pkgarch results in
          if negb (Py.truthy pkghash) then (package, Raise NoArchMatch)
          else
            let package := set_pkg_architecture pkgarch package in
            bin_date_from_main data
              (match pkghash with Some h => h | None => "" end) package
      end
  end.

(** ** 4.C  The dependency resolver *)

(** [sorted(items, key=..., reverse=True)]: Python's sort is stable and
    stays so with [reverse=True], so the result is the one stable
    arrangement by decreasing key; insertion in front of the first element
    whose key is not larger computes it. *)
Fixpoint insert_desc {A} (key : A -> nat) (x : A) (l : list A) : list A :=
  match l with
  | [] => [x]
  | y :: l' =>
      if (key y <=? key x)%nat then x :: y :: l'
      else y :: insert_desc key x l'
  end.

Fixpoint sorted_desc {A} (key : A -> nat) (l : list A) : list A :=
  match l with
  | [] => []
  | x :: l' => insert_desc key x (sorted_desc key l')
  end.

(** [list.remove(x)]: drops the first occurrence. *)
Fixpoint list_remove (x : nat) (l : list nat) : list nat :=
  match l with
  | [] => []
  | y :: l' => if (y =? x)%nat then l' else y :: list_remove x l'
  end.

Definition list_mem (x : nat) (l : list nat) : bool :=
  existsb (Nat.eqb x) l.

(** A package object is named by its position in [build_depends], a
    [nat]: the buckets and [notfound_packages] hold references to the
    objects of that list, and [Package] defines no equality, so [in] and
    [remove] compare identities. *)

Section Resolver.

Variable parsedate : string -> option datetime.

(** The snapshot service: the decoded answer for a name and a version. *)
Variable snapshot : string -> string -> option binfiles.

(** The apt cache: whether, with these timestamp lines appended to the
    sources list, the cache holds the package [name:architecture] at the
    pinned version. *)
Variable apt_has : list string -> Package -> bool.

Variable base_mirror : string.

(** [d.setdefault(k, []).append(r)] *)
Definition setdefault_append (d : Dict.t (list nat)) (k : string) (r : nat)
  : Dict.t (list nat) :=
  match Dict.get d k with
  | Some l => Dict.set d k (l ++ [r])%list
  | None => Dict.set d k [r]
  end.

(** The loop of [get_build_depends_timestamps] from the package at position
    [i] on.  It returns the packages as the loop leaves them. *)
Fixpoint timestamps_loop (bi_build_arch : option string) (i : nat)
    (pkgs : list Package) (d : Dict.t (list nat))
  : list Package * result (Dict.t (list nat)) :=
  match pkgs with
  | [] => ([], OK d)
  | pkg :: rest =>
      let '(pkg, r) :=
        if Py.truthy (first_seen pkg) then (pkg, OK "")
        else get_bin_date bi_build_arch
                          (snapshot (name pkg) (version pkg)) pkg in
      match r with
      | Raise e => (pkg :: rest, Raise e)
      | OK _ =>
          match first_seen pkg with
          | None => (pkg :: rest, Raise PyTypeError)
          | Some seen =>
              match snapshot_timestamp parsedate seen with
              | Raise e => (pkg :: rest, Raise e)
              | OK ts =>
                  let '(rest', r') :=
                    timestamps_loop bi_build_arch (S i) rest
                                    (setdefault_append d ts i) in
                  (pkg :: rest', r')
              end
          end
      end
  end.

(** [get_build_depends_timestamps]: the buckets, largest first. *)
Definition get_build_depends_timestamps (b : BuildInfo)
  : BuildInfo * result (list (string * list nat)) :=
  match timestamps_loop (build_arch b) 0 (build_depends b) [] with
  | (deps, OK d) =>
      (set_build_depends deps b,
       OK (sorted_desc (fun x => List.length (snd x)) d))
  | (deps, Raise e) => (set_build_depends deps b, Raise e)
  end.

Definition timestamp_source (timestamp : string) : string :=
  "deb " ++ base_mirror ++ "/" ++ timestamp ++ " unstable main".

(** [get_sources_list_from_timestamp] *)
Definition get_sources_list_from_timestamp (b : BuildInfo)
  : BuildInfo * result (list (string * list nat)) :=
  match get_build_depends_timestamps b with
  | (b', OK l) =>
      (b', OK (map (fun x => (timestamp_source (fst x), snd x)) l))
  | (b', Raise e) => (b', Raise e)
  end.

(** The inner loop of [find_build_dependencies], over a copy of
    [notfound_packages]. *)
Definition drop_found (deps : list Package) (sources : list string)
    (notfound : list nat) : list nat :=
  fold_left
    (fun nf r =>
       match nth_error deps r with
       | Some pkg => if apt_has sources pkg then list_remove r nf else nf
       | None => nf
       end)
    notfound notfound.

(** The loop of [find_build_dependencies] over the candidates; the state is
    [notfound_packages] and [self.required_timestamp_sources], which is
    also what the loop has appended to the sources list of the cache. *)
Fixpoint select_sources (deps : list Package)
    (candidates : list (string * list nat))
    (notfound : list nat) (required : list string)
  : list nat * list string :=
  match candidates with
  | [] => (notfound, required)
  | (timestamp_source, pkgs) :: rest =>
      match notfound with
      | [] => (notfound, required)
      | _ :: _ =>
          if negb (existsb (fun p => list_mem p notfound) pkgs)
          then select_sources deps rest notfound required
          else
            let required := (required ++ [timestamp_source])%list in
            let notfound := drop_found deps required notfound in
            select_sources deps rest notfound required
      end
  end.

(** [find_build_dependencies]: the value of
    [self.required_timestamp_sources] when the call ends, and how it ends. *)
Definition find_build_dependencies (b : BuildInfo) (required : list string)
  : list string * result unit :=
  let notfound := seq 0 (List.length (build_depends b)) in
  match get_sources_list_from_timestamp b with
  | (_, Raise e) => (required, Raise e)
  | (b', OK candidates) =>
      match select_sources (build_depends b') candidates notfound required with
      | ([], required') => (required', OK tt)
      | (_ :: _, required') => (required', Raise UnresolvedDependencies)
      end
  end.

End Resolver.

(** ** 4.E  The checksum verifier: [Rebuilder.verify_checksums] *)

(** The body of the loop over the properties of one file. *)
Definition verify_prop (old new : checksums_t) (f : string)
    (_ : unit) (prop : string) : result unit :=
  let* _ :=
    if prop =? "size" then
      let* o := Dict.item old f in
      let* f_size := Dict.item o "size" in
      let* n := Dict.item new f in
      let* n_size := Dict.item n "size" in
      if negb (f_size =? n_size) then Raise (SizeDiffers f) else OK tt
    else OK tt in
  let* n := Dict.item new f in
  if negb (Dict.mem n prop) then Raise (MissingChecksumAlg f prop)
  else
    let* o := Dict.item old f in
    let* ov := Dict.item o prop in
    let* n := Dict.item new f in
    let* nv := Dict.item n prop in
    if negb (ov =? nv) then Raise (ChecksumDiffers f prop) else OK tt.

(** The body of the loop over the files. *)
Definition verify_file (old new : checksums_t) (_ : unit) (f : string)
  : result unit :=
  let* o := Dict.item old f in
  for_each (verify_prop old new f) (Dict.keys o) tt.

(** [verify_checksums], on the [checksums] of [self.buildinfo] and of
    [new_buildinfo]. *)
Definition verify_checksums (old new : checksums_t) : result unit :=
  let files := filter (fun f => negb (Py.endswith f ".dsc")) (Dict.keys old) in
  let new_files := Dict.keys new in
  if negb (List.length files =? List.length new_files)%nat
  then Raise FileCountDiffers
  else for_each (verify_file old new) files tt.

(** ** Auxiliary predicates *)

(** The filter of [verify_checksums] on the original filenames. *)
Definition not_dsc (f : string) : bool := negb (Py.endswith f ".dsc").

(** No file of a checksum map has an empty dictionary. *)
Definition entries_nonempty (cs : checksums_t) : Prop :=
  forall f, Dict.get cs f <> Some [].

(** The tokens that [finish_init] keeps in [architecture]. *)
Definition concrete_arch (a : string) : bool :=
  negb (a =? "source") && negb (a =? "all").

(** Substring test, and the lines that [split_chr] can return. *)
Fixpoint occurs (pat s : string) : bool :=
  prefix pat s ||
  match s with
  | "" => false
  | String _ s' => occurs pat s'
  end.

Fixpoint no_newline (s : string) : bool :=
  match s with
  | "" => true
  | String c s' => negb (Ascii.eqb c Py.newline) && no_newline s'
  end.

(** The two literals of the [Environment] pattern, and its two groups, each
    with what follows it. *)
Definition quote : string := String Py.dquote "".
Definition eq_quote : string := String "=" quote.

Definition env_value_group : string -> option (string * unit) :=
  Py.greedy_dot (Py.expect quote Py.accept).

Definition env_key_group : string -> option (string * (string * unit)) :=
  Py.greedy_dot (Py.expect eq_quote env_value_group).

(** The order of [sorted(..., reverse=True)]: no key grows along the list. *)
Definition by_key_desc {A} (key : A -> nat) (x y : A) : Prop := key y <= key x.

(** The size of a bucket, the key of the sort. *)
Definition bucket_size (x : string * list nat) : nat := List.length (snd x).

(** The buckets after the packages [rs], of which [kf] gives the timestamp. *)
Definition fill_buckets (kf : nat -> string) (rs : list nat)
    (d : Dict.t (list nat)) : Dict.t (list nat) :=
  fold_left (fun d r => setdefault_append d (kf r) r) rs d.

(** The answer of the cache for the package that [r] names. *)
Definition cache_found (apt_has : list string -> Package -> bool)
    (deps : list Package) (sources : list string) (r : nat) : bool :=
  match nth_error deps r with
  | Some pkg => apt_has sources pkg
  | None => false
  end.

(** ** Concrete inputs *)

Definition nl : string := String Py.newline "".

(** The buildinfo file of the minimal scenario: [hello] built for [amd64]
    against [base-files (= 11.1)] and [libc6 (= 2.31-13)]. *)
Definition hello_file : list (list (string * string)) :=
  [[("Source", "hello"); ("Version", "2.10-2");
    ("Architecture", "amd64");
    ("Build-Architecture", "amd64");
    ("Build-Date", "Tue, 04 May 2021 12:00:00 +0000");
    ("Installed-Build-Depends",
     nl ++ " base-files (= 11.1)," ++ nl ++ " libc6 (= 2.31-13)");
    ("Checksums-Sha256", nl ++ " bb22 5678 hello_2.10-2_amd64.deb")]].

(** A buildinfo file that records a source build: its checksums name a
    [.dsc] file. *)
Definition source_build_file : list (list (string * string)) :=
  [[("Source", "hello"); ("Version", "2.10-2");
    ("Architecture", "source amd64");
    ("Build-Architecture", "amd64");
    ("Checksums-Sha256",
     nl ++ " aa11 1234 hello_2.10-2.dsc"
        ++ nl ++ " bb22 5678 hello_2.10-2_amd64.deb")]].

(** Two checksum maps with the same number of files, the second of which
    lacks a file of the first. *)
Definition renamed_old : checksums_t :=
  [("a.deb", [("size", "10"); ("sha256", "aa")]);
   ("b.deb", [("size", "20"); ("sha256", "bb")])].

Definition renamed_new : checksums_t :=
  [("a.deb", [("size", "10"); ("sha256", "aa")]);
   ("c.deb", [("size", "20"); ("sha256", "bb")])].

(** A buildinfo file whose two [Checksums] fields disagree on the size of
    [a.deb], and the second of which names a file the first does not. *)
Definition size_clash_file : list (list (string * string)) :=
  [[("Architecture", "amd64");
    ("Build-Architecture", "amd64");
    ("Checksums-Md5", nl ++ " aaaa 10 a.deb");
    ("Checksums-Sha256", nl ++ " bbbb 20 a.deb" ++ nl ++ " cccc 30 b.deb")]].

(** An [Architecture] field in which [source] is written twice, and one
    with the three tokens of the specification's example. *)
Definition twice_source_file : list (list (string * string)) :=
  [[("Architecture", "source source all amd64");
    ("Build-Architecture", "amd64")]].

Definition source_all_amd64_file : list (list (string * string)) :=
  [[("Architecture", "source all amd64");
    ("Build-Architecture", "amd64")]].


(** A [Build-Date] two hours east of UTC, and what [dateutil] makes of it:
    the fields as written and an offset of 120 minutes. *)
Definition east_text : string := "Tue, 04 May 2021 12:00:00 +0200".

Definition east_datetime : datetime :=
  mkDatetime 2021 5 4 12 0 0 (Some 120%Z).

(** The same instant with offset zero. *)
Definition east_utc : datetime :=
  mkDatetime 2021 5 4 10 0 0 (Some 0%Z).

Definition parsedate_east (s : string) : option datetime :=
  if s =? east_text then Some east_datetime else None.

(** The second scenario: [foo (= 1.0)] asked for in [i386], and a service
    that knows a single binary, in [amd64]. *)
Definition foo_i386 : Package := Package_init "foo" "1.0" (Some "i386").

Definition foo_amd64_only : binfiles :=
  mkBinfiles (Some [mkBinResult "h1" "amd64"])
             (Some [("h1", [mkFileEntry "debian" "20210504T120000Z"])]).

(** The coverage scenario: ten build dependencies, nine first seen on the
    first of March 2021 and [tzdata], at position 3, on the first of
    January. *)
Definition march : string := "20210301T000000Z".
Definition january : string := "20210101T000000Z".

Definition parsedate_two (s : string) : option datetime :=
  if s =? march then Some (mkDatetime 2021 3 1 0 0 0 (Some 0%Z))
  else if s =? january then Some (mkDatetime 2021 1 1 0 0 0 (Some 0%Z))
  else None.

Definition seen_dep (n seen : string) : Package :=
  mkPackage n "1.0" (Some "amd64") (Some seen) (Some "h").

Definition ten_deps : list Package :=
  [seen_dep "base-files" march; seen_dep "bash" march;
   seen_dep "coreutils" march; seen_dep "tzdata" january;
   seen_dep "dpkg" march; seen_dep "gcc" march; seen_dep "grep" march;
   seen_dep "gzip" march; seen_dep "make" march; seen_dep "sed" march].

Definition ten_bi : BuildInfo :=
  set_build_depends ten_deps (set_build_arch (Some "amd64") BuildInfo_empty).

Definition no_snapshot (_ _ : string) : option binfiles := None.

Definition mirror : string := "http://snapshot.debian.org/archive/debian".

(** A cache in which the snapshot of March still holds the [tzdata] of
    January: every source holds every package. *)
Definition apt_all (sources : list string) (_ : Package) : bool :=
  negb (Nat.eqb (List.length sources) 0).

(** A cache in which a package is found only in the snapshot of the day it
    was first seen. *)
Definition apt_own (sources : list string) (p : Package) : bool :=
  match first_seen p with
  | Some seen =>
      existsb (String.eqb ("deb " ++ mirror ++ "/" ++ seen ++ " unstable main"))
              sources
  | None => false
  end.

(** What a checksum map records for the file [f] under the property [p]:
    [cs[f][p]], [None] when the file or the property is missing. *)
Definition recorded (cs : checksums_t) (f p : string) : option string :=
  match Dict.get cs f with
  | Some e => Dict.get e p
  | None => None
  end.

(** * The rest of the script

    The functions below are the ones the script has beside those above:
    the helper that reads an apt stanza, the two formats of [Package], the
    look-up of the source package, the sources list, the environment handed
    to the builder and the choice of what [run] builds. *)

(** ** Exceptions of these functions *)

(** The [RebuilderException]s raised here, by message, and the exceptions of
    the functions above when they pass through. *)
Inductive rebuilder_exn : Type :=
| Core (e : exn)
| BadJSONSource                  (* "Cannot parse response for source" *)
| AmbiguousSource                (* "More than one package with the same hash" *)
| NoSourceFound                  (* "No package with the right hash" *)
| RepositoryFileNotFound (f : string)  (* "Cannot find repository file" *)
| NoHostArchitecture             (* "Cannot determinate builder host architecture" *)
| NothingToBuild                 (* "Nothing to build" *)
| RefuseOverwrite.               (* "Refusing to overwrite existing buildinfo file" *)

Inductive outcome (A : Type) : Type :=
| Returns (a : A)
| Raises (e : rebuilder_exn).
Arguments Returns {A} a.
Arguments Raises {A} e.

(** An exception of the functions above, passing through. *)
Definition lift {A} (r : result A) : outcome A :=
  match r with
  | OK a => Returns a
  | Raise e => Raises (Core e)
  end.

(** ** More of Python's strings *)

(** [s.split(sep, 1)] for a one-character separator: [None] stands for the
    list of one element that a text without [sep] gives. *)
Fixpoint split_once (sep : ascii) (s : string) : option (string * string) :=
  match s with
  | "" => None
  | String c s' =>
      if Ascii.eqb c sep then Some ("", s')
      else match split_once sep s' with
           | Some (a, b) => Some (String c a, b)
           | None => None
           end
  end.

(** [s.rstrip('\n')] *)
Fixpoint rstrip_nl (s : string) : string :=
  match s with
  | "" => ""
  | String c s' =>
      match rstrip_nl s' with
      | "" => if Ascii.eqb c Py.newline then "" else String c ""
      | r => String c r
      end
  end.

(** [str(x)] for an attribute that is [None] or a string, as [format]
    prints it. *)
Definition str_of (o : option string) : string :=
  match o with
  | Some s => s
  | None => "None"
  end.

(** ** [parsePkgAptHelper] *)

(** The loop over the lines of the stanza; the state is the three local
    variables. *)
Definition apt_helper_item (st : option string * option string * option string)
    (item : string) : option string * option string * option string :=
  let '(n, v, a) := st in
  match split_once ":" item with
  | Some (f, x) =>
      let field := Py.strip f in
      let value := Py.strip x in
      let n := if field =? "Package" then Some value else n in
      let v := if field =? "Version" then Some value else v in
      let a := if field =? "Architecture" then Some value else a in
      (n, v, a)
  | None => st
  end.

(** [parsePkgAptHelper]: [None] when the function falls off its end. *)
Definition parsePkgAptHelper (pkg : list string) : option Package :=
  match fold_left apt_helper_item pkg (None, None, None) with
  | (Some n, Some v, Some a) =>
      if negb (n =? "") && negb (v =? "") && negb (a =? "")
      then Some (Package_init n v (Some a)) else None
  | _ => None
  end.

(** ** The formats of [Package] *)

(** [Package.to_index_format] *)
Definition to_index_format (p : Package) : string :=
  if Py.truthy (architecture p)
  then name p ++ " " ++ version p ++ " " ++ str_of (architecture p)
  else name p ++ " " ++ version p.

(** [Package.to_apt_install_format] *)
Definition to_apt_install_format (p : Package) (bi_build_arch : option string)
  : string :=
  if opt_eqb (architecture p) (Some "all")
     || opt_eqb (architecture p) bi_build_arch
  then name p ++ "=" ++ version p
  else name p ++ ":" ++ str_of (architecture p) ++ "=" ++ version p.

(** [Rebuilder.get_apt_build_depends] *)
Definition get_apt_build_depends (b : BuildInfo) : list string :=
  map (fun pkg => to_apt_install_format pkg (build_arch b)) (build_depends b).

(** [Rebuilder.get_env] *)
Definition get_env (b : BuildInfo) : list string :=
  map (fun kv => fst kv ++ "=" ++ quote ++ snd kv ++ quote) (env b).

(** ** [Rebuilder.get_src_date] *)

(** The JSON document of [/mr/package/<name>/<version>/srcfiles?fileinfo=1]. *)
Record src_entry : Type := mkSrcEntry {
  se_archive_name : string;
  se_name : string;
  se_first_seen : string
}.

Record srcfiles : Type := mkSrcfiles {
  sf_result : option (list string);      (* the [hash] of each result *)
  sf_fileinfo : option (Dict.t (list src_entry))
}.

Definition from_main_dsc (val : src_entry) : bool :=
  (se_archive_name val =? "debian") && Py.endswith (se_name val) ".dsc".

(** The two nested loops: [fileinfo.get(hash)] is [None] for a hash that
    the document does not list, and iterating over it raises [TypeError]. *)
Fixpoint src_from_main (fi : Dict.t (list src_entry)) (hashes : list string)
    (acc : list src_entry) : outcome (list src_entry) :=
  match hashes with
  | [] => Returns acc
  | h :: hashes' =>
      match Dict.get fi h with
      | None => Raises (Core PyTypeError)
      | Some vals =>
          src_from_main fi hashes' (acc ++ filter from_main_dsc vals)%list
      end
  end.

(** [get_src_date]: [resp] is the decoded answer, [None] when it is not
    JSON. *)
Definition get_src_date (resp : option srcfiles) : outcome string :=
  match resp with
  | None => Raises BadJSONSource
  | Some data =>
      let hashes := match sf_result data with Some l => l | None => [] end in
      let fi := match sf_fileinfo data with Some d => d | None => [] end in
      match src_from_main fi hashes [] with
      | Raises e => Raises e
      | Returns [] => Raises NoSourceFound
      | Returns [val] => Returns (se_first_seen val)
      | Returns (_ :: _ :: _) => Raises AmbiguousSource
      end
  end.

(** ** [Rebuilder.get_sources_list] *)

(** The lines of one extra repository file that are kept. *)
Definition repository_lines (lines : list string) : list string :=
  map rstrip_nl
      (filter (fun line => negb (Py.startswith line "#")
                           && negb (Py.startswith line nl)) lines).

Section SourcesList.

Variable parsedate : string -> option datetime.

(** Whether the answer to a [GET] has [resp.ok]. *)
Variable release_ok : string -> bool.

(** The lines that iterating over an open file yields, each with its line
    end; [None] when the file does not exist. *)
Variable read_lines : string -> option (list string).

Variable base_mirror : string.

Fixpoint extra_repository_lines (files : list string) (acc : list string)
  : outcome (list string) :=
  match files with
  | [] => Returns acc
  | repo_file :: files' =>
      match read_lines repo_file with
      | None => Raises (RepositoryFileNotFound repo_file)
      | Some lines =>
          extra_repository_lines files' (acc ++ repository_lines lines)%list
      end
  end.

(** [get_sources_list]; [extra] is [self.extra_repository_files].  The
    [BuildInfo] comes back with the suite that [get_debian_suite] may have
    stored. *)
Definition get_sources_list (extra : option (list string)) (b : BuildInfo)
  : BuildInfo * outcome (list string) :=
  match get_build_date parsedate b with
  | Raise e => (b, Raises (Core e))
  | OK date =>
      let url := base_mirror ++ "/" ++ date in
      match get_debian_suite b with
      | (b', Raise e) => (b', Raises (Core e))
      | (b', OK suite) =>
          let base_dist := str_of suite in
          let release_url := url ++ "/dists/" ++ base_dist ++ "/Release" in
          let snapshot_lines :=
            if release_ok release_url
            then ["deb " ++ url ++ "/ " ++ base_dist ++ " main";
                  "deb-src " ++ url ++ "/ unstable main"]
            else [] in
          let fallback :=
            "deb-src http://deb.debian.org/debian " ++ base_dist ++ " main" in
          let sources_list := (snapshot_lines ++ [fallback])%list in
          match extra with
          | Some (repo_file :: files) =>
              (b', extra_repository_lines (repo_file :: files) sources_list)
          | _ => (b', Returns sources_list)
          end
      end
  end.

End SourcesList.

(** ** What [run] builds *)

(** The first statement of [run]: [host] is the answer of
    [dpkg --print-architecture], [None] when the command is missing. *)
Definition run_build_arch (host : option string) (b : BuildInfo)
  : outcome string :=
  match bi_architecture b with
  | Some (_ :: _) =>
      match host with
      | Some builder_architecture => Returns builder_architecture
      | None => Raises NoHostArchitecture
      end
  | _ =>
      if build_archall b then Returns "all"
      else if build_source b then Returns "source"
      else Raises NothingToBuild
  end.

(** The name of the buildinfo file that [run] expects the builder to
    write. *)
Definition new_buildinfo_file (output : string) (b : BuildInfo)
    (build_arch : string) : string :=
  output ++ "/" ++ str_of (source b) ++ "_" ++ str_of (bi_version b)
         ++ "_" ++ build_arch ++ ".buildinfo".

(** The first statement of [mmdebstrap]: the value of [--build]. *)
Definition mmdebstrap_build (build_arch : string) : string :=
  if (build_arch =? "source") || (build_arch =? "all") || (build_arch =? "any")
  then build_arch else "binary".

(** ** Auxiliary predicates of the properties below *)

Fixpoint has_chr (c : ascii) (s : string) : bool :=
  match s with
  | "" => false
  | String c' s' => Ascii.eqb c' c || has_chr c s'
  end.

(** A token: not empty, and no character that [split] would cut at. *)
Fixpoint no_space (s : string) : bool :=
  match s with
  | "" => true
  | String c s' => negb (Py.isspace c) && no_space s'
  end.

Definition token (s : string) : bool := negb (s =? "") && no_space s.

(** [a] is [b] with some elements left out. *)
Inductive Subseq : list string -> list string -> Prop :=
| Subseq_nil : Subseq [] []
| Subseq_skip (a : list string) (y : string) (b : list string) :
    Subseq a b -> Subseq a (y :: b)
| Subseq_take (x : string) (a b : list string) :
    Subseq a b -> Subseq (x :: a) (x :: b).

(** The value of a folded field as [Deb822] returns it: every line of the
    field on a line of its own, after a newline and the blank that marks a
    continuation. *)
Definition folded (bodies : list string) : string :=
  fold_right (fun body acc => nl ++ " " ++ body ++ acc) "" bodies.

(** The lines of [Installed-Build-Depends], of a [Checksums] field and of
    [Environment] as [dpkg-genbuildinfo] writes them. *)
Definition depends_body (nv : string * string) : string :=
  fst nv ++ " (= " ++ snd nv ++ "),".

Definition checksums_body (e : string * string * string) : string :=
  let '(h, sz, f) := e in h ++ " " ++ sz ++ " " ++ f.

Definition environment_body (kv : string * string) : string :=
  fst kv ++ "=" ++ quote ++ snd kv ++ quote.

(** The two groups of the pattern of [parsePkgBuildDepend], each with what
    follows it. *)
Definition dep_version_group : string -> option (string * unit) :=
  Py.greedy_dot (Py.expect ")" Py.accept).

Definition dep_name_group : string -> option (string * (string * unit)) :=
  Py.greedy_dot (Py.expect " (= " dep_version_group).

(** A name and a version as a buildinfo file pins them. *)
Definition pinned (nv : string * string) : Prop :=
  token (fst nv) = true /\ token (snd nv) = true
  /\ has_chr "(" (snd nv) = false.

(** A line of a [Checksums] field: three tokens. *)
Definition checksum_entry (e : string * string * string) : Prop :=
  let '(h, sz, f) := e in
  token h = true /\ token sz = true /\ token f = true.

Definition checksum_file (e : string * string * string) : string := snd e.

(** What the parser records for one line under the algorithm [alg]: the
    size and the hash, or the hash alone for a field [Checksums-Size], whose
    algorithm has the name of the size. *)
Definition checksum_record (alg : string) (e : string * string * string)
  : string * Dict.t string :=
  let '(h, sz, f) := e in
  (f, if alg =? "size" then [("size", h)] else [("size", sz); (alg, h)]).

(** The fields that [BuildInfo.__init__] reads. *)
Definition known_field (item : string * string) : bool :=
  existsb (String.eqb (fst item))
          ["Source"; "Architecture"; "Binary"; "Version"; "Build-Path";
           "Build-Architecture"; "Build-Date"; "Host-Architecture";
           "Installed-Build-Depends"; "Environment"]
  || Py.startswith (fst item) "Checksums-".

(** Every file of a checksum map has [size] as its first property. *)
Definition size_first (cs : checksums_t) : Prop :=
  forall f e, Dict.get cs f = Some e -> exists sz rest, e = ("size", sz) :: rest.

(** A variable of the environment that a line [KEY="VALUE"] can carry: key
    and value without blanks around them and without newline, and no [=]
    followed by a quote in the value. *)
Definition env_entry (kv : string * string) : Prop :=
  Py.strip (fst kv) = fst kv /\ Py.strip (snd kv) = snd kv
  /\ no_newline (fst kv) = true /\ no_newline (snd kv) = true
  /\ occurs eq_quote (snd kv) = false.

(** The architecture that [get_bin_date] looks for among several results. *)
Definition wanted_arch (bi_build_arch : option string) (p : Package)
  : option string :=
  if Py.truthy (architecture p) then architecture p else bi_build_arch.

Definition bin_results (data : binfiles) : list bin_result :=
  match bf_result data with Some l => l | None => [] end.

(** The entries of the [debian] archive that the document lists for a
    hash. *)
Definition debian_entries (data : binfiles) (h : string) : list file_entry :=
  match bf_fileinfo data with
  | Some fi =>
      filter (fun e => archive_name e =? "debian")
             (match Dict.get fi h with Some l => l | None => [] end)
  | None => []
  end.

(** The third scenario: [bar (= 2.0)] with no architecture, and a service
    that knows the binary in [i386] and in [amd64]. *)
Definition bar : Package := Package_init "bar" "2.0" None.

Definition bar_two_archs : binfiles :=
  mkBinfiles (Some [mkBinResult "h386" "i386"; mkBinResult "h64" "amd64"])
             (Some [("h386", [mkFileEntry "debian" "20210101T000000Z"]);
                    ("h64", [mkFileEntry "debian-backports" "20210201T000000Z";
                             mkFileEntry "debian" "20210301T000000Z"])]).

(** The hashes of the results of a source document and its [fileinfo]. *)
Definition src_hashes (data : srcfiles) : list string :=
  match sf_result data with Some l => l | None => [] end.

Definition src_fileinfo (data : srcfiles) : Dict.t (list src_entry) :=
  match sf_fileinfo data with Some d => d | None => [] end.

(** A source known under one hash, with its [.dsc] in the [debian] archive
    and in another one. *)
Definition hello_srcfiles : srcfiles :=
  mkSrcfiles (Some ["s1"])
             (Some [("s1", [mkSrcEntry "debian" "hello_2.10-2.dsc"
                                       "20210410T000000Z";
                            mkSrcEntry "debian-ports" "hello_2.10-2.dsc"
                                       "20210411T000000Z"])]).

(** The base entries of the sources list for a date and a suite. *)
Definition base_sources (release_ok : string -> bool) (base_mirror : string)
    (date : string) (suite : option string) : list string :=
  let url := base_mirror ++ "/" ++ date in
  let base_dist := str_of suite in
  let snapshot_lines :=
    if release_ok (url ++ "/dists/" ++ base_dist ++ "/Release")
    then ["deb " ++ url ++ "/ " ++ base_dist ++ " main";
          "deb-src " ++ url ++ "/ unstable main"]
    else [] in
  let fallback :=
    "deb-src http://deb.debian.org/debian " ++ base_dist ++ " main" in
  (snapshot_lines ++ [fallback])%list.

(** A build without build dependencies, a mirror that has every [Release]
    file, and one extra repository file. *)
Definition dated_bi : BuildInfo :=
  set_build_date (Some east_text) BuildInfo_empty.

Definition release_always (_ : string) : bool := true.

Definition read_extra_list (f : string) : option (list string) :=
  if f =? "extra.list"
  then Some ["# a comment" ++ nl; nl;
             "deb http://example.org/debian sid main" ++ nl]
  else None.

(** The buckets after the packages of [krs], each given with its
    timestamp. *)
Definition fill_keys (krs : list (string * nat)) (d : Dict.t (list nat))
  : Dict.t (list nat) :=
  fold_left (fun d kr => setdefault_append d (fst kr) (snd kr)) krs d.

(** The packages that the buckets hold, bucket after bucket. *)
Definition bucketed (d : list (string * list nat)) : list nat :=
  List.concat (map snd d).

(** The property [p] of the file [f] is recorded in both maps, with one
    value. *)
Definition prop_matches (old new : checksums_t) (f p : string) : Prop :=
  exists o n v,
    Dict.get old f = Some o /\ Dict.get new f = Some n
    /\ Dict.get o p = Some v /\ Dict.get n p = Some v.

(** The file [f] of the original is in the rebuilt map, with every
    property the original records for it. *)
Definition file_matches (old new : checksums_t) (f : string) : Prop :=
  exists o,
    Dict.get old f = Some o
    /\ forall p, In p (Dict.keys o) -> prop_matches old new f p.

(** A line of an apt stanza that [parsePkgAptHelper] reads: it has a colon,
    and what stands before the first one is, blanks apart, one of the three
    field names. *)
Definition apt_field_line (item : string) : bool :=
  match split_once ":" item with
  | Some (f, _) =>
      let field := Py.strip f in
      (field =? "Package") || (field =? "Version")
      || (field =? "Architecture")
  | None => false
  end.

(** * Properties *)

#[local] Arguments String.eqb : simpl never.

(** ** Dictionaries and loops *)

Section DictFacts.

Context {V : Type}.

Lemma get_set_same (d : Dict.t V) k v : Dict.get (Dict.set d k v) k = Some v.
Proof.
  induction d as [|[k' v'] d IH]; simpl.
  - now rewrite String.eqb_refl.
  - destruct (k' =? k) eqn:E; simpl; rewrite E; auto.
Qed.

Lemma get_set_other (d : Dict.t V) k k' v :
  k <> k' -> Dict.get (Dict.set d k v) k' = Dict.get d k'.
Proof.
  intros Hne. induction d as [|[k0 v0] d IH]; simpl.
  - destruct (k =? k') eqn:E; auto. apply String.eqb_eq in E. contradiction.
  - destruct (k0 =? k) eqn:E; simpl.
    + apply String.eqb_eq in E. subst k0.
      destruct (k =? k') eqn:E'; auto.
      apply String.eqb_eq in E'. contradiction.
    + destruct (k0 =? k'); auto.
Qed.

Lemma get_in_keys (d : Dict.t V) k :
  In k (Dict.keys d) -> exists v, Dict.get d k = Some v.
Proof.
  induction d as [|[k' v'] d IH]; simpl; [tauto|].
  intros [->|Hin].
  - rewrite String.eqb_refl. eauto.
  - destruct (k' =? k); eauto.
Qed.

Lemma get_in_pairs (d : Dict.t V) k v :
  Dict.get d k = Some v -> In (k, v) d.
Proof.
  induction d as [|[k' v'] d IH]; simpl; [discriminate|].
  destruct (k' =? k) eqn:E.
  - apply String.eqb_eq in E. subst k'. intros [= ->]. now left.
  - intros H. right. auto.
Qed.

End DictFacts.

Lemma for_each_app {A S} (body : S -> A -> result S) xs ys s :
  for_each body (xs ++ ys) s =
  bind (for_each body xs s) (for_each body ys).
Proof.
  revert s. induction xs as [|x xs IH]; intros s; simpl; auto.
  destruct (body s x); simpl; auto.
Qed.

Lemma for_each_unit_ok {A} (body : unit -> A -> result unit) xs :
  (forall x, In x xs -> body tt x = OK tt) -> for_each body xs tt = OK tt.
Proof.
  induction xs as [|x xs IH]; intros H; simpl; auto.
  rewrite (H x) by (left; reflexivity). simpl. apply IH.
  intros y Hy. apply H. now right.
Qed.

Lemma for_each_unit_ok_inv {A} (body : unit -> A -> result unit) xs :
  for_each body xs tt = OK tt -> forall x, In x xs -> body tt x = OK tt.
Proof.
  induction xs as [|y xs IH]; intros H x Hx; [destruct Hx|].
  simpl in H. destruct (body tt y) as [[]|e] eqn:E; [|discriminate H].
  destruct Hx as [<-|Hx]; [exact E|]. now apply IH.
Qed.

Lemma filter_length_forallb {A} (p : A -> bool) (l : list A) :
  (List.length (filter p l) =? List.length l)%nat = forallb p l.
Proof.
  induction l as [|x l IH]; simpl; auto.
  destruct (p x); simpl; auto.
  pose proof (filter_length_le p l).
  apply Nat.eqb_neq. lia.
Qed.

Lemma filter_forallb_id {A} (p : A -> bool) (l : list A) :
  forallb p l = true -> filter p l = l.
Proof.
  induction l as [|x l IH]; simpl; auto.
  intros H. apply andb_true_iff in H. destruct H as [Hx Hl].
  rewrite Hx. f_equal. auto.
Qed.

(** ** The checksum verifier *)

Lemma verify_prop_same (b : checksums_t) f o prop :
  Dict.get b f = Some o -> In prop (Dict.keys o) ->
  verify_prop b b f tt prop = OK tt.
Proof.
  intros Hf Hp. destruct (get_in_keys o prop Hp) as [v Hv].
  unfold verify_prop, Dict.item, Dict.mem. rewrite Hf. simpl.
  destruct (prop =? "size") eqn:E.
  - apply String.eqb_eq in E. subst prop. rewrite Hv. simpl.
    rewrite String.eqb_refl. simpl. reflexivity.
  - simpl. rewrite Hv. simpl. rewrite String.eqb_refl. reflexivity.
Qed.

Lemma verify_file_same (b : checksums_t) f :
  In f (Dict.keys b) -> verify_file b b tt f = OK tt.
Proof.
  intros Hf. destruct (get_in_keys b f Hf) as [o Ho].
  unfold verify_file, Dict.item. rewrite Ho. simpl.
  apply for_each_unit_ok. intros p Hp. eapply verify_prop_same; eauto.
Qed.

(** C1 (as amended).  Verifying a checksum map against itself succeeds
    exactly when no filename of the map ends in [.dsc]; with such a
    filename the count of the original, taken without the [.dsc] files,
    falls short of the count of the rebuilt map, taken with them, and the
    verifier raises [FileCountDiffers]. *)
Theorem verify_checksums_identity (b : checksums_t) :
  verify_checksums b b =
  if forallb not_dsc (Dict.keys b) then OK tt else Raise FileCountDiffers.
Proof.
  unfold verify_checksums. fold not_dsc.
  rewrite filter_length_forallb.
  destruct (forallb not_dsc (Dict.keys b)) eqn:E; simpl; auto.
  rewrite (filter_forallb_id _ _ E).
  apply for_each_unit_ok. intros f Hf. now apply verify_file_same.
Qed.

(** C1 (counterexample).  The buildinfo file of a source build parses into
    a [BuildInfo] whose checksums name a [.dsc] file, and verifying that
    [BuildInfo] against itself raises [FileCountDiffers]. *)
Lemma verify_checksums_identity_dsc_fails :
  exists b,
    BuildInfo_init "x" (Some source_build_file) = OK b
    /\ checksums b =
       [("hello_2.10-2.dsc", [("size", "1234"); ("sha256", "aa11")]);
        ("hello_2.10-2_amd64.deb", [("size", "5678"); ("sha256", "bb22")])]
    /\ verify_checksums (checksums b) (checksums b) = Raise FileCountDiffers.
Proof.
  eexists. split; [vm_compute; reflexivity|].
  split; vm_compute; reflexivity.
Qed.

Lemma verify_file_missing (old new : checksums_t) f :
  In f (Dict.keys old) ->
  Dict.get old f <> Some [] ->
  Dict.get new f = None ->
  verify_file old new tt f = Raise (PyKeyError f).
Proof.
  intros Hin Hne Hnew. destruct (get_in_keys old f Hin) as [o Ho].
  unfold verify_file, Dict.item. rewrite Ho. simpl.
  destruct o as [|[p v] o]; [now elim Hne|]. simpl.
  unfold verify_prop, Dict.item. rewrite Ho, Hnew. simpl.
  destruct (p =? "size") eqn:E; simpl; reflexivity.
Qed.

(** C9.  Let the two maps pass the count comparison and let [f] be a
    filename of the original that does not end in [.dsc], is absent from
    the rebuilt map and has at least one property recorded (as every entry
    of a parsed file has, see [parsed_checksums_nonempty]).  Then the
    verifier does not succeed; and when the files that the loop visits
    before [f] verify, so that the loop reaches [f], the first look-up of
    the rebuilt entry raises [KeyError] for [f], not an error of the
    verifier's own taxonomy. *)
Theorem verify_checksums_missing_file_keyerror
    (old new : checksums_t) (f : string) :
  List.length (filter not_dsc (Dict.keys old)) = List.length (Dict.keys new) ->
  In f (filter not_dsc (Dict.keys old)) ->
  Dict.get new f = None ->
  Dict.get old f <> Some [] ->
  verify_checksums old new <> OK tt
  /\ (forall before after,
      filter not_dsc (Dict.keys old) = (before ++ f :: after)%list ->
      (forall g, In g before -> verify_file old new tt g = OK tt) ->
      verify_checksums old new = Raise (PyKeyError f)).
Proof.
  intros Hlen Hin Hnew Hne.
  assert (Hf : verify_file old new tt f = Raise (PyKeyError f)).
  { apply verify_file_missing; auto. apply filter_In in Hin. tauto. }
  unfold verify_checksums. fold not_dsc.
  rewrite (proj2 (Nat.eqb_eq _ _) Hlen). cbn [negb].
  split.
  - intros Hok. pose proof (for_each_unit_ok_inv _ _ Hok f Hin) as H.
    congruence.
  - intros before after Hfiles Hbefore.
    rewrite Hfiles, for_each_app.
    rewrite (for_each_unit_ok _ _ Hbefore). simpl. now rewrite Hf.
Qed.

Lemma verify_checksums_missing_file_keyerror_witness :
  verify_checksums renamed_old renamed_new = Raise (PyKeyError "b.deb").
Proof.
  refine (proj2 (verify_checksums_missing_file_keyerror
                   renamed_old renamed_new "b.deb" eq_refl _ eq_refl _)
                ["a.deb"] [] eq_refl _).
  - right. left. reflexivity.
  - discriminate.
  - intros g [<-|[]]. reflexivity.
Defined.

(** ** The Debian suite *)

(** The keys of [DEBIAN_VERSION] are the seven release numbers and nothing
    else. *)
Lemma DEBIAN_VERSION_keys (v suite : string) :
  Dict.get DEBIAN_VERSION v = Some suite <-> In (v, suite) DEBIAN_VERSION.
Proof.
  split.
  - apply get_in_pairs.
  - intros H. unfold DEBIAN_VERSION in H.
    repeat (destruct H as [H|H]; [injection H as <- <-; reflexivity|]).
    destruct H.
Qed.

(** With a single [base-files] entry the result is the table's value for
    the whole version string, and [UnknownBaseFiles] when the table has no
    such key. *)
Lemma get_debian_suite_single (b : BuildInfo) (v : string) :
  debian_suite b = None ->
  build_depends b = [Package_init "base-files" v None] ->
  snd (get_debian_suite b) =
  match Dict.get DEBIAN_VERSION v with
  | Some suite => OK (Some suite)
  | None => Raise UnknownBaseFiles
  end.
Proof.
  intros Hs Hd. unfold get_debian_suite. rewrite Hs, Hd.
  cbn -[Dict.get DEBIAN_VERSION String.eqb].
  change ("base-files" =? "base-files") with true. cbv iota.
  destruct (Dict.get DEBIAN_VERSION v); reflexivity.
Qed.

(** C2 (the code at the failing input).  The buildinfo file of the minimal
    scenario parses, its first build dependency is [base-files] at version
    [11.1], and [get_debian_suite] raises [UnknownBaseFiles] on it: the
    table is keyed by [11], and the version is looked up whole. *)
Theorem get_debian_suite_base_files_11_1 :
  exists b,
    BuildInfo_init "x" (Some hello_file) = OK b
    /\ map (fun p => (name p, version p)) (build_depends b)
       = [("base-files", "11.1"); ("libc6", "2.31-13")]
    /\ snd (get_debian_suite b) = Raise UnknownBaseFiles.
Proof.
  eexists. split; [vm_compute; reflexivity|].
  split; vm_compute; reflexivity.
Qed.

(** ** The build date *)

(** [get_build_date] prints the fields of the parsed value; the offset
    plays no part. *)
Lemma get_build_date_fields parsedate (b : BuildInfo) text dt :
  build_date b = Some text -> parsedate text = Some dt ->
  get_build_date parsedate b =
  OK (strftime_snapshot
        (mkDatetime (year dt) (month dt) (day dt) (hour dt) (minute dt)
                    (second dt) None)).
Proof.
  intros Hb Hp. unfold get_build_date. rewrite Hb, Hp.
  destruct dt; reflexivity.
Qed.

Lemma get_build_date_unparseable parsedate (b : BuildInfo) text :
  build_date b = Some text -> parsedate text = None ->
  get_build_date parsedate b = Raise BadDate.
Proof.
  intros Hb Hp. unfold get_build_date. now rewrite Hb, Hp.
Qed.

(** C6 (the code at the failing input).  For a [Build-Date] of noon at
    [+0200], [get_build_date] returns noon with a [Z], whereas the same
    instant in UTC is ten o'clock: the result is not the instant formatted
    in UTC. *)
Theorem get_build_date_offset_not_applied :
  get_build_date parsedate_east
                 (set_build_date (Some east_text) BuildInfo_empty)
  = OK "20210504T120000Z"
  /\ instant east_utc = instant east_datetime
  /\ utcoffset east_utc = Some 0%Z
  /\ strftime_snapshot east_utc = "20210504T100000Z"
  /\ get_build_date parsedate_east
                    (set_build_date (Some east_text) BuildInfo_empty)
     <> OK (strftime_snapshot east_utc).
Proof.
  repeat split; try (vm_compute; reflexivity).
  vm_compute. discriminate.
Qed.

(** ** The snapshot client *)

Lemma opt_eqb_eq (a b : option string) : opt_eqb a b = true <-> a = b.
Proof.
  destruct a as [x|], b as [y|]; simpl; split; intros H;
    try discriminate; try reflexivity.
  - apply String.eqb_eq in H. now subst.
  - injection H as ->. apply String.eqb_refl.
Qed.

Lemma opt_eqb_neq (a b : option string) : opt_eqb a b = false <-> a <> b.
Proof.
  rewrite <- opt_eqb_eq. destruct (opt_eqb a b); split; congruence.
Qed.

(** The end of [get_bin_date] raises neither architecture error, leaves
    the architecture as it finds it, and records the hash it is given when
    it returns. *)
Lemma bin_date_from_main_spec (data : binfiles) (h : string) (pkg : Package) :
  let out := bin_date_from_main data h pkg in
  architecture (fst out) = architecture pkg
  /\ snd out <> Raise ArchMismatchExplicit
  /\ snd out <> Raise ArchMismatchImplicit
  /\ (forall seen, snd out = OK seen ->
      hash (fst out) = Some h /\ first_seen (fst out) = Some seen).
Proof.
  unfold bin_date_from_main.
  destruct (bf_fileinfo data) as [fi|];
    [destruct (filter _ _) as [|e [|e' l]]|];
    cbn [fst snd architecture set_pkg_found];
    (split; [reflexivity|split; [discriminate|split; [discriminate|]]]);
    intros seen Hs; try discriminate Hs;
    injection Hs as <-; split; reflexivity.
Qed.

(** C5.  When the service answers with exactly one result [r], the package
    leaves [get_bin_date] with the architecture of [r]; the call raises
    [ArchMismatchExplicit] if the package came with a non-empty
    architecture other than that of [r], and raises [ArchMismatchImplicit]
    if it came with none and that of [r] is neither [build_arch] nor
    [all].  In every other case it raises neither of the two and goes on
    with the hash of [r]: it looks the hash up in [fileinfo], and when
    [fileinfo] lists exactly one entry of the [debian] archive for it, the
    call returns the date of that entry and the package leaves with the
    hash of [r] and that date; with no such entry or several it raises
    [NoBinaryFound] or [AmbiguousBinary] and records neither. *)
Theorem get_bin_date_single_result
    (bi_build_arch : option string) (data : binfiles) (r : bin_result)
    (pkg : Package) :
  bf_result data = Some [r] ->
  let pkgarch := architecture pkg in
  let adopted := Some (r_architecture r) in
  let out := get_bin_date bi_build_arch (Some data) pkg in
  architecture (fst out) = adopted
  /\ (Py.truthy pkgarch = true -> pkgarch <> adopted ->
      snd out = Raise ArchMismatchExplicit)
  /\ (Py.truthy pkgarch = false -> bi_build_arch <> adopted ->
      r_architecture r <> "all" ->
      snd out = Raise ArchMismatchImplicit)
  /\ ((Py.truthy pkgarch = true -> pkgarch = adopted) ->
      (Py.truthy pkgarch = false ->
       bi_build_arch = adopted \/ r_architecture r = "all") ->
      snd out <> Raise ArchMismatchExplicit
      /\ snd out <> Raise ArchMismatchImplicit
      /\ (forall seen, snd out = OK seen -> hash (fst out) = Some (r_hash r))
      /\ (forall fi, bf_fileinfo data = Some fi ->
            out =
            match debian_entries data (r_hash r) with
            | [] => (set_pkg_architecture adopted pkg, Raise NoBinaryFound)
            | [e] =>
                (mkPackage (name pkg) (version pkg) adopted
                           (Some (fe_first_seen e)) (Some (r_hash r)),
                 OK (fe_first_seen e))
            | _ :: _ :: _ =>
                (set_pkg_architecture adopted pkg, Raise AmbiguousBinary)
            end)).
Proof.
  intros Hres pkgarch adopted out. subst out.
  unfold get_bin_date. rewrite Hres.
  cbn [architecture set_pkg_architecture]. fold pkgarch. fold adopted.
  pose proof (bin_date_from_main_spec data (r_hash r)
                (set_pkg_architecture adopted pkg)) as Hmain.
  cbv zeta in Hmain. destruct Hmain as (Ha & Hne & Hni & Hh).
  assert (Hlook : forall fi, bf_fileinfo data = Some fi ->
            bin_date_from_main data (r_hash r)
              (set_pkg_architecture adopted pkg) =
            match debian_entries data (r_hash r) with
            | [] => (set_pkg_architecture adopted pkg, Raise NoBinaryFound)
            | [e] =>
                (mkPackage (name pkg) (version pkg) adopted
                           (Some (fe_first_seen e)) (Some (r_hash r)),
                 OK (fe_first_seen e))
            | _ :: _ :: _ =>
                (set_pkg_architecture adopted pkg, Raise AmbiguousBinary)
            end).
  { intros fi Hfi. unfold bin_date_from_main, debian_entries. rewrite Hfi.
    destruct (filter _ _) as [|e [|e' l]]; reflexivity. }
  destruct (Py.truthy pkgarch) eqn:Ht; cbn [andb negb].
  - destruct (opt_eqb pkgarch adopted) eqn:Ee; cbn [negb fst snd].
    + apply opt_eqb_eq in Ee.
      split; [exact Ha|]. split; [intros _ H; now elim H|].
      split; [discriminate|]. intros _ _.
      split; [exact Hne|]. split; [exact Hni|].
      split; [|exact Hlook].
      intros seen Hs. now apply Hh in Hs.
    + apply opt_eqb_neq in Ee.
      split; [reflexivity|]. split; [reflexivity|].
      split; [discriminate|]. intros H _. now elim Ee; apply H.
  - destruct (opt_eqb bi_build_arch adopted) eqn:Eb; cbn [andb negb].
    + apply opt_eqb_eq in Eb.
      split; [exact Ha|]. split; [discriminate|].
      split; [intros _ H; now elim H|]. intros _ _.
      split; [exact Hne|]. split; [exact Hni|].
      split; [|exact Hlook].
      intros seen Hs. now apply Hh in Hs.
    + apply opt_eqb_neq in Eb.
      destruct (opt_eqb (Some "all") adopted) eqn:Ea; cbn [negb fst snd].
      * apply opt_eqb_eq in Ea. injection Ea as Ea.
        split; [exact Ha|]. split; [discriminate|].
        split; [intros _ _ H; now elim H|]. intros _ _.
        split; [exact Hne|]. split; [exact Hni|].
        split; [|exact Hlook].
        intros seen Hs. now apply Hh in Hs.
      * apply opt_eqb_neq in Ea.
        split; [reflexivity|]. split; [discriminate|].
        split; [reflexivity|]. intros _ H.
        destruct (H eq_refl) as [H'|H']; [now elim Eb|].
        elim Ea. unfold adopted. now rewrite H'.
Qed.

Lemma get_bin_date_single_result_witness :
  snd (get_bin_date (Some "amd64") (Some foo_amd64_only) foo_i386)
  = Raise ArchMismatchExplicit
  /\ get_bin_date (Some "amd64") (Some foo_amd64_only)
                  (Package_init "foo" "1.0" None)
     = (mkPackage "foo" "1.0" (Some "amd64") (Some "20210504T120000Z")
                  (Some "h1"),
        OK "20210504T120000Z").
Proof.
  split.
  - refine (proj1 (proj2 (get_bin_date_single_result (Some "amd64")
              foo_amd64_only (mkBinResult "h1" "amd64") foo_i386 eq_refl))
            _ _).
    + reflexivity.
    + discriminate.
  - refine (proj2 (proj2 (proj2
              (proj2 (proj2 (proj2 (get_bin_date_single_result (Some "amd64")
                 foo_amd64_only (mkBinResult "h1" "amd64")
                 (Package_init "foo" "1.0" None) eq_refl))) _ _)))
            [("h1", [mkFileEntry "debian" "20210504T120000Z"])] eq_refl).
    + discriminate.
    + intros _. now left.
Defined.

(** C10.  Whenever [get_bin_date] raises one of the two architecture
    errors, the service had answered with exactly one result and the
    package is left with that result's architecture in place of its own:
    the assignment made before the checks is not undone.  In the explicit
    case the value left differs from the one the package came with. *)
Theorem get_bin_date_mismatch_keeps_overwrite
    (bi_build_arch : option string) (resp : option binfiles)
    (pkg pkg' : Package) (e : exn) :
  get_bin_date bi_build_arch resp pkg = (pkg', Raise e) ->
  e = ArchMismatchExplicit \/ e = ArchMismatchImplicit ->
  exists data r,
    resp = Some data
    /\ bf_result data = Some [r]
    /\ pkg' = set_pkg_architecture (Some (r_architecture r)) pkg
    /\ architecture pkg' = Some (r_architecture r)
    /\ (e = ArchMismatchExplicit -> architecture pkg' <> architecture pkg).
Proof.
  intros Hcall He. unfold get_bin_date in Hcall.
  destruct resp as [data|];
    [|injection Hcall as _ <-; destruct He; discriminate].
  assert (Hmain : forall h p,
             bin_date_from_main data h p <> (pkg', Raise e)).
  { intros h p Heq.
    pose proof (bin_date_from_main_spec data h p) as Hs. cbv zeta in Hs.
    rewrite Heq in Hs. simpl in Hs.
    destruct Hs as (_ & H1 & H2 & _). destruct He; subst e; contradiction. }
  assert (Helse : forall results,
    (let pkgarch := if Py.truthy (architecture pkg) then architecture pkg
                    else bi_build_arch in
     let pkghash := first_hash_for pkgarch results in
     if negb (Py.truthy pkghash) then (pkg, Raise NoArchMatch)
     else bin_date_from_main data
            (match pkghash with Some h => h | None => "" end)
            (set_pkg_architecture pkgarch pkg)) <> (pkg', Raise e)).
  { intros results. cbv zeta.
    destruct (negb (Py.truthy (first_hash_for _ results))); [|apply Hmain].
    intros [= _ <-]. destruct He; discriminate. }
  destruct (bf_result data) as [[|r [|r' l]]|] eqn:Hres;
    [now elim (Helse [] Hcall)| |now elim (Helse (r :: r' :: l) Hcall)
    |now elim (Helse [] Hcall)].
  exists data, r. split; [reflexivity|]. split; [exact Hres|].
  cbn [architecture set_pkg_architecture] in Hcall.
  destruct (Py.truthy (architecture pkg) && _) eqn:E1.
  - injection Hcall as <- <-.
    repeat split. intros _. simpl.
    apply andb_true_iff in E1. destruct E1 as [_ E1].
    apply negb_true_iff, opt_eqb_neq in E1. congruence.
  - destruct (negb (Py.truthy (architecture pkg)) && _ && _) eqn:E2.
    + injection Hcall as <- <-. repeat split. discriminate.
    + now elim (Hmain _ _ Hcall).
Qed.

Lemma get_bin_date_mismatch_keeps_overwrite_witness :
  exists data r,
    Some foo_amd64_only = Some data
    /\ bf_result data = Some [r]
    /\ set_pkg_architecture (Some "amd64") foo_i386
       = set_pkg_architecture (Some (r_architecture r)) foo_i386
    /\ architecture (set_pkg_architecture (Some "amd64") foo_i386)
       = Some (r_architecture r)
    /\ (ArchMismatchExplicit = ArchMismatchExplicit ->
        architecture (set_pkg_architecture (Some "amd64") foo_i386)
        <> architecture foo_i386).
Proof.
  apply (get_bin_date_mismatch_keeps_overwrite (Some "amd64")
           (Some foo_amd64_only) foo_i386
           (set_pkg_architecture (Some "amd64") foo_i386)
           ArchMismatchExplicit).
  - reflexivity.
  - left. reflexivity.
Defined.

(** ** The architecture flags *)

(** C8 (counterexample).  The tokens [source source all amd64] include
    [source], [all] and exactly one concrete architecture; the file parses,
    and [build_source] is false, because the flag asks for exactly one
    occurrence of the token. *)
Lemma build_source_false_when_source_twice :
  exists b,
    BuildInfo_init "x" (Some twice_source_file) = OK b
    /\ In "source" (Py.split "source source all amd64")
    /\ In "all" (Py.split "source source all amd64")
    /\ filter concrete_arch (Py.split "source source all amd64") = ["amd64"]
    /\ build_source b = false
    /\ build_archall b = true
    /\ build_archany b = true
    /\ bi_architecture b = Some ["amd64"].
Proof.
  eexists. split; [vm_compute; reflexivity|].
  repeat split; vm_compute; auto.
Qed.

(** C8 (as amended).  Once the fields are read: if the tokens of the
    [Architecture] field hold [source] exactly once, [all] exactly once and
    exactly one concrete architecture [a], a [BuildInfo] that the parser
    returns has the three flags set and [architecture] equal to [[a]]; and
    if more than one token is left after [source] and [all] are taken out,
    the parser raises [MultipleArch]. *)
Theorem architecture_flags
    (candidate : string) (paragraphs : list (list (string * string)))
    (scanned : BuildInfo) (tokens : list string) :
  scan_paragraphs paragraphs = OK scanned ->
  bi_architecture scanned = Some tokens ->
  (forall a b,
      Py.count "source" tokens = 1 ->
      Py.count "all" tokens = 1 ->
      filter concrete_arch tokens = [a] ->
      BuildInfo_init candidate (Some paragraphs) = OK b ->
      build_source b = true /\ build_archall b = true
      /\ build_archany b = true /\ bi_architecture b = Some [a])
  /\ (1 < List.length (filter concrete_arch tokens) ->
      BuildInfo_init candidate (Some paragraphs) = Raise MultipleArch).
Proof.
  intros Hscan Harch. unfold BuildInfo_init. rewrite Hscan. simpl.
  unfold finish_init. rewrite Harch. fold concrete_arch.
  split.
  - intros a b Hs Ha Hc. rewrite Hs, Ha, Hc.
    cbn [List.length Nat.ltb Nat.leb Nat.eqb].
    destruct (negb (Py.truthy _)); [discriminate|].
    intros [= <-].
    destruct (Py.truthy (host_arch _)), (Py.truthy (build_path _));
      repeat split.
  - intros Hlen. apply Nat.ltb_lt in Hlen. now rewrite Hlen.
Qed.

Lemma architecture_flags_witness :
  exists b,
    BuildInfo_init "x" (Some source_all_amd64_file) = OK b
    /\ build_source b = true /\ build_archall b = true
    /\ build_archany b = true /\ bi_architecture b = Some ["amd64"].
Proof.
  eexists. split; [vm_compute; reflexivity|].
  refine (proj1 (architecture_flags "x" source_all_amd64_file _
                   ["source"; "all"; "amd64"] _ _) "amd64" _ _ _ _ _);
    vm_compute; reflexivity.
Defined.

(** ** The checksums of the parser *)

Lemma checksums_line_spec alg cs line h sz f more :
  Py.split line = h :: sz :: f :: more ->
  exists cs',
    checksums_line alg cs line = OK cs'
    /\ (alg <> "size" ->
        exists e, Dict.get cs' f = Some e /\ Dict.get e "size" = Some sz)
    /\ (forall g, g <> f -> Dict.get cs' g = Dict.get cs g).
Proof.
  intros Hsplit. unfold checksums_line. rewrite Hsplit.
  eexists. split; [reflexivity|]. split.
  - intros Halg. eexists. split; [apply get_set_same|].
    assert (Hlit : Dict.set [("size", sz)] alg h = [("size", sz); (alg, h)]).
    { simpl. destruct ("size" =? alg) eqn:E; [|reflexivity].
      apply String.eqb_eq in E. congruence. }
    rewrite Hlit. cbn [fold_left fst snd].
    rewrite get_set_other by assumption. apply get_set_same.
  - intros g Hg. rewrite get_set_other by congruence.
    destruct (Dict.get cs f) as [[|kv e]|]; auto;
      rewrite get_set_other by congruence; reflexivity.
Qed.

Lemma checksums_lines_ok alg lines cs :
  Forall (fun l => 3 <= List.length (Py.split l)) lines ->
  exists cs', for_each (checksums_line alg) lines cs = OK cs'.
Proof.
  intros H. revert cs. induction H as [|line lines Hl _ IH]; intros cs; simpl.
  - eauto.
  - destruct (Py.split line) as [|h [|sz [|f more]]] eqn:E;
      simpl in Hl; try lia.
    destruct (checksums_line_spec alg cs line h sz f more E) as (cs1 & -> & _).
    simpl. apply IH.
Qed.

(** The whole effect of one line on the map. *)
Lemma checksums_line_effect alg cs line h sz f more :
  Py.split line = h :: sz :: f :: more ->
  exists cs',
    checksums_line alg cs line = OK cs'
    /\ recorded cs' f alg = Some h
    /\ (alg <> "size" -> recorded cs' f "size" = Some sz)
    /\ (forall g p, p <> alg -> p <> "size" ->
        recorded cs' g p = recorded cs g p)
    /\ (forall g, g <> f -> Dict.get cs' g = Dict.get cs g).
Proof.
  intros Hsplit. unfold checksums_line. rewrite Hsplit.
  eexists. split; [reflexivity|].
  set (cs1 := match Dict.get cs f with
              | Some (_ :: _) => cs
              | _ => Dict.set cs f []
              end).
  set (entry := match Dict.get cs1 f with Some e => e | None => [] end).
  assert (Hentry : forall p, Dict.get entry p = recorded cs f p).
  { intros p. unfold entry, cs1, recorded.
    destruct (Dict.get cs f) as [[|kv e]|] eqn:E.
    - now rewrite get_set_same.
    - now rewrite E.
    - now rewrite get_set_same. }
  assert (Hother : forall g, g <> f -> Dict.get cs1 g = Dict.get cs g).
  { intros g Hg. unfold cs1.
    destruct (Dict.get cs f) as [[|kv e]|]; auto;
      rewrite get_set_other by congruence; reflexivity. }
  unfold recorded. rewrite get_set_same.
  destruct (String.eqb_spec "size" alg) as [Es|Es].
  - subst alg. cbn [Dict.set]. rewrite String.eqb_refl.
    cbn [fold_left fst snd].
    split; [apply get_set_same|]. split; [intros H; now elim H|]. split.
    + intros g p Hp _.
      destruct (String.eqb_spec f g) as [<-|Hg].
      * rewrite get_set_same, get_set_other by congruence. apply Hentry.
      * rewrite get_set_other by assumption.
        rewrite Hother by congruence. reflexivity.
    + intros g Hg. rewrite get_set_other by congruence. now apply Hother.
  - assert (Hlit : Dict.set [("size", sz)] alg h = [("size", sz); (alg, h)]).
    { cbn [Dict.set]. destruct ("size" =? alg) eqn:E; [|reflexivity].
      apply String.eqb_eq in E. contradiction. }
    rewrite Hlit. cbn [fold_left fst snd].
    split; [apply get_set_same|]. split.
    { intros _. rewrite get_set_other by congruence. apply get_set_same. }
    split.
    + intros g p Hp Hsize.
      destruct (String.eqb_spec f g) as [<-|Hg].
      * rewrite get_set_same, !get_set_other by congruence. apply Hentry.
      * rewrite get_set_other by assumption.
        rewrite Hother by congruence. reflexivity.
    + intros g Hg. rewrite get_set_other by congruence. now apply Hother.
Qed.

(** The effect of a run of lines: the properties of other names are kept,
    and so are the files that no line names. *)
Lemma checksums_lines_effect alg lines cs :
  Forall (fun l => 3 <= List.length (Py.split l)) lines ->
  exists cs',
    for_each (checksums_line alg) lines cs = OK cs'
    /\ (forall g p, p <> alg -> p <> "size" ->
        recorded cs' g p = recorded cs g p)
    /\ (forall g, Forall (fun l => nth_error (Py.split l) 2 <> Some g) lines ->
        Dict.get cs' g = Dict.get cs g).
Proof.
  intros H. revert cs. induction H as [|line lines Hl _ IH]; intros cs.
  - exists cs. cbn [for_each]. auto.
  - destruct (Py.split line) as [|h [|sz [|f more]]] eqn:E;
      simpl in Hl; try lia.
    destruct (checksums_line_effect alg cs line h sz f more E)
      as (cs1 & H1 & _ & _ & Hkeep1 & Hfile1).
    destruct (IH cs1) as (cs' & H' & Hkeep & Hfile).
    exists cs'. cbn [for_each]. rewrite H1. cbn [bind].
    split; [exact H'|]. split.
    + intros g p Hp Hs. rewrite Hkeep by assumption. now apply Hkeep1.
    + intros g Hg. inversion Hg as [|? ? Hline Hrest]; subst.
      rewrite Hfile by assumption. apply Hfile1.
      intros ->. apply Hline. now rewrite E.
Qed.

(** C3 (as amended).  The handler of a [Checksums-<alg>] field merges the
    field into the map and compares nothing.  It accepts every value whose
    lines have three tokens or more, whatever the map already holds.
    Afterwards: what is recorded under a name other than the algorithm and
    [size] is as before, for every file, so that a file listed under one
    algorithm only has nothing under the others; a file that no line names
    keeps its entry; and a file has, from the last line that names it, the
    hash under the name of the algorithm and the size under [size],
    whatever size was recorded before.  The algorithm of a field
    [Checksums-Size] is called [size]: its hash is recorded under [size],
    in the place of the size. *)
Theorem checksums_field_merges
    (field value : string) (cs : checksums_t) :
  let alg := Py.lower (Py.replace field "Checksums-" "") in
  Forall (fun l => 3 <= List.length (Py.split l)) (folded_lines value) ->
  exists cs',
    checksums_field field value cs = OK cs'
    /\ (forall g p, p <> alg -> p <> "size" ->
        recorded cs' g p = recorded cs g p)
    /\ (forall g,
        Forall (fun l => nth_error (Py.split l) 2 <> Some g)
               (folded_lines value) ->
        Dict.get cs' g = Dict.get cs g)
    /\ (forall before line after h sz f more,
        folded_lines value = (before ++ line :: after)%list ->
        Py.split line = h :: sz :: f :: more ->
        Forall (fun l => nth_error (Py.split l) 2 <> Some f) after ->
        recorded cs' f alg = Some h
        /\ (alg <> "size" -> recorded cs' f "size" = Some sz)).
Proof.
  intros alg Hall.
  destruct (checksums_lines_effect alg (folded_lines value) cs Hall)
    as (cs' & Hok & Hkeep & Hfile).
  exists cs'. unfold checksums_field. fold alg.
  split; [exact Hok|]. split; [exact Hkeep|]. split; [exact Hfile|].
  intros before line after h sz f more Hlines Hline Hafter.
  rewrite Hlines in Hok, Hall. rewrite for_each_app in Hok.
  apply Forall_app in Hall. destruct Hall as [Hb Ha].
  inversion Ha as [|? ? _ Ha']; subst.
  destruct (checksums_lines_effect alg before cs Hb) as (cs1 & H1 & _).
  rewrite H1 in Hok. cbn [bind for_each] in Hok.
  destruct (checksums_line_effect alg cs1 line h sz f more Hline)
    as (cs2 & H2 & Hh & Hsz & _).
  rewrite H2 in Hok. cbn [bind] in Hok.
  destruct (checksums_lines_effect alg after cs2 Ha') as (cs3 & H3 & _ & Hf3).
  rewrite H3 in Hok. injection Hok as <-.
  unfold recorded in *. rewrite (Hf3 f Hafter). split; assumption.
Qed.

Lemma checksums_field_merges_witness :
  exists cs',
    checksums_field "Checksums-Sha256" (nl ++ " bbbb 20 a.deb")
                    [("a.deb", [("size", "10"); ("md5", "aaaa")]);
                     ("b.deb", [("size", "30"); ("md5", "cccc")])] = OK cs'
    /\ recorded cs' "a.deb" "md5" = Some "aaaa"
    /\ recorded cs' "a.deb" "sha256" = Some "bbbb"
    /\ recorded cs' "a.deb" "size" = Some "20"
    /\ Dict.get cs' "b.deb" = Some [("size", "30"); ("md5", "cccc")].
Proof.
  destruct (checksums_field_merges "Checksums-Sha256"
              (nl ++ " bbbb 20 a.deb")
              [("a.deb", [("size", "10"); ("md5", "aaaa")]);
               ("b.deb", [("size", "30"); ("md5", "cccc")])])
    as (cs' & Hok & Hkeep & Hfile & Hlast).
  - repeat constructor.
  - exists cs'. split; [exact Hok|].
    destruct (Hlast [] " bbbb 20 a.deb" [] "bbbb" "20" "a.deb" []
                eq_refl eq_refl (Forall_nil _)) as [Hh Hsz].
    split; [|split; [exact Hh|split]].
    + rewrite Hkeep; [reflexivity|discriminate|discriminate].
    + apply Hsz. discriminate.
    + rewrite Hfile; [reflexivity|].
      repeat constructor. discriminate.
Defined.

(** C3 (counterexample).  The file gives [a.deb] the size 10 under
    [Checksums-Md5] and 20 under [Checksums-Sha256], and lists [b.deb]
    under [Checksums-Sha256] only; the parser returns a [BuildInfo] all the
    same, with the later size for [a.deb] and no [md5] for [b.deb]. *)
Lemma checksums_size_clash_accepted :
  exists b,
    BuildInfo_init "x" (Some size_clash_file) = OK b
    /\ checksums b =
       [("a.deb", [("size", "20"); ("md5", "aaaa"); ("sha256", "bbbb")]);
        ("b.deb", [("size", "30"); ("sha256", "cccc")])].
Proof.
  eexists. split; vm_compute; reflexivity.
Qed.

(** ** Every entry of the parsed checksums has a property *)

Lemma for_each_invariant {A S} (P : S -> Prop) (body : S -> A -> result S) :
  (forall s x s', P s -> body s x = OK s' -> P s') ->
  forall xs s s', P s -> for_each body xs s = OK s' -> P s'.
Proof.
  intros Hstep. induction xs as [|x xs IH]; intros s s' Hs H; simpl in H.
  - now injection H as <-.
  - destruct (body s x) as [s1|e] eqn:E; [|discriminate H].
    simpl in H. eapply IH; [|exact H]. eapply Hstep; eauto.
Qed.

Lemma set_not_nil {V} (d : Dict.t V) k v : Dict.set d k v <> [].
Proof.
  destruct d as [|[k' v'] d]; simpl; [discriminate|].
  destruct (k' =? k); discriminate.
Qed.

Lemma fold_set_not_nil {V} (lit : list (string * V)) (e : Dict.t V) :
  e <> [] \/ lit <> [] ->
  fold_left (fun e kv => Dict.set e (fst kv) (snd kv)) lit e <> [].
Proof.
  revert e. induction lit as [|kv lit IH]; intros e H; cbn [fold_left].
  - destruct H; [assumption|congruence].
  - apply IH. left. apply set_not_nil.
Qed.

Lemma checksums_line_nonempty alg cs line cs' :
  entries_nonempty cs -> checksums_line alg cs line = OK cs' ->
  entries_nonempty cs'.
Proof.
  intros Hcs H. unfold checksums_line in H.
  destruct (Py.split line) as [|h [|sz [|f more]]]; try discriminate H.
  injection H as <-. intros g.
  destruct (String.eqb_spec f g) as [<-|Hne].
  - rewrite get_set_same. intros [= E]. revert E.
    apply fold_set_not_nil. right.
    destruct ("size" =? alg); discriminate.
  - rewrite get_set_other by assumption.
    destruct (Dict.get cs f) as [[|kv e]|]; try apply Hcs;
      rewrite get_set_other by assumption; apply Hcs.
Qed.

Lemma checksums_if (c : bool) (f : BuildInfo -> BuildInfo) (b : BuildInfo) :
  (forall x, checksums (f x) = checksums x) ->
  checksums (if c then f b else b) = checksums b.
Proof. intros H. destruct c; auto. Qed.

Lemma handle_item_nonempty b item b' :
  entries_nonempty (checksums b) -> handle_item b item = OK b' ->
  entries_nonempty (checksums b').
Proof.
  intros Hb H. destruct item as [field value]. unfold handle_item in H.
  cbv zeta in H.
  match type of H with
  | context [checksums_field field value (checksums ?x)] =>
      assert (Hx : checksums x = checksums b)
        by (repeat (rewrite checksums_if; [|reflexivity]); reflexivity);
      remember x as b8 eqn:E8; clear E8
  end.
  assert (H1 : forall b1,
             (if Py.startswith field "Checksums-"
              then bind (checksums_field field value (checksums b8))
                        (fun cs => OK (set_checksums cs b8))
              else OK b8) = OK b1 ->
             entries_nonempty (checksums b1)).
  { intros b1 Hb1. destruct (Py.startswith field "Checksums-").
    - destruct (checksums_field field value (checksums b8)) as [cs|e] eqn:Ec;
        [|discriminate Hb1].
      injection Hb1 as <-. cbn [checksums set_checksums].
      unfold checksums_field in Ec.
      eapply (for_each_invariant entries_nonempty); [|  |exact Ec].
      + intros s x s'. apply checksums_line_nonempty.
      + now rewrite Hx.
    - injection Hb1 as <-. now rewrite Hx. }
  destruct (if Py.startswith field "Checksums-" then _ else _)
    as [b1|e] eqn:E1; [|discriminate H].
  specialize (H1 b1 eq_refl). cbn [bind] in H.
  destruct (field =? "Installed-Build-Depends").
  - destruct (for_each build_depends_line _ _) as [deps|e];
      [|discriminate H].
    cbn [bind] in H. destruct (field =? "Environment");
      injection H as <-; exact H1.
  - cbn [bind] in H. destruct (field =? "Environment");
      injection H as <-; exact H1.
Qed.

(** The checksums of a parsed file never hold a file without properties:
    every line adds [size] and the algorithm to the entry it touches. *)
Lemma parsed_checksums_nonempty candidate file b :
  BuildInfo_init candidate file = OK b -> entries_nonempty (checksums b).
Proof.
  unfold BuildInfo_init. destruct file as [paragraphs|]; [|discriminate].
  destruct (scan_paragraphs paragraphs) as [b0|e] eqn:Es; [|discriminate].
  cbn [bind]. intros H.
  assert (H0 : entries_nonempty (checksums b0)).
  { unfold scan_paragraphs in Es.
    eapply (for_each_invariant (fun x => entries_nonempty (checksums x)));
      [|  |exact Es].
    - intros s x s'. apply handle_item_nonempty.
    - intros f. discriminate. }
  unfold finish_init in H.
  destruct (bi_architecture b0); [|discriminate H].
  destruct (1 <? _)%nat; [discriminate H|].
  destruct (negb _); [discriminate H|].
  injection H as <-.
  destruct (Py.truthy (host_arch _)), (Py.truthy (build_path _)); exact H0.
Qed.

(** ** The environment of the parser *)

Lemma append_assoc (a b c : string) : (a ++ b) ++ c = a ++ (b ++ c).
Proof. induction a; simpl; congruence. Qed.

Lemma env_value_group_takes_all (V : string) :
  no_newline V = true -> env_value_group (V ++ quote) = Some (V, tt).
Proof.
  unfold env_value_group. induction V as [|c V IH]; intros Hn.
  - reflexivity.
  - simpl in Hn. apply andb_true_iff in Hn. destruct Hn as [Hc Hn].
    apply negb_true_iff in Hc.
    cbn [append Py.greedy_dot]. rewrite Hc, (IH Hn). reflexivity.
Qed.

Lemma greedy_dot_cons {B} (next : string -> option B) (c : ascii) (s : string) :
  Py.greedy_dot next (String c s) =
  if Ascii.eqb c Py.newline
  then option_map (fun b => (EmptyString, b)) (next (String c s))
  else match Py.greedy_dot next s with
       | Some (g, b) => Some (String c g, b)
       | None => option_map (fun b => (EmptyString, b)) (next (String c s))
       end.
Proof. reflexivity. Qed.

Lemma expect_app {B} (lit : string) (next : string -> option B) (s : string) :
  Py.expect lit next (lit ++ s) = next s.
Proof.
  unfold Py.expect.
  assert (Hp : prefix lit (lit ++ s) = true).
  { induction lit as [|c lit IH]; simpl.
    - destruct s; reflexivity.
    - destruct (ascii_dec c c); [assumption|congruence]. }
  assert (Hd : Py.drop (String.length lit) (lit ++ s) = s).
  { clear Hp. induction lit as [|c lit IH]; simpl;
      [destruct s; reflexivity|exact IH]. }
  now rewrite Hp, Hd.
Qed.

Lemma expect_eq_quote_none {B} (next : string -> option B) (s : string) :
  prefix eq_quote s = false -> Py.expect eq_quote next s = None.
Proof. intros H. unfold Py.expect. now rewrite H. Qed.


(** Nor does such a text followed by the closing quote: the only [=] that a
    quote follows is then the last character, and nothing is left for the
    value group. *)
Lemma env_key_group_none_closing (W : string) :
  occurs eq_quote W = false -> env_key_group (W ++ quote) = None.
Proof.
  unfold env_key_group. induction W as [|c W IH]; intros Ho.
  - reflexivity.
  - cbn [occurs] in Ho. apply orb_false_iff in Ho. destruct Ho as [Hp Ho].
    cbn [append Py.greedy_dot]. rewrite (IH Ho).
    assert (Hhere : Py.expect eq_quote env_value_group
                      (String c (W ++ quote)) = None).
    { destruct W as [|c' W].
      - unfold Py.expect. cbn [append quote eq_quote prefix].
        destruct (ascii_dec "=" c); [|reflexivity].
        destruct (ascii_dec Py.dquote Py.dquote); reflexivity.
      - apply expect_eq_quote_none. revert Hp.
        cbn [append quote eq_quote prefix].
        destruct (ascii_dec "=" c); [|reflexivity].
        destruct (ascii_dec Py.dquote c'); [|reflexivity].
        intros H. destruct W; discriminate H. }
    rewrite Hhere.
    destruct (Ascii.eqb c Py.newline); reflexivity.
Qed.

Lemma env_key_group_takes_key (K V : string) :
  no_newline K = true -> no_newline V = true ->
  occurs eq_quote V = false ->
  env_key_group (K ++ eq_quote ++ V ++ quote) = Some (K, (V, tt)).
Proof.
  intros HK HV Ho. induction K as [|c K IH].
  - pose proof (env_key_group_none_closing (String Py.dquote V)) as Hnone.
    assert (Hocc : occurs eq_quote (String Py.dquote V) = false).
    { cbn [occurs]. rewrite Ho.
      cbn [eq_quote prefix]. destruct (ascii_dec "=" Py.dquote) as [E|];
        [vm_compute in E; discriminate E|reflexivity]. }
    specialize (Hnone Hocc).
    change (String Py.dquote V ++ quote)
      with (String Py.dquote (V ++ quote)) in Hnone.
    pose proof (env_value_group_takes_all V HV) as Hv.
    cbn [append]. remember (V ++ quote) as X eqn:HX.
    unfold env_key_group in *.
    change (eq_quote ++ X) with (String "=" (String Py.dquote X)).
    rewrite greedy_dot_cons, Hnone.
    change (String "=" (String Py.dquote X)) with (eq_quote ++ X).
    rewrite expect_app, Hv. reflexivity.
  - simpl in HK. apply andb_true_iff in HK. destruct HK as [Hc HK].
    apply negb_true_iff in Hc. specialize (IH HK).
    unfold env_key_group in *.
    cbn [append Py.greedy_dot]. rewrite Hc, IH. reflexivity.
Qed.




(** ** The resolver: the order of the candidates *)

Section SortedDesc.

Context {A : Type} (key : A -> nat).

Lemma insert_desc_perm (x : A) (l : list A) :
  Permutation (x :: l) (insert_desc key x l).
Proof.
  induction l as [|y l IH]; simpl; auto.
  destruct (key y <=? key x)%nat; auto.
  rewrite perm_swap. now apply perm_skip.
Qed.

Lemma sorted_desc_perm (l : list A) : Permutation l (sorted_desc key l).
Proof.
  induction l as [|x l IH]; simpl; auto.
  rewrite <- insert_desc_perm. now apply perm_skip.
Qed.

Lemma insert_desc_sorted (x : A) (l : list A) :
  StronglySorted (by_key_desc key) l ->
  StronglySorted (by_key_desc key) (insert_desc key x l).
Proof.
  induction 1 as [|y l Hs IH Hall]; simpl.
  - repeat constructor.
  - destruct (key y <=? key x)%nat eqn:E.
    + apply Nat.leb_le in E. constructor; [now constructor|].
      constructor; [exact E|].
      eapply Forall_impl; [|exact Hall]. unfold by_key_desc. intros; lia.
    + apply Nat.leb_gt in E. constructor; [exact IH|].
      eapply Permutation_Forall; [apply insert_desc_perm|].
      constructor; [unfold by_key_desc; lia|exact Hall].
Qed.

Lemma sorted_desc_sorted (l : list A) :
  StronglySorted (by_key_desc key) (sorted_desc key l).
Proof.
  induction l; simpl; [constructor|now apply insert_desc_sorted].
Qed.

Lemma insert_desc_stable (n : nat) (x : A) (l : list A) :
  filter (fun y => key y =? n)%nat (insert_desc key x l)
  = filter (fun y => key y =? n)%nat (x :: l).
Proof.
  induction l as [|y l IH]; [reflexivity|].
  cbn [insert_desc]. destruct (key y <=? key x)%nat eqn:E; [reflexivity|].
  apply Nat.leb_gt in E. cbn [filter] in *. rewrite IH.
  destruct (key x =? n)%nat eqn:Ex, (key y =? n)%nat eqn:Ey; try reflexivity.
  apply Nat.eqb_eq in Ex, Ey. lia.
Qed.

(** Buckets of one size keep the order they had. *)
Lemma sorted_desc_stable (n : nat) (l : list A) :
  filter (fun y => key y =? n)%nat (sorted_desc key l)
  = filter (fun y => key y =? n)%nat l.
Proof.
  induction l as [|x l IH]; [reflexivity|].
  cbn [sorted_desc]. rewrite insert_desc_stable. cbn [filter].
  now rewrite IH.
Qed.

End SortedDesc.

(** ** The resolver: the buckets *)

Lemma keys_set {V} (d : Dict.t V) k v :
  Dict.keys (Dict.set d k v) =
  if Dict.mem d k then Dict.keys d else (Dict.keys d ++ [k])%list.
Proof.
  unfold Dict.mem. induction d as [|[k' v'] d IH]; simpl; [reflexivity|].
  destruct (k' =? k) eqn:E; simpl; [reflexivity|].
  rewrite IH. destruct (Dict.get d k); reflexivity.
Qed.

Lemma mem_in_keys {V} (d : Dict.t V) k :
  Dict.mem d k = true <-> In k (Dict.keys d).
Proof.
  unfold Dict.mem. split.
  - destruct (Dict.get d k) eqn:E; [|discriminate]. intros _.
    apply get_in_pairs in E. apply (in_map fst) in E. exact E.
  - intros H. apply get_in_keys in H. destruct H as [v ->]. reflexivity.
Qed.

Lemma keys_setdefault_append d k r :
  Dict.keys (setdefault_append d k r) =
  if Dict.mem d k then Dict.keys d else (Dict.keys d ++ [k])%list.
Proof.
  unfold setdefault_append.
  destruct (Dict.get d k) eqn:E; rewrite keys_set; reflexivity.
Qed.

Lemma get_setdefault_append d k r k' :
  Dict.get (setdefault_append d k r) k' =
  if k =? k'
  then Some (match Dict.get d k with Some l => l | None => [] end ++ [r])%list
  else Dict.get d k'.
Proof.
  unfold setdefault_append. destruct (k =? k') eqn:E.
  - apply String.eqb_eq in E. subst k'.
    destruct (Dict.get d k); apply get_set_same.
  - apply String.eqb_neq in E.
    destruct (Dict.get d k); now apply get_set_other.
Qed.

Lemma fill_buckets_get kf rs d k :
  Dict.get (fill_buckets kf rs d) k =
  match Dict.get d k, filter (fun r => kf r =? k) rs with
  | Some l, m => Some (l ++ m)%list
  | None, [] => None
  | None, m => Some m
  end.
Proof.
  unfold fill_buckets. revert d.
  induction rs as [|r rs IH]; intros d; cbn [fold_left filter].
  - destruct (Dict.get d k); [now rewrite app_nil_r|reflexivity].
  - rewrite IH, get_setdefault_append.
    destruct (kf r =? k) eqn:E.
    + apply String.eqb_eq in E. rewrite E.
      destruct (Dict.get d k); [now rewrite <- app_assoc|reflexivity].
    + destruct (Dict.get d k); reflexivity.
Qed.

Lemma fill_buckets_keys kf rs d :
  NoDup (Dict.keys d) ->
  NoDup (Dict.keys (fill_buckets kf rs d))
  /\ (forall k, In k (Dict.keys (fill_buckets kf rs d)) ->
      In k (Dict.keys d) \/ exists r, In r rs /\ kf r = k).
Proof.
  unfold fill_buckets. revert d.
  induction rs as [|r rs IH]; intros d Hnd; cbn [fold_left].
  - split; auto.
  - assert (Hnd' : NoDup (Dict.keys (setdefault_append d (kf r) r))).
    { rewrite keys_setdefault_append.
      destruct (Dict.mem d (kf r)) eqn:E; [assumption|].
      apply NoDup_app; [assumption|repeat constructor; intros []|].
      intros x Hx [<-|[]]. apply mem_in_keys in Hx. congruence. }
    destruct (IH _ Hnd') as [H1 H2]. split; [assumption|].
    intros k Hk. destruct (H2 k Hk) as [Hin|(r' & Hr' & <-)].
    + rewrite keys_setdefault_append in Hin.
      destruct (Dict.mem d (kf r)); [now left|].
      apply in_app_or in Hin. destruct Hin as [Hin|[<-|[]]]; [now left|].
      right. exists r. split; [now left|reflexivity].
    + right. exists r'. split; [now right|reflexivity].
Qed.

(** A dictionary whose keys are among two distinct strings and which holds
    both is one of two lists. *)
Lemma two_buckets_shape (d : Dict.t (list nat)) (T1 T2 : string) a b :
  T1 <> T2 ->
  NoDup (Dict.keys d) ->
  (forall k, In k (Dict.keys d) -> k = T1 \/ k = T2) ->
  Dict.get d T1 = Some a -> Dict.get d T2 = Some b ->
  d = [(T1, a); (T2, b)] \/ d = [(T2, b); (T1, a)].
Proof.
  intros Hne Hnd Hk Ha Hb.
  assert (E12 : (T1 =? T2) = false) by now apply String.eqb_neq.
  assert (E21 : (T2 =? T1) = false) by (apply String.eqb_neq; congruence).
  destruct d as [|[k1 v1] [|[k2 v2] [|[k3 v3] d]]]; cbn [Dict.get] in Ha, Hb.
  - discriminate.
  - destruct (Hk k1) as [->| ->]; [now left| |].
    + rewrite E12 in Hb. discriminate.
    + rewrite E21 in Ha. discriminate.
  - cbn [Dict.keys map fst] in Hnd, Hk.
    inversion Hnd as [|? ? Hnot _]; subst.
    destruct (Hk k1) as [->| ->]; [now left| |];
      (destruct (Hk k2) as [->| ->]; [right; now left| |]);
      try (elim Hnot; now left).
    + rewrite String.eqb_refl in Ha, Hb. rewrite E12 in Hb.
      left. congruence.
    + rewrite String.eqb_refl in Ha, Hb. rewrite E21 in Ha.
      right. congruence.
  - cbn [Dict.keys map fst] in Hnd, Hk.
    inversion Hnd as [|? ? Hn1 Hnd1]; subst.
    inversion Hnd1 as [|? ? Hn2 _]; subst.
    exfalso.
    destruct (Hk k1) as [->| ->]; [now left| |];
      (destruct (Hk k2) as [->| ->]; [right; now left| |]);
      (destruct (Hk k3) as [->| ->]; [right; right; now left| |]);
      (try (apply Hn1; now left)); (try (apply Hn1; right; now left));
      (try (apply Hn2; now left)).
Qed.

Section ResolverFacts.

Variable parsedate : string -> option datetime.
Variable snapshot : string -> string -> option binfiles.
Variable apt_has : list string -> Package -> bool.
Variable base_mirror : string.

(** When every package already has its [first_seen], the loop asks the
    service nothing, leaves the packages alone and buckets them by
    timestamp, in order. *)
Lemma timestamps_loop_resolved (kf : nat -> string) ba pkgs :
  forall i d,
    (forall n p, nth_error pkgs n = Some p ->
       exists seen, first_seen p = Some seen /\ seen <> ""
                    /\ snapshot_timestamp parsedate seen = OK (kf (i + n))) ->
    timestamps_loop parsedate snapshot ba i pkgs d
    = (pkgs, OK (fill_buckets kf (seq i (List.length pkgs)) d)).
Proof.
  induction pkgs as [|pkg pkgs IH]; intros i d H; [reflexivity|].
  destruct (H 0 pkg eq_refl) as (seen & Hs & Hne & Hts).
  rewrite Nat.add_0_r in Hts.
  cbn [timestamps_loop]. rewrite Hs. cbn [Py.truthy].
  apply String.eqb_neq in Hne. rewrite Hne. cbn [negb].
  rewrite Hs, Hts, (IH (S i) (setdefault_append d (kf i) i)).
  - reflexivity.
  - intros n p Hn. destruct (H (S n) p Hn) as (seen' & ? & ? & Hts').
    exists seen'. rewrite Nat.add_succ_r in Hts'. auto.
Qed.

Lemma list_mem_in (x : nat) (l : list nat) : list_mem x l = true <-> In x l.
Proof.
  unfold list_mem. rewrite existsb_exists. split.
  - intros (y & Hy & E). apply Nat.eqb_eq in E. now subst.
  - intros H. exists x. split; [assumption|apply Nat.eqb_refl].
Qed.

Lemma list_remove_spec (r : nat) (l : list nat) :
  NoDup l ->
  NoDup (list_remove r l)
  /\ (forall x, In x (list_remove r l) <-> In x l /\ x <> r).
Proof.
  induction 1 as [|y l Hy Hnd [IH1 IH2]]; simpl.
  - split; [constructor|]. intros x; tauto.
  - destruct (y =? r)%nat eqn:E.
    + apply Nat.eqb_eq in E. subst y. split; [assumption|].
      intros x. split.
      * intros Hx. split; [now right|]. intros ->. contradiction.
      * intros [[->|Hx] Hne]; [congruence|assumption].
    + apply Nat.eqb_neq in E. split.
      * constructor; [|assumption]. rewrite IH2. tauto.
      * intros x. simpl. rewrite IH2. split.
        -- intros [->|[Hx Hne]]; auto.
        -- intros [[->|Hx] Hne]; auto.
Qed.

(** What the cache answers for the package at [r]. *)
Lemma drop_found_spec (deps : list Package) (sources : list string)
    (notfound : list nat) :
  NoDup notfound ->
  forall x,
    In x (drop_found apt_has deps sources notfound) <->
    In x notfound /\ cache_found apt_has deps sources x = false.
Proof.
  intros Hnd x. unfold drop_found.
  set (step := fun (nf : list nat) (r : nat) =>
                 match nth_error deps r with
                 | Some pkg => if apt_has sources pkg
                               then list_remove r nf else nf
                 | None => nf
                 end).
  assert (Hgen : forall xs nf, NoDup nf ->
             (In x (fold_left step xs nf) <->
              In x nf /\ ~ (In x xs /\ cache_found apt_has deps sources x = true))).
  { induction xs as [|r xs IH]; intros nf Hnf; cbn [fold_left].
    - simpl. tauto.
    - assert (Hstep : NoDup (step nf r)
                      /\ (In x (step nf r) <->
                          In x nf /\ ~ (x = r /\
                            cache_found apt_has deps sources x = true))).
      { unfold step, cache_found.
        destruct (nth_error deps r) as [pkg|] eqn:Er.
        - destruct (apt_has sources pkg) eqn:Ea.
          + destruct (list_remove_spec r nf Hnf) as [H1 H2].
            split; [assumption|]. rewrite H2. split.
            * intros [Hin Hne]. split; [assumption|]. tauto.
            * intros [Hin Hn]. split; [assumption|].
              intros ->. apply Hn. rewrite Er. auto.
          + split; [assumption|]. split; [|tauto].
            intros Hin. split; [assumption|].
            intros [-> H]. rewrite Er in H. congruence.
        - split; [assumption|]. split; [|tauto].
          intros Hin. split; [assumption|].
          intros [-> H]. rewrite Er in H. discriminate. }
      destruct Hstep as [Hnd' Hin']. rewrite (IH _ Hnd'), Hin'. simpl.
      split.
      + intros [[Hin Hn1] Hn2]. split; [assumption|].
        intros [[<-|Hx] Hf]; tauto.
      + intros [Hin Hn]. split; [split; [assumption|]|].
        * intros [-> Hf]. apply Hn. split; [now left|assumption].
        * intros [Hx Hf]. apply Hn. split; [now right|assumption]. }
  destruct (Hgen notfound notfound Hnd) as [G1 G2]. unfold step in G1, G2.
  split.
  - intros H. destruct (G1 H) as [Hin Hn]. split; [assumption|].
    destruct (cache_found apt_has deps sources x); [elim Hn|]; auto.
  - intros [Hin Hf]. apply G2. split; [assumption|].
    intros [_ H]. congruence.
Qed.

Lemma select_sources_two (deps : list Package) (s1 s2 : string)
    (a : list nat) (j : nat) (notfound : list nat) :
  NoDup notfound -> In j notfound ->
  (exists x, In x a /\ In x notfound) ->
  snd (select_sources apt_has deps [(s1, a); (s2, [j])] notfound [])
  = if cache_found apt_has deps [s1] j then [s1] else [s1; s2].
Proof.
  intros Hnd Hj (x & Hxa & Hxn).
  destruct notfound as [|n0 nf] eqn:Enf; [destruct Hj|]. rewrite <- Enf in *.
  cbn [select_sources]. rewrite Enf at 1.
  assert (Hex : existsb (fun p => list_mem p notfound) a = true).
  { apply existsb_exists. exists x. split; [assumption|now apply list_mem_in]. }
  rewrite Hex. cbn [negb app].
  pose proof (drop_found_spec deps [s1] notfound Hnd j) as Hdrop.
  destruct (drop_found apt_has deps [s1] notfound) as [|m0 nf1] eqn:Ed.
  - destruct (cache_found apt_has deps [s1] j); [reflexivity|].
    exfalso. apply (proj2 Hdrop). auto.
  - rewrite <- Ed in *. rewrite Ed at 1.
    cbn [existsb]. rewrite orb_false_r.
    destruct (list_mem j (drop_found apt_has deps [s1] notfound)) eqn:Em.
    + apply list_mem_in, Hdrop in Em. destruct Em as [_ ->].
      cbn [negb app]. destruct (drop_found _ _ _ _); reflexivity.
    + cbn [negb].
      destruct (cache_found apt_has deps [s1] j) eqn:Ef; [reflexivity|].
      assert (In j (drop_found apt_has deps [s1] notfound))
        by (apply Hdrop; auto).
      apply list_mem_in in H. congruence.
Qed.

Lemma scenario_filters (j : nat) :
  j < 10 ->
  filter (fun r => r =? j)%nat (seq 0 10) = [j]
  /\ List.length (filter (fun r => negb (r =? j)%nat) (seq 0 10)) = 9.
Proof.
  intros Hj.
  do 10 (destruct j as [|j]; [split; reflexivity|]). lia.
Qed.

(** C4 (as amended).  The candidates are the buckets in the one stable
    order by decreasing size.  With ten build dependencies, nine of which
    were first seen at [T1] and the one at position [j] at [T2], the
    candidates are the source of [T1] and then the source of [T2]; the
    resolver always selects the source of [T1] first, and selects the
    source of [T2] after it exactly when the cache, refreshed with the
    source of [T1], does not hold the package of [T2]: two sources are
    selected in that case and one otherwise. *)
Theorem resolver_candidate_order :
  (forall (b : BuildInfo) deps d,
      timestamps_loop parsedate snapshot (build_arch b) 0 (build_depends b) []
      = (deps, OK d) ->
      exists l,
        snd (get_build_depends_timestamps parsedate snapshot b) = OK l
        /\ StronglySorted (by_key_desc bucket_size) l
        /\ Permutation d l
        /\ forall n, filter (fun x => bucket_size x =? n)%nat l
                     = filter (fun x => bucket_size x =? n)%nat d)
  /\ (forall (b : BuildInfo) (T1 T2 : string) (j : nat),
      List.length (build_depends b) = 10 -> j < 10 -> T1 <> T2 ->
      (forall i p, nth_error (build_depends b) i = Some p ->
         exists seen, first_seen p = Some seen /\ seen <> ""
           /\ snapshot_timestamp parsedate seen
              = OK (if (i =? j)%nat then T2 else T1)) ->
      let s1 := timestamp_source base_mirror T1 in
      let s2 := timestamp_source base_mirror T2 in
      snd (get_sources_list_from_timestamp parsedate snapshot base_mirror b)
      = OK [(s1, filter (fun r => negb (r =? j)%nat) (seq 0 10)); (s2, [j])]
      /\ fst (find_build_dependencies parsedate snapshot apt_has base_mirror
                                      b [])
         = if cache_found apt_has (build_depends b) [s1] j
           then [s1] else [s1; s2]).
Proof.
  split.
  - intros b deps d Hloop. unfold get_build_depends_timestamps.
    rewrite Hloop. cbn [snd].
    exists (sorted_desc bucket_size d). split; [reflexivity|].
    split; [apply sorted_desc_sorted|].
    split; [apply sorted_desc_perm|]. intros n. apply sorted_desc_stable.
  - intros b T1 T2 j Hlen Hj Hne Hseen s1 s2.
    set (kf := fun r : nat => if (r =? j)%nat then T2 else T1).
    assert (E12 : (T1 =? T2) = false) by now apply String.eqb_neq.
    assert (E21 : (T2 =? T1) = false) by (apply String.eqb_neq; congruence).
    pose proof (timestamps_loop_resolved kf (build_arch b) (build_depends b)
                  0 [] Hseen) as Hloop.
    rewrite Hlen in Hloop.
    destruct (scenario_filters j Hj) as [Hb Ha].
    set (a := filter (fun r => negb (r =? j)%nat) (seq 0 10)) in *.
    set (d := fill_buckets kf (seq 0 10) []) in *.
    assert (Hf1 : filter (fun r => kf r =? T1) (seq 0 10) = a).
    { apply filter_ext. intros r. unfold kf.
      destruct (r =? j)%nat; [exact E21|apply String.eqb_refl]. }
    assert (Hf2 : filter (fun r => kf r =? T2) (seq 0 10) = [j]).
    { rewrite <- Hb. apply filter_ext. intros r. unfold kf.
      destruct (r =? j)%nat; [apply String.eqb_refl|exact E12]. }
    assert (Hg1 : Dict.get d T1 = Some a).
    { unfold d. rewrite fill_buckets_get, Hf1. cbn [Dict.get].
      destruct a; [discriminate Ha|reflexivity]. }
    assert (Hg2 : Dict.get d T2 = Some [j]).
    { unfold d. rewrite fill_buckets_get, Hf2. reflexivity. }
    destruct (fill_buckets_keys kf (seq 0 10) [] (NoDup_nil _)) as [Hnd Hk].
    fold d in Hnd, Hk.
    assert (Hshape : d = [(T1, a); (T2, [j])] \/ d = [(T2, [j]); (T1, a)]).
    { apply two_buckets_shape; auto.
      intros k Hin. destruct (Hk k Hin) as [[]|(r & _ & <-)].
      unfold kf. destruct (r =? j)%nat; auto. }
    assert (Hsorted : sorted_desc bucket_size d = [(T1, a); (T2, [j])]).
    { destruct Hshape as [Hd | Hd]; rewrite Hd;
        cbn [sorted_desc insert_desc];
        unfold bucket_size; cbn [snd]; rewrite Ha; reflexivity. }
    assert (Hts : get_build_depends_timestamps parsedate snapshot b
                  = (set_build_depends (build_depends b) b,
                     OK [(T1, a); (T2, [j])])).
    { unfold get_build_depends_timestamps. rewrite Hloop.
      change (fun x : string * list nat => List.length (snd x))
        with bucket_size.
      now rewrite Hsorted. }
    assert (Hsl : get_sources_list_from_timestamp parsedate snapshot
                    base_mirror b
                  = (set_build_depends (build_depends b) b,
                     OK [(s1, a); (s2, [j])])).
    { unfold get_sources_list_from_timestamp. rewrite Hts. reflexivity. }
    split; [now rewrite Hsl|].
    unfold find_build_dependencies. rewrite Hsl, Hlen.
    cbn [build_depends set_build_depends].
    pose proof (select_sources_two (build_depends b) s1 s2 a j (seq 0 10))
      as Hsel.
    destruct (select_sources apt_has (build_depends b)
                [(s1, a); (s2, [j])] (seq 0 10) []) as [nf req].
    cbn [snd] in Hsel.
    assert (Hreq : req = if cache_found apt_has (build_depends b) [s1] j
                         then [s1] else [s1; s2]).
    { apply Hsel.
      - apply seq_NoDup.
      - apply in_seq. lia.
      - destruct a as [|x a'] eqn:Ea; [discriminate Ha|].
        exists x. split; [now left|].
        assert (Hx : In x a) by (rewrite Ea; now left).
        unfold a in Hx. apply filter_In in Hx. tauto. }
    destruct nf; cbn [fst]; exact Hreq.
Qed.

End ResolverFacts.

Lemma resolver_candidate_order_witness :
  snd (get_sources_list_from_timestamp parsedate_two no_snapshot mirror ten_bi)
  = OK [(timestamp_source mirror march, [0; 1; 2; 4; 5; 6; 7; 8; 9]);
        (timestamp_source mirror january, [3])]
  /\ fst (find_build_dependencies parsedate_two no_snapshot apt_own mirror
                                  ten_bi [])
     = [timestamp_source mirror march; timestamp_source mirror january].
Proof.
  refine (proj2 (resolver_candidate_order parsedate_two no_snapshot apt_own
                   mirror) ten_bi march january 3 eq_refl _ _ _).
  - unfold lt. repeat constructor.
  - discriminate.
  - intros i p H.
    do 10 (destruct i as [|i];
           [injection H as <-; eexists;
            split; [reflexivity|split; [discriminate|reflexivity]]|]).
    destruct i; discriminate H.
Defined.

(** C4 (counterexample).  Nine of the ten build dependencies were first
    seen in March and one in January, and the snapshot of March still holds
    that one: the resolver selects the source of March, finds all ten
    packages in the cache, and stops.  One source is selected, not two. *)
Lemma resolver_selects_one_source :
  List.length (filter (fun p => opt_eqb (first_seen p) (Some march)) ten_deps)
  = 9
  /\ List.length
       (filter (fun p => opt_eqb (first_seen p) (Some january)) ten_deps) = 1
  /\ find_build_dependencies parsedate_two no_snapshot apt_all mirror ten_bi []
     = (["deb http://snapshot.debian.org/archive/debian/20210301T000000Z unstable main"],
        OK tt).
Proof.
  repeat split; vm_compute; reflexivity.
Qed.

(** * Properties of the rest of the script, and more of the parser *)

(** ** Python strings *)

Lemma append_nil_r (s : string) : s ++ "" = s.
Proof. induction s; simpl; congruence. Qed.

Lemma no_space_no_newline (s : string) :
  no_space s = true -> no_newline s = true.
Proof.
  induction s as [|c s IH]; simpl; [reflexivity|].
  intros H. apply andb_true_iff in H. destruct H as [Hc Hs].
  rewrite (IH Hs), andb_true_r.
  destruct (Ascii.eqb_spec c Py.newline) as [->|]; [discriminate Hc|reflexivity].
Qed.

Lemma no_newline_app (a b : string) :
  no_newline (a ++ b) = no_newline a && no_newline b.
Proof.
  induction a as [|c a IH]; simpl; [reflexivity|].
  now rewrite IH, andb_assoc.
Qed.

Lemma token_inv (t : string) :
  token t = true ->
  exists c t', t = String c t' /\ Py.isspace c = false /\ no_space t' = true.
Proof.
  unfold token. destruct t as [|c t']; [discriminate|].
  simpl. intros H. apply andb_true_iff in H. destruct H as [Hc Ht].
  exists c, t'. repeat split; auto. now apply negb_true_iff.
Qed.

(** A single token is what [split] returns for it. *)
Lemma split_token (t : string) : token t = true -> Py.split t = [t].
Proof.
  intros H. destruct (token_inv t H) as (c & t' & -> & Hc & Ht). clear H.
  revert c Hc. induction t' as [|c' t' IH]; intros c Hc.
  - simpl. now rewrite Hc.
  - simpl in Ht. apply andb_true_iff in Ht. destruct Ht as [Hc' Ht].
    apply negb_true_iff in Hc'.
    change (Py.split (String c (String c' t')))
      with (if Py.isspace c then Py.split (String c' t')
            else if Py.isspace c' then String c "" :: Py.split (String c' t')
                 else match Py.split (String c' t') with
                      | h :: t => String c h :: t
                      | [] => [String c ""]
                      end).
    rewrite Hc, Hc', (IH Ht c' Hc'). reflexivity.
Qed.

(** A token, a blank and more text: the token, then the tokens of the
    rest. *)
Lemma split_token_blank (t rest : string) :
  token t = true -> Py.split (t ++ " " ++ rest) = t :: Py.split rest.
Proof.
  intros H. destruct (token_inv t H) as (c & t' & -> & Hc & Ht). clear H.
  revert c Hc. induction t' as [|c' t' IH]; intros c Hc.
  - cbn [append].
    change (Py.split (String c (String " " rest)))
      with (if Py.isspace c then Py.split (String " " rest)
            else if Py.isspace " " then String c "" :: Py.split (String " " rest)
                 else match Py.split (String " " rest) with
                      | h :: t => String c h :: t
                      | [] => [String c ""]
                      end).
    rewrite Hc. reflexivity.
  - simpl in Ht. apply andb_true_iff in Ht. destruct Ht as [Hc' Ht].
    apply negb_true_iff in Hc'. cbn [append].
    change (Py.split (String c (String c' (t' ++ String " " rest))))
      with (if Py.isspace c then Py.split (String c' (t' ++ String " " rest))
            else if Py.isspace c'
                 then String c "" :: Py.split (String c' (t' ++ String " " rest))
                 else match Py.split (String c' (t' ++ String " " rest)) with
                      | h :: t => String c h :: t
                      | [] => [String c ""]
                      end).
    rewrite Hc, Hc'.
    change (String c' (t' ++ String " " rest))
      with (String c' t' ++ " " ++ rest).
    rewrite (IH Ht c' Hc'). reflexivity.
Qed.

Lemma split_blank (s : string) : Py.split (" " ++ s) = Py.split s.
Proof. reflexivity. Qed.

(** The lines of a text: a line without newline, a newline and more text. *)
Lemma split_chr_line (l rest : string) :
  no_newline l = true ->
  Py.split_chr Py.newline (l ++ nl ++ rest)
  = l :: Py.split_chr Py.newline rest.
Proof.
  induction l as [|c l IH]; intros H.
  - reflexivity.
  - simpl in H. apply andb_true_iff in H. destruct H as [Hc Hl].
    apply negb_true_iff in Hc. cbn [append Py.split_chr].
    rewrite Hc. change (l ++ String Py.newline rest) with (l ++ nl ++ rest).
    now rewrite (IH Hl).
Qed.

Lemma split_chr_last (l : string) :
  no_newline l = true -> Py.split_chr Py.newline l = [l].
Proof.
  induction l as [|c l IH]; intros H; [reflexivity|].
  simpl in H. apply andb_true_iff in H. destruct H as [Hc Hl].
  apply negb_true_iff in Hc. cbn [Py.split_chr]. now rewrite Hc, (IH Hl).
Qed.

Lemma split_chr_folded (l : string) (bodies : list string) :
  no_newline l = true ->
  Forall (fun b => no_newline b = true) bodies ->
  Py.split_chr Py.newline (l ++ folded bodies)
  = l :: map (fun b => " " ++ b) bodies.
Proof.
  intros Hl Hb. revert l Hl.
  induction Hb as [|b bodies Hb _ IH]; intros l Hl; cbn [folded fold_right map].
  - rewrite append_nil_r. now apply split_chr_last.
  - fold (folded bodies). rewrite split_chr_line by assumption.
    f_equal.
    change (" " ++ b ++ folded bodies) with (String " " (b ++ folded bodies)).
    change (String " " (b ++ folded bodies)) with ((" " ++ b) ++ folded bodies).
    apply IH. exact Hb.
Qed.

(** [folded_lines] undoes [folded]. *)
Lemma folded_lines_folded (bodies : list string) :
  bodies <> [] ->
  Forall (fun b => no_newline b = true) bodies ->
  folded_lines (folded bodies) = map (fun b => " " ++ b) bodies.
Proof.
  intros Hne Hb. destruct bodies as [|b bodies]; [congruence|].
  inversion Hb as [|? ? Hb1 Hb2]; subst.
  unfold folded_lines. cbn [folded fold_right map]. fold (folded bodies).
  change (Py.lstrip_nl (nl ++ " " ++ b ++ folded bodies))
    with ((" " ++ b) ++ folded bodies).
  apply split_chr_folded; assumption.
Qed.

(** ** The greedy groups of the patterns *)

Lemma greedy_dot_prepend {B} (next : string -> option B) (g rest : string) b :
  no_newline g = true ->
  Py.greedy_dot next rest = Some ("", b) ->
  Py.greedy_dot next (g ++ rest) = Some (g, b).
Proof.
  intros Hg Hrest. induction g as [|c g IH]; [exact Hrest|].
  simpl in Hg. apply andb_true_iff in Hg. destruct Hg as [Hc Hg].
  apply negb_true_iff in Hc.
  cbn [append]. rewrite greedy_dot_cons, Hc, (IH Hg). reflexivity.
Qed.

Lemma greedy_dot_here {B} (next : string -> option B) (c : ascii) (s : string) b :
  next (String c s) = Some b ->
  Py.greedy_dot next s = None ->
  Py.greedy_dot next (String c s) = Some ("", b).
Proof.
  intros Hn Hs. rewrite greedy_dot_cons, Hn, Hs.
  destruct (Ascii.eqb c Py.newline); reflexivity.
Qed.

Lemma greedy_dot_none_cons {B} (next : string -> option B) (c : ascii) (s : string) :
  next (String c s) = None ->
  Py.greedy_dot next s = None ->
  Py.greedy_dot next (String c s) = None.
Proof.
  intros Hn Hs. rewrite greedy_dot_cons, Hn, Hs.
  destruct (Ascii.eqb c Py.newline); reflexivity.
Qed.

Lemma has_chr_drop (c : ascii) (n : nat) (s : string) :
  has_chr c s = false -> has_chr c (Py.drop n s) = false.
Proof.
  revert s. induction n as [|n IH]; intros s H; [destruct s; exact H|].
  destruct s as [|c' s]; [exact H|].
  simpl in H. apply orb_false_iff in H. cbn [Py.drop]. apply IH. tauto.
Qed.

Lemma dep_version_group_none (s : string) :
  has_chr ")" s = false -> dep_version_group s = None.
Proof.
  unfold dep_version_group. induction s as [|c s IH]; intros H; [reflexivity|].
  simpl in H. apply orb_false_iff in H. destruct H as [Hc Hs].
  apply greedy_dot_none_cons; [|auto].
  unfold Py.expect. cbn [prefix].
  destruct (ascii_dec ")" c) as [<-|]; [discriminate Hc|reflexivity].
Qed.

Lemma dep_version_group_takes (V tail : string) :
  no_newline V = true -> has_chr ")" tail = false ->
  dep_version_group (V ++ ")" ++ tail) = Some (V, tt).
Proof.
  intros HV Ht. unfold dep_version_group.
  apply greedy_dot_prepend; [assumption|].
  apply greedy_dot_here.
  - change (String ")" tail) with (")" ++ tail). now rewrite expect_app.
  - now apply dep_version_group_none.
Qed.

Lemma dep_name_group_none_tail (s : string) :
  has_chr ")" s = false -> dep_name_group s = None.
Proof.
  unfold dep_name_group. induction s as [|c s IH]; intros H.
  - reflexivity.
  - apply greedy_dot_none_cons.
    + unfold Py.expect. destruct (prefix " (= " (String c s)); [|reflexivity].
      apply dep_version_group_none. now apply has_chr_drop.
    + simpl in H. apply orb_false_iff in H. apply IH. tauto.
Qed.

Lemma prefix_open_false (s : string) :
  has_chr "(" s = false -> forall rest, prefix "(= " (s ++ ")" ++ rest) = false.
Proof.
  intros H rest. destruct s as [|c s]; cbn [append prefix].
  - destruct (ascii_dec "(" ")") as [E|]; [discriminate E|reflexivity].
  - simpl in H. apply orb_false_iff in H. destruct H as [Hc _].
    destruct (ascii_dec "(" c) as [<-|]; [discriminate Hc|reflexivity].
Qed.

Lemma dep_name_group_none_version (V tail : string) :
  has_chr "(" V = false -> has_chr ")" tail = false ->
  dep_name_group (V ++ ")" ++ tail) = None.
Proof.
  intros HV Ht. induction V as [|c V IH].
  - apply dep_name_group_none_tail in Ht. unfold dep_name_group in *.
    cbn [append]. apply greedy_dot_none_cons; [reflexivity|exact Ht].
  - simpl in HV. apply orb_false_iff in HV. destruct HV as [Hc HV].
    specialize (IH HV). unfold dep_name_group in *. cbn [append].
    apply greedy_dot_none_cons; [|exact IH].
    unfold Py.expect. cbn [prefix].
    destruct (ascii_dec " " c); [|reflexivity].
    change (V ++ String ")" tail) with (V ++ ")" ++ tail).
    now rewrite (prefix_open_false V HV).
Qed.

Lemma dep_name_group_takes (N V tail : string) :
  no_newline N = true -> no_newline V = true ->
  has_chr "(" V = false -> has_chr ")" tail = false ->
  dep_name_group (N ++ " (= " ++ V ++ ")" ++ tail) = Some (N, (V, tt)).
Proof.
  intros HN HV Hopen Ht. unfold dep_name_group.
  apply greedy_dot_prepend; [assumption|].
  change (" (= " ++ V ++ ")" ++ tail)
    with (String " " (String "(" (String "=" (String " " (V ++ ")" ++ tail))))).
  apply greedy_dot_here.
  - change (String " " (String "(" (String "=" (String " " (V ++ ")" ++ tail)))))
      with (" (= " ++ V ++ ")" ++ tail).
    rewrite expect_app. now apply dep_version_group_takes.
  - apply greedy_dot_none_cons; [reflexivity|].
    apply greedy_dot_none_cons; [reflexivity|].
    apply greedy_dot_none_cons.
    + unfold Py.expect. cbn [prefix].
      destruct (ascii_dec " " " "); [|reflexivity].
      now rewrite (prefix_open_false V Hopen).
    + now apply dep_name_group_none_version.
Qed.

(** ** [parsePkgBuildDepend] and the [Installed-Build-Depends] field *)

(** X1.  A line made of a name, [ (= ], a version without an opening
    parenthesis, a closing parenthesis and a tail without one (the comma,
    if any) parses into the package of that name and version, both
    stripped, with no architecture, date or hash. *)
Theorem parsePkgBuildDepend_pinned (N V tail : string) :
  no_newline N = true -> no_newline V = true ->
  has_chr "(" V = false -> has_chr ")" tail = false ->
  parsePkgBuildDepend (N ++ " (= " ++ V ++ ")" ++ tail)
  = Some (mkPackage (Py.strip N) (Py.strip V) None None None).
Proof.
  intros HN HV Hopen Ht.
  pose proof (dep_name_group_takes N V tail HN HV Hopen Ht) as H.
  unfold parsePkgBuildDepend, Py.match_build_depend.
  unfold dep_name_group, dep_version_group in H. rewrite H. reflexivity.
Qed.

Lemma parsePkgBuildDepend_pinned_witness :
  parsePkgBuildDepend " g++-mingw-w64-x86-64 (= 8.3.0-26+21.5+b1),"
  = Some (mkPackage "g++-mingw-w64-x86-64" "8.3.0-26+21.5+b1" None None None).
Proof.
  exact (parsePkgBuildDepend_pinned " g++-mingw-w64-x86-64" "8.3.0-26+21.5+b1"
           "," eq_refl eq_refl eq_refl eq_refl).
Defined.

Lemma strip_token (t : string) : token t = true -> Py.strip t = t.
Proof.
  intros H. destruct (token_inv t H) as (c & t' & -> & Hc & Ht). clear H.
  unfold Py.strip. cbn [Py.lstrip]. rewrite Hc.
  revert c Hc. induction t' as [|c' t' IH]; intros c Hc.
  - simpl. now rewrite Hc.
  - simpl in Ht. apply andb_true_iff in Ht. destruct Ht as [Hc' Ht].
    apply negb_true_iff in Hc'.
    change (Py.rstrip (String c (String c' t')))
      with (match Py.rstrip (String c' t') with
            | "" => if Py.isspace c then "" else String c ""
            | r => String c r
            end).
    now rewrite (IH Ht c' Hc').
Qed.

Lemma dep_name_group_none (s : string) :
  occurs " (= " s = false -> dep_name_group s = None.
Proof.
  unfold dep_name_group. induction s as [|c s IH]; intros H; [reflexivity|].
  cbn [occurs] in H. apply orb_false_iff in H. destruct H as [Hp Hs].
  apply greedy_dot_none_cons; [|auto].
  unfold Py.expect. now rewrite Hp.
Qed.

Lemma handle_item_depends (b : BuildInfo) (value : string) :
  handle_item b ("Installed-Build-Depends", value)
  = bind (for_each build_depends_line (folded_lines value) (build_depends b))
         (fun deps => OK (set_build_depends deps b)).
Proof.
  assert (H : forall r : result (list Package),
             bind (bind r (fun deps => OK (set_build_depends deps b)))
                  (fun b0 => OK b0)
             = bind r (fun deps => OK (set_build_depends deps b)))
    by (intros [deps|e]; reflexivity).
  rewrite <- H. reflexivity.
Qed.

Lemma build_depends_lines_ok (lines : list string) (pkgs deps : list Package) :
  Forall2 (fun line p => parsePkgBuildDepend line = Some p) lines pkgs ->
  for_each build_depends_line lines deps = OK (deps ++ pkgs)%list.
Proof.
  intros H. revert deps. induction H as [|line p lines pkgs Hp _ IH]; intros deps.
  - simpl. now rewrite app_nil_r.
  - simpl. unfold build_depends_line at 1. rewrite Hp. simpl.
    rewrite IH, <- app_assoc. reflexivity.
Qed.

(** X2.  The handler of [Installed-Build-Depends] raises [InvalidField],
    with the line, at the first line that holds no [ (= ], once the lines
    before it have parsed; an empty value is such a line.  Nothing is
    skipped. *)
Theorem build_depends_malformed_line
    (b : BuildInfo) (value : string) (before after : list string)
    (line : string) (pkgs : list Package) :
  folded_lines value = (before ++ line :: after)%list ->
  Forall2 (fun l p => parsePkgBuildDepend l = Some p) before pkgs ->
  occurs " (= " line = false ->
  handle_item b ("Installed-Build-Depends", value) = Raise (InvalidField line).
Proof.
  intros Hlines Hbefore Hline.
  rewrite handle_item_depends, Hlines, for_each_app.
  rewrite (build_depends_lines_ok before pkgs _ Hbefore).
  cbn [bind for_each]. unfold build_depends_line at 1.
  unfold parsePkgBuildDepend, Py.match_build_depend.
  pose proof (dep_name_group_none line Hline) as H.
  unfold dep_name_group, dep_version_group in H. now rewrite H.
Qed.

Lemma build_depends_malformed_line_witness :
  handle_item BuildInfo_empty ("Installed-Build-Depends", "")
  = Raise (InvalidField "").
Proof.
  exact (build_depends_malformed_line BuildInfo_empty "" [] [] "" []
           eq_refl (Forall2_nil _) eq_refl).
Defined.

Lemma depends_body_parses (nv : string * string) :
  token (fst nv) = true -> token (snd nv) = true ->
  has_chr "(" (snd nv) = false ->
  parsePkgBuildDepend (" " ++ depends_body nv)
  = Some (Package_init (fst nv) (snd nv) None).
Proof.
  destruct nv as [n v]. cbn [fst snd]. intros Hn Hv Hopen.
  unfold depends_body. cbn [fst snd].
  change (" " ++ n ++ " (= " ++ v ++ "),")
    with ((" " ++ n) ++ " (= " ++ v ++ ")" ++ ",").
  assert (Hnn : no_newline (" " ++ n) = true).
  { change (no_newline n = true).
    apply andb_true_iff in Hn. destruct Hn as [_ Hn].
    now apply no_space_no_newline. }
  assert (Hvn : no_newline v = true).
  { apply andb_true_iff in Hv. destruct Hv as [_ Hv].
    now apply no_space_no_newline. }
  pose proof (dep_name_group_takes (" " ++ n) v "," Hnn Hvn Hopen eq_refl) as H.
  unfold parsePkgBuildDepend, Py.match_build_depend.
  unfold dep_name_group, dep_version_group in H. rewrite H.
  change (Py.strip (" " ++ n)) with (Py.strip n).
  now rewrite (strip_token n Hn), (strip_token v Hv).
Qed.

Lemma token_no_newline (t : string) : token t = true -> no_newline t = true.
Proof.
  intros H. apply andb_true_iff in H. destruct H as [_ H].
  now apply no_space_no_newline.
Qed.

(** X3.  The handler of [Installed-Build-Depends], on the folded lines
    [name (= version),] of a list of pinned packages, appends to
    [build_depends] exactly these packages, in the order of the lines,
    each with its name and version and nothing else. *)
Theorem build_depends_field_parses
    (b : BuildInfo) (pairs : list (string * string)) :
  pairs <> [] -> Forall pinned pairs ->
  handle_item b ("Installed-Build-Depends", folded (map depends_body pairs))
  = OK (set_build_depends
          (build_depends b
           ++ map (fun nv => Package_init (fst nv) (snd nv) None) pairs)%list
          b).
Proof.
  intros Hne Hp. rewrite handle_item_depends, folded_lines_folded.
  - rewrite (build_depends_lines_ok _
               (map (fun nv => Package_init (fst nv) (snd nv) None) pairs)).
    + reflexivity.
    + clear Hne. induction Hp as [|nv pairs (Hn & Hv & Ho) _ IH];
        cbn [map]; constructor; auto.
      now apply depends_body_parses.
  - destruct pairs; [congruence|discriminate].
  - apply Forall_map. eapply Forall_impl; [|exact Hp].
    intros [n v] (Hn & Hv & _). unfold depends_body. cbn [fst snd] in *.
    rewrite !no_newline_app, (token_no_newline n Hn), (token_no_newline v Hv).
    reflexivity.
Qed.

Lemma build_depends_field_parses_witness :
  handle_item BuildInfo_empty
    ("Installed-Build-Depends",
     folded (map depends_body [("base-files", "11.1"); ("libc6", "2.31-13")]))
  = OK (set_build_depends
          [Package_init "base-files" "11.1" None;
           Package_init "libc6" "2.31-13" None] BuildInfo_empty).
Proof.
  refine (build_depends_field_parses BuildInfo_empty
            [("base-files", "11.1"); ("libc6", "2.31-13")] _ _).
  - discriminate.
  - repeat constructor.
Defined.

(** ** The [Checksums] fields *)

Lemma get_app {V} (d d' : Dict.t V) k :
  Dict.get (d ++ d')%list k =
  match Dict.get d k with Some v => Some v | None => Dict.get d' k end.
Proof.
  induction d as [|[k' v'] d IH]; simpl; [reflexivity|].
  destruct (k' =? k); auto.
Qed.

Lemma set_fresh {V} (d : Dict.t V) k v :
  Dict.get d k = None -> Dict.set d k v = (d ++ [(k, v)])%list.
Proof.
  induction d as [|[k' v'] d IH]; simpl; [reflexivity|].
  destruct (k' =? k); [discriminate|]. intros H. now rewrite IH.
Qed.

Lemma set_last {V} (d : Dict.t V) k v0 v :
  Dict.get d k = None ->
  Dict.set (d ++ [(k, v0)])%list k v = (d ++ [(k, v)])%list.
Proof.
  induction d as [|[k' v'] d IH]; simpl.
  - now rewrite String.eqb_refl.
  - destruct (k' =? k); [discriminate|]. intros H. now rewrite IH.
Qed.

Lemma checksums_line_fresh alg cs (e : string * string * string) :
  checksum_entry e ->
  Dict.get cs (checksum_file e) = None ->
  checksums_line alg cs (" " ++ checksums_body e)
  = OK (cs ++ [checksum_record alg e])%list.
Proof.
  destruct e as [[h sz] f]. unfold checksum_file, checksum_record.
  cbn [snd checksum_entry checksums_body].
  intros (Hh & Hsz & Hf) Hfresh.
  unfold checksums_line.
  rewrite split_blank, (split_token_blank h _ Hh), (split_token_blank sz _ Hsz),
    (split_token f Hf), Hfresh.
  rewrite get_set_same.
  rewrite (set_fresh cs f [] Hfresh), (set_last cs f _ _ Hfresh).
  f_equal. f_equal. f_equal. f_equal.
  cbn [Dict.set]. rewrite (String.eqb_sym "size" alg).
  destruct (alg =? "size") eqn:E.
  - cbn [fold_left fst snd Dict.set]. reflexivity.
  - cbn [fold_left fst snd Dict.set].
    rewrite (String.eqb_sym "size" alg), E. reflexivity.
Qed.

Lemma checksums_lines_fresh alg (entries : list (string * string * string)) :
  Forall checksum_entry entries ->
  NoDup (map checksum_file entries) ->
  forall cs,
    (forall e, In e entries -> Dict.get cs (checksum_file e) = None) ->
    for_each (checksums_line alg)
             (map (fun b => " " ++ b) (map checksums_body entries)) cs
    = OK (cs ++ map (checksum_record alg) entries)%list.
Proof.
  intros He. induction He as [|e entries He1 _ IH]; intros Hnd cs Hfresh.
  - simpl. now rewrite app_nil_r.
  - cbn [map for_each]. inversion Hnd as [|? ? Hnot Hnd']; subst.
    rewrite (checksums_line_fresh alg cs e He1)
      by (apply Hfresh; now left).
    cbn [bind]. rewrite (IH Hnd').
    + now rewrite <- app_assoc.
    + intros e' He'. rewrite get_app, (Hfresh e') by now right.
      destruct e as [[h sz] f]. cbn [checksum_record Dict.get].
      destruct (String.eqb_spec f (checksum_file e')) as [E|]; [|reflexivity].
      elim Hnot. cbn [checksum_file snd]. rewrite E.
      now apply in_map.
Qed.

(** X4.  The handler of a [Checksums-<alg>] field, on the folded lines
    [hash size filename] of distinct files that the map does not hold yet,
    appends one entry for each file, in the order of the lines: the size
    under [size] and the hash under the name of the algorithm in lower
    case.  For a field [Checksums-Size] that name is [size] itself, and the
    entry is the hash alone, under [size]. *)
Theorem checksums_field_parses
    (field : string) (entries : list (string * string * string))
    (cs : checksums_t) :
  entries <> [] -> Forall checksum_entry entries ->
  NoDup (map checksum_file entries) ->
  (forall e, In e entries -> Dict.get cs (checksum_file e) = None) ->
  checksums_field field (folded (map checksums_body entries)) cs
  = OK (cs ++ map (checksum_record
                     (Py.lower (Py.replace field "Checksums-" "")))
                  entries)%list.
Proof.
  intros Hne He Hnd Hfresh. unfold checksums_field.
  rewrite folded_lines_folded.
  - now apply checksums_lines_fresh.
  - destruct entries; [congruence|discriminate].
  - apply Forall_map. eapply Forall_impl; [|exact He].
    intros [[h sz] f] (Hh & Hsz & Hf). cbn [checksums_body].
    rewrite !no_newline_app, (token_no_newline h Hh),
      (token_no_newline sz Hsz), (token_no_newline f Hf).
    reflexivity.
Qed.

Lemma checksums_field_parses_witness :
  checksums_field "Checksums-Sha256"
    (folded (map checksums_body [("bb22", "5678", "hello_2.10-2_amd64.deb")]))
    []
  = OK [("hello_2.10-2_amd64.deb", [("size", "5678"); ("sha256", "bb22")])]
  /\ checksums_field "Checksums-Size"
       (folded (map checksums_body [("bb22", "5678", "hello_2.10-2_amd64.deb")]))
       []
     = OK [("hello_2.10-2_amd64.deb", [("size", "bb22")])].
Proof.
  split.
  - refine (checksums_field_parses "Checksums-Sha256"
              [("bb22", "5678", "hello_2.10-2_amd64.deb")] [] _ _ _ _).
    + discriminate.
    + repeat constructor.
    + repeat constructor. intros [].
    + intros e _. reflexivity.
  - refine (checksums_field_parses "Checksums-Size"
              [("bb22", "5678", "hello_2.10-2_amd64.deb")] [] _ _ _ _).
    + discriminate.
    + repeat constructor.
    + repeat constructor. intros [].
    + intros e _. reflexivity.
Defined.

Lemma checksums_line_raises alg cs line e :
  checksums_line alg cs line = Raise e -> e = PyIndexError.
Proof.
  unfold checksums_line.
  destruct (Py.split line) as [|h [|sz [|f more]]]; intros [= <-]; reflexivity.
Qed.

(** X5.  A [Checksums-<alg>] field is accepted exactly when each of its
    lines has three tokens or more; a line with fewer, such as the single
    empty line of an empty value or a blank line at the end, raises
    [IndexError]. *)
Theorem checksums_field_index_error
    (field value : string) (cs : checksums_t) :
  (Forall (fun l => 3 <= List.length (Py.split l)) (folded_lines value) ->
   exists cs', checksums_field field value cs = OK cs')
  /\ (Exists (fun l => List.length (Py.split l) < 3) (folded_lines value) ->
      checksums_field field value cs = Raise PyIndexError).
Proof.
  unfold checksums_field. split; [apply checksums_lines_ok|].
  generalize (Py.lower (Py.replace field "Checksums-" "")) as alg.
  intros alg H. revert cs.
  induction H as [line lines Hbad|line lines _ IH]; intros cs; cbn [for_each].
  - unfold checksums_line at 1.
    destruct (Py.split line) as [|h [|sz [|f more]]]; try reflexivity.
    simpl in Hbad. lia.
  - destruct (checksums_line alg cs line) as [cs1|e] eqn:E; cbn [bind].
    + apply IH.
    + now rewrite (checksums_line_raises _ _ _ _ E).
Qed.

Lemma checksums_field_index_error_witness :
  checksums_field "Checksums-Sha256" "" [] = Raise PyIndexError.
Proof.
  refine (proj2 (checksums_field_index_error "Checksums-Sha256" "" []) _).
  left. simpl. lia.
Defined.

(** ** What [BuildInfo.__init__] returns *)

Lemma for_each_filter {A S} (body : S -> A -> result S) (p : A -> bool) :
  (forall s x, p x = false -> body s x = OK s) ->
  forall xs s, for_each body (filter p xs) s = for_each body xs s.
Proof.
  intros Hskip. induction xs as [|x xs IH]; intros s; [reflexivity|].
  cbn [filter for_each]. destruct (p x) eqn:E.
  - cbn [for_each]. destruct (body s x); [apply IH|reflexivity].
  - rewrite (Hskip s x E). cbn [bind]. apply IH.
Qed.

Lemma handle_item_unknown (b : BuildInfo) (item : string * string) :
  known_field item = false -> handle_item b item = OK b.
Proof.
  destruct item as [field value]. unfold known_field. cbn [fst existsb].
  intros H. apply orb_false_iff in H. destruct H as [Hk Hs].
  repeat (apply orb_false_iff in Hk; destruct Hk as [? Hk]).
  unfold handle_item.
  repeat match goal with
         | E : (field =? _) = false |- _ => rewrite E; clear E
         end.
  rewrite Hs. reflexivity.
Qed.

(** X6.  Fields that the parser does not know leave no trace: a file and
    the same file without them parse alike, to the same [BuildInfo] or to
    the same error.  A field name in another case is such a field. *)
Theorem BuildInfo_init_ignores_unknown
    (candidate : string) (paragraphs : list (list (string * string))) :
  BuildInfo_init candidate (Some (map (filter known_field) paragraphs))
  = BuildInfo_init candidate (Some paragraphs).
Proof.
  unfold BuildInfo_init, scan_paragraphs. f_equal.
  assert (Hc : List.concat (map (filter known_field) paragraphs)
               = filter known_field (List.concat paragraphs)).
  { induction paragraphs as [|p ps IH]; [reflexivity|].
    cbn [map List.concat]. now rewrite filter_app, IH. }
  rewrite Hc. apply for_each_filter.
  intros s x Hx. now apply handle_item_unknown.
Qed.

Lemma handle_item_checksums_invariant (P : checksums_t -> Prop) :
  (forall alg cs line cs', P cs -> checksums_line alg cs line = OK cs' -> P cs') ->
  forall b item b',
    P (checksums b) -> handle_item b item = OK b' -> P (checksums b').
Proof.
  intros Hline b item b' Hb H. destruct item as [field value].
  unfold handle_item in H. cbv zeta in H.
  match type of H with
  | context [checksums_field field value (checksums ?x)] =>
      assert (Hx : checksums x = checksums b)
        by (repeat (rewrite checksums_if; [|reflexivity]); reflexivity);
      remember x as b8 eqn:E8; clear E8
  end.
  assert (H1 : forall b1,
             (if Py.startswith field "Checksums-"
              then bind (checksums_field field value (checksums b8))
                        (fun cs => OK (set_checksums cs b8))
              else OK b8) = OK b1 ->
             P (checksums b1)).
  { intros b1 Hb1. destruct (Py.startswith field "Checksums-").
    - destruct (checksums_field field value (checksums b8)) as [cs|e] eqn:Ec;
        [|discriminate Hb1].
      injection Hb1 as <-. cbn [checksums set_checksums].
      unfold checksums_field in Ec.
      eapply (for_each_invariant P); [|  |exact Ec].
      + intros s x s'. apply Hline.
      + now rewrite Hx.
    - injection Hb1 as <-. now rewrite Hx. }
  destruct (if Py.startswith field "Checksums-" then _ else _)
    as [b1|e] eqn:E1; [|discriminate H].
  specialize (H1 b1 eq_refl). cbn [bind] in H.
  destruct (field =? "Installed-Build-Depends").
  - destruct (for_each build_depends_line _ _) as [deps|e];
      [|discriminate H].
    cbn [bind] in H. destruct (field =? "Environment");
      injection H as <-; exact H1.
  - cbn [bind] in H. destruct (field =? "Environment");
      injection H as <-; exact H1.
Qed.

Lemma BuildInfo_init_checksums_invariant (P : checksums_t -> Prop) :
  P [] ->
  (forall alg cs line cs', P cs -> checksums_line alg cs line = OK cs' -> P cs') ->
  forall candidate file b,
    BuildInfo_init candidate file = OK b -> P (checksums b).
Proof.
  intros Hnil Hline candidate file b.
  unfold BuildInfo_init. destruct file as [paragraphs|]; [|discriminate].
  destruct (scan_paragraphs paragraphs) as [b0|e] eqn:Es; [|discriminate].
  cbn [bind]. intros H.
  assert (H0 : P (checksums b0)).
  { unfold scan_paragraphs in Es.
    eapply (for_each_invariant (fun x => P (checksums x))); [|  |exact Es].
    - intros s x s'. now apply handle_item_checksums_invariant.
    - exact Hnil. }
  unfold finish_init in H.
  destruct (bi_architecture b0); [|discriminate H].
  destruct (1 <? _)%nat; [discriminate H|].
  destruct (negb _); [discriminate H|].
  injection H as <-.
  destruct (Py.truthy (host_arch _)), (Py.truthy (build_path _)); exact H0.
Qed.

Lemma set_keeps_head {V} (d : Dict.t V) k0 v0 rest k v :
  d = (k0, v0) :: rest ->
  exists v0' rest', Dict.set d k v = (k0, v0') :: rest'.
Proof.
  intros ->. simpl. destruct (k0 =? k); eauto.
Qed.

Lemma fold_set_size_first (lit entry : Dict.t string) :
  (entry = [] \/ exists s r, entry = ("size", s) :: r) ->
  (exists x more, lit = ("size", x) :: more) ->
  exists s1 r1,
    fold_left (fun e kv => Dict.set e (fst kv) (snd kv)) lit entry
    = ("size", s1) :: r1.
Proof.
  intros Hentry (x & more & ->). cbn [fold_left fst snd].
  assert (Hfirst : exists s r, Dict.set entry "size" x = ("size", s) :: r).
  { destruct Hentry as [-> | (s & r & ->)]; simpl; eauto. }
  destruct Hfirst as (s & r & ->).
  generalize s r. clear. induction more as [|[k v] l IHl]; intros s r;
    cbn [fold_left fst snd].
  - eauto.
  - destruct (set_keeps_head (("size", s) :: r) "size" s r k v eq_refl)
      as (s1 & r1 & E).
    rewrite E. apply IHl.
Qed.

Lemma checksums_line_size_first alg cs line cs' :
  size_first cs -> checksums_line alg cs line = OK cs' -> size_first cs'.
Proof.
  intros Hcs H. unfold checksums_line in H.
  destruct (Py.split line) as [|h [|sz [|f more]]]; try discriminate H.
  injection H as <-. intros g e.
  destruct (String.eqb_spec f g) as [<-|Hne].
  - rewrite get_set_same. intros [= <-].
    apply fold_set_size_first.
    + destruct (Dict.get cs f) as [[|kv e]|] eqn:Ef.
      * rewrite get_set_same. now left.
      * rewrite Ef. right. apply (Hcs f). exact Ef.
      * rewrite get_set_same. now left.
    + simpl. destruct ("size" =? alg); eauto.
  - rewrite get_set_other by assumption.
    destruct (Dict.get cs f) as [[|kv e0]|]; try apply Hcs;
      rewrite get_set_other by assumption; apply Hcs.
Qed.

(** X7.  In the checksums of a parsed file every file has [size] as its
    first property: each line writes [size] before the algorithm, into a
    dictionary that was empty or already began with it. *)
Theorem parsed_checksums_size_first
    (candidate : string) (file : option (list (list (string * string))))
    (b : BuildInfo) :
  BuildInfo_init candidate file = OK b -> size_first (checksums b).
Proof.
  apply (BuildInfo_init_checksums_invariant size_first).
  - intros f e. discriminate.
  - intros alg cs line cs'. apply checksums_line_size_first.
Qed.

Lemma parsed_checksums_size_first_witness :
  exists b,
    BuildInfo_init "x" (Some size_clash_file) = OK b
    /\ size_first (checksums b).
Proof.
  eexists. split; [vm_compute; reflexivity|].
  apply (parsed_checksums_size_first "x" (Some size_clash_file)).
  vm_compute. reflexivity.
Defined.

Lemma BuildInfo_init_post
    (candidate : string) (file : option (list (list (string * string))))
    (b : BuildInfo) :
  BuildInfo_init candidate file = OK b ->
  exists archs,
    bi_architecture b = Some archs
    /\ List.length archs <= 1
    /\ Forall (fun a => concrete_arch a = true) archs
    /\ build_archany b = (List.length archs =? 1)%nat
    /\ Py.truthy (build_arch b) = true
    /\ Py.truthy (host_arch b) = true
    /\ Py.truthy (build_path b) = true.
Proof.
  unfold BuildInfo_init. destruct file as [paragraphs|]; [|discriminate].
  destruct (scan_paragraphs paragraphs) as [b0|e]; [|discriminate].
  cbn [bind]. unfold finish_init.
  destruct (bi_architecture b0) as [tokens|]; [|discriminate].
  fold concrete_arch.
  set (archs := filter concrete_arch tokens).
  destruct (1 <? List.length archs)%nat eqn:Elen; [discriminate|].
  apply Nat.ltb_ge in Elen.
  cbn [build_arch set_flags set_architecture].
  destruct (Py.truthy (build_arch b0)) eqn:Eba; [|discriminate].
  cbn [negb host_arch build_path set_flags set_architecture].
  intros [= <-]. exists archs.
  assert (Hconcrete : Forall (fun a => concrete_arch a = true) archs).
  { apply Forall_forall. intros a Ha. unfold archs in Ha.
    apply filter_In in Ha. tauto. }
  destruct (Py.truthy (host_arch b0)) eqn:Eh;
    cbn [bi_architecture build_archany build_arch host_arch build_path
         source set_host_arch set_build_path set_flags set_architecture];
    destruct (Py.truthy (build_path b0)) eqn:Ep;
    cbn [bi_architecture build_archany build_arch host_arch build_path
         source set_host_arch set_build_path set_flags set_architecture];
    repeat split; auto.
Qed.

(** X8.  A [BuildInfo] that the parser returns has at most one
    architecture, which is neither [source] nor [all]; [build_archany]
    says whether there is one; [build_arch], [host_arch] and [build_path]
    are not empty. *)
Theorem BuildInfo_init_postcondition
    (candidate : string) (file : option (list (list (string * string))))
    (b : BuildInfo) :
  BuildInfo_init candidate file = OK b ->
  exists archs,
    bi_architecture b = Some archs
    /\ List.length archs <= 1
    /\ Forall (fun a => concrete_arch a = true) archs
    /\ build_archany b = (List.length archs =? 1)%nat
    /\ Py.truthy (build_arch b) = true
    /\ Py.truthy (host_arch b) = true
    /\ Py.truthy (build_path b) = true.
Proof. apply BuildInfo_init_post. Qed.

Lemma BuildInfo_init_postcondition_witness :
  exists b archs,
    BuildInfo_init "x" (Some hello_file) = OK b
    /\ bi_architecture b = Some archs
    /\ List.length archs <= 1
    /\ Forall (fun a => concrete_arch a = true) archs
    /\ build_archany b = (List.length archs =? 1)%nat
    /\ Py.truthy (build_arch b) = true
    /\ Py.truthy (host_arch b) = true
    /\ Py.truthy (build_path b) = true.
Proof.
  eexists.
  assert (H : BuildInfo_init "x" (Some hello_file) = OK _)
    by (vm_compute; reflexivity).
  destruct (BuildInfo_init_postcondition "x" (Some hello_file) _ H)
    as (archs & Hpost).
  exists archs. split; [exact H|exact Hpost].
Defined.

(** ** The environment: [get_env] and the parser *)

Lemma environment_line_body (acc : Dict.t string) (kv : string * string) :
  env_entry kv ->
  environment_line acc (" " ++ environment_body kv)
  = Dict.set acc (fst kv) (snd kv).
Proof.
  destruct kv as [k v]. unfold env_entry, environment_body. cbn [fst snd].
  intros (Hk & Hv & Hkn & Hvn & Ho).
  change (" " ++ k ++ "=" ++ quote ++ v ++ quote)
    with (String " " (k ++ eq_quote ++ v ++ quote)).
  unfold environment_line, Py.match_environment.
  change (Ascii.eqb " " "=") with false. cbv iota.
  pose proof (env_key_group_takes_key k v Hkn Hvn Ho) as H.
  unfold env_key_group, env_value_group, eq_quote, quote in H.
  unfold eq_quote, quote. rewrite H. now rewrite Hk, Hv.
Qed.

Lemma environment_lines_fresh (entries : list (string * string)) :
  Forall env_entry entries -> NoDup (map fst entries) ->
  forall acc,
    (forall kv, In kv entries -> Dict.get acc (fst kv) = None) ->
    fold_left environment_line
              (map (fun b => " " ++ b) (map environment_body entries)) acc
    = (acc ++ entries)%list.
Proof.
  intros He. induction He as [|kv entries Hkv _ IH]; intros Hnd acc Hfresh.
  - simpl. now rewrite app_nil_r.
  - cbn [map fold_left]. inversion Hnd as [|? ? Hnot Hnd']; subst.
    rewrite (environment_line_body acc kv Hkv).
    rewrite set_fresh by (apply Hfresh; now left).
    rewrite (IH Hnd').
    + rewrite <- app_assoc. destruct kv. reflexivity.
    + intros kv' Hin. rewrite get_app, (Hfresh kv') by now right.
      destruct kv as [k v]. cbn [Dict.get fst].
      destruct (String.eqb_spec k (fst kv')) as [E|]; [|reflexivity].
      elim Hnot. cbn [fst]. rewrite E. now apply in_map.
Qed.

Lemma handle_item_environment (b : BuildInfo) (value : string) :
  handle_item b ("Environment", value)
  = OK (set_env (fold_left environment_line (folded_lines value) (env b)) b).
Proof. reflexivity. Qed.

(** X9.  [get_env] writes the environment back in the form the parser
    reads: the lines of [get_env], folded into an [Environment] field and
    parsed into an empty environment, give the environment they came from,
    variable for variable and in the same order. *)
Theorem get_env_parses_back (b b0 : BuildInfo) :
  env b <> [] -> Forall env_entry (env b) -> NoDup (Dict.keys (env b)) ->
  env b0 = [] ->
  handle_item b0 ("Environment", folded (get_env b)) = OK (set_env (env b) b0).
Proof.
  intros Hne He Hnd H0.
  rewrite handle_item_environment.
  unfold get_env. fold environment_body.
  change (map (fun kv => fst kv ++ "=" ++ quote ++ snd kv ++ quote) (env b))
    with (map environment_body (env b)).
  rewrite folded_lines_folded.
  - rewrite H0, environment_lines_fresh; auto.
  - destruct (env b); [congruence|discriminate].
  - apply Forall_map. eapply Forall_impl; [|exact He].
    intros [k v] (_ & _ & Hkn & Hvn & _). unfold environment_body.
    cbn [fst snd] in *. rewrite !no_newline_app, Hkn, Hvn. reflexivity.
Qed.

Lemma get_env_parses_back_witness :
  handle_item BuildInfo_empty
    ("Environment",
     folded (get_env (set_env [("DEB_BUILD_OPTIONS", "nocheck parallel=4");
                               ("LANG", "C")] BuildInfo_empty)))
  = OK (set_env [("DEB_BUILD_OPTIONS", "nocheck parallel=4"); ("LANG", "C")]
                BuildInfo_empty).
Proof.
  refine (get_env_parses_back
            (set_env [("DEB_BUILD_OPTIONS", "nocheck parallel=4");
                      ("LANG", "C")] BuildInfo_empty)
            BuildInfo_empty _ _ _ eq_refl).
  - discriminate.
  - repeat constructor.
  - repeat constructor; simpl; intuition discriminate.
Defined.

(** ** The formats of [Package] *)

(** X10.  The index format of a package whose name, version and
    architecture are tokens splits back into these fields: two tokens for
    a package without architecture, three otherwise. *)
Theorem to_index_format_splits (p : Package) :
  token (name p) = true -> token (version p) = true ->
  (forall a, architecture p = Some a -> a = "" \/ token a = true) ->
  Py.split (to_index_format p)
  = name p :: version p ::
    (if Py.truthy (architecture p) then [str_of (architecture p)] else []).
Proof.
  intros Hn Hv Ha. unfold to_index_format.
  destruct (Py.truthy (architecture p)) eqn:Et.
  - destruct (architecture p) as [a|] eqn:Ea; [|discriminate Et].
    destruct (Ha a eq_refl) as [->|Hta]; [discriminate Et|].
    cbn [str_of].
    now rewrite (split_token_blank _ _ Hn), (split_token_blank _ _ Hv),
      (split_token a Hta).
  - now rewrite (split_token_blank _ _ Hn), (split_token _ Hv).
Qed.

Lemma to_index_format_splits_witness :
  Py.split (to_index_format (Package_init "libc6" "2.31-13" (Some "amd64")))
  = ["libc6"; "2.31-13"; "amd64"].
Proof.
  refine (to_index_format_splits
            (Package_init "libc6" "2.31-13" (Some "amd64")) eq_refl eq_refl _).
  intros a [= <-]. right. reflexivity.
Defined.

(** ** The snapshot client, beyond the single result *)

Lemma first_hash_for_some (wanted : option string) (rs : list bin_result) h :
  first_hash_for wanted rs = Some h ->
  exists r, In r rs /\ r_hash r = h /\ Some (r_architecture r) = wanted.
Proof.
  induction rs as [|r rs IH]; cbn [first_hash_for]; [discriminate|].
  destruct (opt_eqb (Some (r_architecture r)) wanted) eqn:E.
  - intros H. injection H as H. exists r. apply opt_eqb_eq in E.
    split; [now left|]. split; assumption.
  - intros H. destruct (IH H) as (r' & Hin & Hh & Ha). exists r'.
    split; [now right|]. split; assumption.
Qed.

Lemma first_hash_for_none (wanted : option string) (rs : list bin_result) :
  (forall r, In r rs -> Some (r_architecture r) <> wanted) ->
  first_hash_for wanted rs = None.
Proof.
  induction rs as [|r rs IH]; intros H; [reflexivity|].
  cbn [first_hash_for].
  destruct (opt_eqb (Some (r_architecture r)) wanted) eqn:E.
  - apply opt_eqb_eq in E. elim (H r); [now left|exact E].
  - apply IH. intros r' Hr'. apply H. now right.
Qed.

Lemma bin_date_from_main_returns data h p p' seen :
  bin_date_from_main data h p = (p', OK seen) ->
  p' = set_pkg_found seen h p
  /\ exists e, debian_entries data h = [e] /\ fe_first_seen e = seen.
Proof.
  unfold bin_date_from_main, debian_entries.
  destruct (bf_fileinfo data) as [fi|]; [|discriminate].
  destruct (filter _ _) as [|e [|e' l]]; try discriminate.
  intros H. injection H as Hp Hs. subst p' seen.
  split; [reflexivity|]. exists e. auto.
Qed.

Lemma bin_date_from_main_raises data h p p' e :
  bin_date_from_main data h p = (p', Raise e) -> p' = p.
Proof.
  unfold bin_date_from_main.
  destruct (bf_fileinfo data) as [fi|]; [|now intros [= <- _]].
  destruct (filter _ _) as [|x [|x' l]]; try discriminate;
    now intros [= <- _].
Qed.

(** The three ways [get_bin_date] ends, by the shape of the answer. *)
Lemma get_bin_date_cases ba resp pkg :
  get_bin_date ba resp pkg =
  match resp with
  | None => (pkg, Raise BadJSON)
  | Some data =>
      match bin_results data with
      | [r] =>
          let p := set_pkg_architecture (Some (r_architecture r)) pkg in
          if Py.truthy (architecture pkg)
             && negb (opt_eqb (architecture pkg) (Some (r_architecture r)))
          then (p, Raise ArchMismatchExplicit)
          else if negb (Py.truthy (architecture pkg))
                  && negb (opt_eqb ba (Some (r_architecture r)))
                  && negb (opt_eqb (Some "all") (Some (r_architecture r)))
          then (p, Raise ArchMismatchImplicit)
          else bin_date_from_main data (r_hash r) p
      | rs =>
          match first_hash_for (wanted_arch ba pkg) rs with
          | Some h =>
              if h =? "" then (pkg, Raise NoArchMatch)
              else bin_date_from_main data h
                     (set_pkg_architecture (wanted_arch ba pkg) pkg)
          | None => (pkg, Raise NoArchMatch)
          end
      end
  end.
Proof.
  unfold get_bin_date, bin_results, wanted_arch.
  destruct resp as [data|]; [|reflexivity].
  destruct (bf_result data) as [[|r [|r' l]]|]; try reflexivity.
  - cbv zeta.
    destruct (first_hash_for _ _) as [h|]; [|reflexivity].
    cbn [Py.truthy]. destruct (h =? ""); reflexivity.
Qed.

Lemma get_bin_date_returns_inv ba resp pkg pkg' seen :
  get_bin_date ba resp pkg = (pkg', OK seen) ->
  exists data r e,
    resp = Some data /\ In r (bin_results data)
    /\ pkg' = mkPackage (name pkg) (version pkg) (Some (r_architecture r))
                        (Some seen) (Some (r_hash r))
    /\ debian_entries data (r_hash r) = [e] /\ fe_first_seen e = seen
    /\ (Py.truthy (architecture pkg) = true ->
        architecture pkg = Some (r_architecture r))
    /\ (Py.truthy (architecture pkg) = false ->
        ba = Some (r_architecture r) \/ r_architecture r = "all").
Proof.
  rewrite get_bin_date_cases. destruct resp as [data|]; [|discriminate].
  assert (Hmulti : forall rs,
    (forall r, In r rs -> In r (bin_results data)) ->
    match first_hash_for (wanted_arch ba pkg) rs with
    | Some h =>
        if h =? "" then (pkg, Raise NoArchMatch)
        else bin_date_from_main data h
               (set_pkg_architecture (wanted_arch ba pkg) pkg)
    | None => (pkg, Raise NoArchMatch)
    end = (pkg', OK seen) ->
    exists data0 r e,
      Some data = Some data0 /\ In r (bin_results data0)
      /\ pkg' = mkPackage (name pkg) (version pkg) (Some (r_architecture r))
                          (Some seen) (Some (r_hash r))
      /\ debian_entries data0 (r_hash r) = [e] /\ fe_first_seen e = seen
      /\ (Py.truthy (architecture pkg) = true ->
          architecture pkg = Some (r_architecture r))
      /\ (Py.truthy (architecture pkg) = false ->
          ba = Some (r_architecture r) \/ r_architecture r = "all")).
  { intros rs Hsub H.
    destruct (first_hash_for (wanted_arch ba pkg) rs) as [h|] eqn:Eh;
      [|discriminate H].
    destruct (h =? ""); [discriminate H|].
    destruct (first_hash_for_some _ _ _ Eh) as (r & Hin & Hh & Ha).
    destruct (bin_date_from_main_returns _ _ _ _ _ H) as (Hp & e & He & Hs).
    exists data, r, e. subst h. rewrite <- Ha in Hp.
    split; [reflexivity|]. split; [now apply Hsub|].
    split; [exact Hp|]. split; [exact He|]. split; [exact Hs|].
    unfold wanted_arch in Ha. split; intros Ht; rewrite Ht in Ha; auto. }
  destruct (bin_results data) as [|r [|r' l]] eqn:Ers.
  - apply Hmulti. intros r [].
  - cbv zeta.
    destruct (Py.truthy (architecture pkg)) eqn:Et; cbn [andb negb].
    + destruct (opt_eqb (architecture pkg) (Some (r_architecture r))) eqn:Ea;
        cbn [negb]; [|discriminate].
      apply opt_eqb_eq in Ea. intros H.
      destruct (bin_date_from_main_returns _ _ _ _ _ H) as (Hp & e & He & Hs).
      exists data, r, e. rewrite Ers.
      split; [reflexivity|]. split; [now left|].
      split; [exact Hp|]. split; [exact He|]. split; [exact Hs|].
      split; [auto|discriminate].
    + destruct (opt_eqb ba (Some (r_architecture r))) eqn:Eb; cbn [andb negb].
      * apply opt_eqb_eq in Eb. intros H.
        destruct (bin_date_from_main_returns _ _ _ _ _ H) as (Hp & e & He & Hs).
        exists data, r, e. rewrite Ers.
        split; [reflexivity|]. split; [now left|].
        split; [exact Hp|]. split; [exact He|]. split; [exact Hs|].
        split; [discriminate|auto].
      * destruct (opt_eqb (Some "all") (Some (r_architecture r))) eqn:El;
          cbn [negb]; [|discriminate].
        apply opt_eqb_eq in El. injection El as El. intros H.
        destruct (bin_date_from_main_returns _ _ _ _ _ H) as (Hp & e & He & Hs).
        exists data, r, e. rewrite Ers.
        split; [reflexivity|]. split; [now left|].
        split; [exact Hp|]. split; [exact He|]. split; [exact Hs|].
        split; [discriminate|auto].
  - apply Hmulti. auto.
Qed.

(** X11.  When [get_bin_date] returns, the package carries the name and
    version it came with, the architecture and hash of one result of the
    answer, and the date of the single [debian] entry the answer lists for
    that hash, which is also the value returned.  The architecture is the
    one the package came with if it had one, and otherwise [build_arch] or
    [all]. *)
Theorem get_bin_date_returns ba resp pkg pkg' seen :
  get_bin_date ba resp pkg = (pkg', OK seen) ->
  exists data r e,
    resp = Some data /\ In r (bin_results data)
    /\ pkg' = mkPackage (name pkg) (version pkg) (Some (r_architecture r))
                        (Some seen) (Some (r_hash r))
    /\ debian_entries data (r_hash r) = [e] /\ fe_first_seen e = seen
    /\ (Py.truthy (architecture pkg) = true ->
        architecture pkg = Some (r_architecture r))
    /\ (Py.truthy (architecture pkg) = false ->
        ba = Some (r_architecture r) \/ r_architecture r = "all").
Proof. apply get_bin_date_returns_inv. Qed.

Lemma get_bin_date_returns_witness :
  exists data r e,
    Some bar_two_archs = Some data /\ In r (bin_results data)
    /\ mkPackage "bar" "2.0" (Some "amd64") (Some "20210301T000000Z")
                 (Some "h64")
       = mkPackage (name bar) (version bar) (Some (r_architecture r))
                   (Some "20210301T000000Z") (Some (r_hash r))
    /\ debian_entries data (r_hash r) = [e]
    /\ fe_first_seen e = "20210301T000000Z"
    /\ (Py.truthy (architecture bar) = true ->
        architecture bar = Some (r_architecture r))
    /\ (Py.truthy (architecture bar) = false ->
        Some "amd64" = Some (r_architecture r) \/ r_architecture r = "all").
Proof.
  apply (get_bin_date_returns (Some "amd64") (Some bar_two_archs) bar).
  vm_compute. reflexivity.
Defined.

(** X12.  A build dependency read from a buildinfo file has no
    architecture; once [get_bin_date] has returned for it, its apt install
    format is [name=version], with no architecture qualifier. *)
Theorem resolved_dependency_install_format ba resp pkg pkg' seen :
  Py.truthy (architecture pkg) = false ->
  get_bin_date ba resp pkg = (pkg', OK seen) ->
  to_apt_install_format pkg' ba = name pkg ++ "=" ++ version pkg.
Proof.
  intros Ht H.
  destruct (get_bin_date_returns_inv _ _ _ _ _ H)
    as (data & r & e & _ & _ & -> & _ & _ & _ & Harch).
  unfold to_apt_install_format. cbn [architecture name version].
  destruct (Harch Ht) as [-> | ->].
  - assert (E : opt_eqb (Some (r_architecture r)) (Some (r_architecture r))
                = true) by now apply opt_eqb_eq.
    rewrite E, orb_true_r. reflexivity.
  - reflexivity.
Qed.

Lemma resolved_dependency_install_format_witness :
  to_apt_install_format
    (mkPackage "bar" "2.0" (Some "amd64") (Some "20210301T000000Z")
               (Some "h64"))
    (Some "amd64")
  = "bar=2.0".
Proof.
  refine (resolved_dependency_install_format (Some "amd64")
            (Some bar_two_archs) bar _ "20210301T000000Z" eq_refl _).
  vm_compute. reflexivity.
Defined.

(** X13.  A call of [get_bin_date] that raises leaves the package without
    the date and the hash it was looking for: name, version, [first_seen]
    and [hash] are as before the call. *)
Theorem get_bin_date_raises_keeps_fields ba resp pkg pkg' e :
  get_bin_date ba resp pkg = (pkg', Raise e) ->
  name pkg' = name pkg /\ version pkg' = version pkg
  /\ first_seen pkg' = first_seen pkg /\ hash pkg' = hash pkg.
Proof.
  rewrite get_bin_date_cases.
  assert (Hsame : forall a p h,
             bin_date_from_main h a (set_pkg_architecture p pkg)
             = (pkg', Raise e) ->
             name pkg' = name pkg /\ version pkg' = version pkg
             /\ first_seen pkg' = first_seen pkg /\ hash pkg' = hash pkg).
  { intros a p h H. apply bin_date_from_main_raises in H. subst pkg'.
    repeat split. }
  assert (Hmulti : forall rs,
    match first_hash_for (wanted_arch ba pkg) rs with
    | Some h =>
        if h =? "" then (pkg, Raise NoArchMatch)
        else bin_date_from_main
               match resp with Some d => d | None => mkBinfiles None None end
               h (set_pkg_architecture (wanted_arch ba pkg) pkg)
    | None => (pkg, Raise NoArchMatch)
    end = (pkg', Raise e) ->
    name pkg' = name pkg /\ version pkg' = version pkg
    /\ first_seen pkg' = first_seen pkg /\ hash pkg' = hash pkg).
  { intros rs H. destruct (first_hash_for _ rs) as [h|].
    - destruct (h =? ""); [injection H as <- _; repeat split|].
      eapply Hsame; exact H.
    - injection H as <- _. repeat split. }
  destruct resp as [data|]; [|intros [= <- _]; repeat split].
  cbn [fst] in Hmulti.
  destruct (bin_results data) as [|r [|r' l]].
  - apply Hmulti.
  - cbv zeta.
    destruct (_ && negb (opt_eqb (architecture pkg) _));
      [intros [= <- _]; repeat split|].
    destruct (_ && negb (opt_eqb (Some "all") _));
      [intros [= <- _]; repeat split|].
    apply Hsame.
  - apply Hmulti.
Qed.

Lemma get_bin_date_raises_keeps_fields_witness :
  name (set_pkg_architecture (Some "amd64") foo_i386) = name foo_i386
  /\ version (set_pkg_architecture (Some "amd64") foo_i386) = version foo_i386
  /\ first_seen (set_pkg_architecture (Some "amd64") foo_i386)
     = first_seen foo_i386
  /\ hash (set_pkg_architecture (Some "amd64") foo_i386) = hash foo_i386.
Proof.
  apply (get_bin_date_raises_keeps_fields (Some "amd64") (Some foo_amd64_only)
           foo_i386 _ ArchMismatchExplicit).
  reflexivity.
Defined.

(** X14.  When the answer does not have exactly one result and none of its
    results is in the architecture looked for (the one of the package, or
    [build_arch] for a package without), [get_bin_date] raises
    [NoArchMatch] and leaves the package as it was.  An answer with no
    result at all is such an answer. *)
Theorem get_bin_date_no_arch_match ba data pkg :
  List.length (bin_results data) <> 1 ->
  (forall r, In r (bin_results data) ->
     Some (r_architecture r) <> wanted_arch ba pkg) ->
  get_bin_date ba (Some data) pkg = (pkg, Raise NoArchMatch).
Proof.
  rewrite get_bin_date_cases.
  destruct (bin_results data) as [|r [|r' l]]; intros Hlen Hnone.
  - reflexivity.
  - now elim Hlen.
  - now rewrite (first_hash_for_none _ _ Hnone).
Qed.

Lemma get_bin_date_no_arch_match_witness :
  get_bin_date (Some "amd64") (Some (mkBinfiles None None)) bar
  = (bar, Raise NoArchMatch).
Proof.
  refine (get_bin_date_no_arch_match (Some "amd64") (mkBinfiles None None)
            bar _ _).
  - discriminate.
  - intros r [].
Defined.

(** ** [get_src_date] *)

Lemma src_from_main_listed fi hashes vals :
  Forall2 (fun h l => Dict.get fi h = Some l) hashes vals ->
  forall acc,
    src_from_main fi hashes acc
    = Returns (acc ++ filter from_main_dsc (List.concat vals))%list.
Proof.
  induction 1 as [|h l hashes vals Hh _ IH]; intros acc; cbn [src_from_main].
  - simpl. now rewrite app_nil_r.
  - rewrite Hh, IH. cbn [List.concat]. now rewrite filter_app, app_assoc.
Qed.

Lemma src_from_main_unlisted fi hashes :
  (exists h, In h hashes /\ Dict.get fi h = None) ->
  forall acc, src_from_main fi hashes acc = Raises (Core PyTypeError).
Proof.
  intros (h & Hin & Hnone).
  induction hashes as [|h' hashes IH]; intros acc; [destruct Hin|].
  cbn [src_from_main]. destruct Hin as [->|Hin].
  - now rewrite Hnone.
  - destruct (Dict.get fi h'); [now apply IH|reflexivity].
Qed.

(** X15.  [get_src_date] returns the date of the [.dsc] file of the
    [debian] archive when the results of the answer list, all together,
    exactly one such file; it raises [NoSourceFound] when they list none
    and [AmbiguousSource] when they list several.  When [fileinfo] lacks
    the hash of a result, the [TypeError] of iterating over [None]
    escapes. *)
Theorem get_src_date_exactly_one (data : srcfiles) :
  (forall vals,
      Forall2 (fun h l => Dict.get (src_fileinfo data) h = Some l)
              (src_hashes data) vals ->
      get_src_date (Some data) =
      match filter from_main_dsc (List.concat vals) with
      | [] => Raises NoSourceFound
      | [val] => Returns (se_first_seen val)
      | _ :: _ :: _ => Raises AmbiguousSource
      end)
  /\ ((exists h, In h (src_hashes data)
                 /\ Dict.get (src_fileinfo data) h = None) ->
      get_src_date (Some data) = Raises (Core PyTypeError)).
Proof.
  unfold get_src_date. fold (src_hashes data). fold (src_fileinfo data).
  split.
  - intros vals H. rewrite (src_from_main_listed _ _ _ H). reflexivity.
  - intros H. now rewrite (src_from_main_unlisted _ _ H).
Qed.

Lemma get_src_date_exactly_one_witness :
  get_src_date (Some hello_srcfiles) = Returns "20210410T000000Z".
Proof.
  refine (proj1 (get_src_date_exactly_one hello_srcfiles)
            [[mkSrcEntry "debian" "hello_2.10-2.dsc" "20210410T000000Z";
              mkSrcEntry "debian-ports" "hello_2.10-2.dsc"
                         "20210411T000000Z"]] _).
  repeat constructor.
Defined.

(** ** [get_sources_list] *)

Lemma rstrip_nl_keeps_comment (line : string) :
  Py.startswith line "#" = false ->
  Py.startswith (rstrip_nl line) "#" = false.
Proof.
  unfold Py.startswith. destruct line as [|c s]; [reflexivity|].
  cbn [rstrip_nl prefix].
  destruct (ascii_dec "#" c) as [<-|Hc].
  - destruct s; discriminate.
  - intros _. destruct (rstrip_nl s).
    + destruct (Ascii.eqb c Py.newline); [reflexivity|].
      cbn [prefix]. destruct (ascii_dec "#" c); [contradiction|reflexivity].
    + cbn [prefix]. destruct (ascii_dec "#" c); [contradiction|reflexivity].
Qed.

Lemma repository_lines_no_comment (lines : list string) :
  Forall (fun k => Py.startswith k "#" = false) (repository_lines lines).
Proof.
  unfold repository_lines. apply Forall_map, Forall_forall.
  intros line Hin. apply filter_In in Hin. destruct Hin as [_ H].
  apply andb_true_iff in H. destruct H as [H _].
  apply negb_true_iff in H. now apply rstrip_nl_keeps_comment.
Qed.

Section SourcesListFacts.

Variable parsedate : string -> option datetime.
Variable release_ok : string -> bool.
Variable read_lines : string -> option (list string).
Variable base_mirror : string.

Lemma extra_repository_lines_returns files acc l :
  extra_repository_lines read_lines files acc = Returns l ->
  exists contents,
    Forall2 (fun f ls => read_lines f = Some ls) files contents
    /\ l = (acc ++ List.concat (map repository_lines contents))%list.
Proof.
  revert acc. induction files as [|f files IH]; intros acc; cbn [extra_repository_lines].
  - intros [= <-]. exists []. split; [constructor|]. simpl.
    now rewrite app_nil_r.
  - destruct (read_lines f) as [ls|] eqn:Ef; [|discriminate].
    intros H. destruct (IH _ H) as (contents & Hc & ->).
    exists (ls :: contents). split; [now constructor|].
    cbn [map List.concat]. now rewrite app_assoc.
Qed.

Lemma debian_suite_loop_no_base_files (deps : list Package) (b : BuildInfo) :
  Forall (fun p => name p <> "base-files") deps ->
  debian_suite_loop deps b = (b, OK tt).
Proof.
  induction 1 as [|p deps Hp _ IH]; [reflexivity|].
  cbn [debian_suite_loop]. apply String.eqb_neq in Hp. now rewrite Hp.
Qed.

(** X16.  When [get_sources_list] returns, its list is the base entries
    for the build date and the suite (the two snapshot lines if the mirror
    has a [Release] file for them, then the line of the current mirror),
    followed by the lines kept from the extra repository files, all of
    which exist, in the order of the files; none of the lines kept starts
    with [#]. *)
Theorem get_sources_list_returns (extra : option (list string))
    (b b' : BuildInfo) (l : list string) :
  get_sources_list parsedate release_ok read_lines base_mirror extra b
  = (b', Returns l) ->
  exists date suite contents,
    get_build_date parsedate b = OK date
    /\ get_debian_suite b = (b', OK suite)
    /\ Forall2 (fun f ls => read_lines f = Some ls)
               (match extra with Some files => files | None => [] end)
               contents
    /\ l = (base_sources release_ok base_mirror date suite
            ++ List.concat (map repository_lines contents))%list
    /\ Forall (fun k => Py.startswith k "#" = false)
              (List.concat (map repository_lines contents)).
Proof.
  unfold get_sources_list.
  destruct (get_build_date parsedate b) as [date|e]; [|discriminate].
  destruct (get_debian_suite b) as [b1 [suite|e]]; [|discriminate].
  cbv zeta. fold (base_sources release_ok base_mirror date suite).
  assert (Hkept : forall contents,
             Forall (fun k => Py.startswith k "#" = false)
                    (List.concat (map repository_lines contents))).
  { induction contents as [|ls contents IH]; [constructor|].
    cbn [map List.concat]. apply Forall_app. split; [|exact IH].
    apply repository_lines_no_comment. }
  destruct extra as [[|f files]|].
  - intros [= <- <-]. exists date, suite, [].
    repeat split; try constructor. simpl. now rewrite app_nil_r.
  - intros H. injection H as Hb E. subst b'.
    destruct (extra_repository_lines_returns (f :: files) _ _ E)
      as (contents & Hc & ->).
    exists date, suite, contents. repeat split; auto.
  - intros [= <- <-]. exists date, suite, [].
    repeat split; try constructor. simpl. now rewrite app_nil_r.
Qed.

(** X17.  A buildinfo file without [base-files] among its build
    dependencies has no suite: [get_debian_suite] returns [None], and
    [get_sources_list] raises nothing and names the suite [None] in its
    entries. *)
Theorem get_sources_list_without_base_files
    (b : BuildInfo) (text : string) (dt : datetime) :
  build_date b = Some text -> parsedate text = Some dt ->
  debian_suite b = None ->
  Forall (fun p => name p <> "base-files") (build_depends b) ->
  get_debian_suite b = (b, OK None)
  /\ get_sources_list parsedate release_ok read_lines base_mirror None b
     = (b, Returns (base_sources release_ok base_mirror
                                 (strftime_snapshot dt) None))
  /\ In "deb-src http://deb.debian.org/debian None main"
        (base_sources release_ok base_mirror (strftime_snapshot dt) None).
Proof.
  intros Hd Hp Hs Hdeps.
  assert (Hsuite : get_debian_suite b = (b, OK None)).
  { unfold get_debian_suite. rewrite Hs. cbn [Py.truthy].
    rewrite (debian_suite_loop_no_base_files _ _ Hdeps). now rewrite Hs. }
  split; [exact Hsuite|]. split.
  - unfold get_sources_list, get_build_date. rewrite Hd, Hp, Hsuite.
    reflexivity.
  - unfold base_sources. cbv zeta. apply in_or_app. right. now left.
Qed.

(** X18.  The first extra repository file that does not exist makes
    [get_sources_list] raise [RepositoryFileNotFound] for it, once the
    date and the suite are known, whatever the files after it hold. *)
Theorem get_sources_list_missing_file
    (b : BuildInfo) (before after : list string) (f : string)
    (contents : list (list string)) (date : string) :
  get_build_date parsedate b = OK date ->
  (exists b' suite, get_debian_suite b = (b', OK suite)) ->
  Forall2 (fun g ls => read_lines g = Some ls) before contents ->
  read_lines f = None ->
  snd (get_sources_list parsedate release_ok read_lines base_mirror
                        (Some (before ++ f :: after)%list) b)
  = Raises (RepositoryFileNotFound f).
Proof.
  intros Hd (b' & suite & Hs) Hbefore Hf.
  unfold get_sources_list. rewrite Hd, Hs. cbv zeta.
  assert (Hloop : forall acc,
             extra_repository_lines read_lines (before ++ f :: after) acc
             = Raises (RepositoryFileNotFound f)).
  { clear - Hbefore Hf. induction Hbefore as [|g ls before contents Hg _ IH];
      intros acc; cbn [app extra_repository_lines].
    - now rewrite Hf.
    - rewrite Hg. apply IH. }
  destruct (before ++ f :: after)%list as [|g files] eqn:E.
  - destruct before; discriminate E.
  - cbn [snd]. apply Hloop.
Qed.

End SourcesListFacts.

Lemma get_sources_list_returns_witness :
  exists date suite contents,
    get_build_date parsedate_east dated_bi = OK date
    /\ get_debian_suite dated_bi = (dated_bi, OK suite)
    /\ Forall2 (fun f ls => read_extra_list f = Some ls) ["extra.list"] contents
    /\ ["deb http://m/20210504T120000Z/ None main";
        "deb-src http://m/20210504T120000Z/ unstable main";
        "deb-src http://deb.debian.org/debian None main";
        "deb http://example.org/debian sid main"]
       = (base_sources release_always "http://m" date suite
          ++ List.concat (map repository_lines contents))%list
    /\ Forall (fun k => Py.startswith k "#" = false)
              (List.concat (map repository_lines contents)).
Proof.
  apply (get_sources_list_returns parsedate_east release_always
           read_extra_list "http://m" (Some ["extra.list"]) dated_bi).
  vm_compute. reflexivity.
Defined.

Lemma get_sources_list_without_base_files_witness :
  get_debian_suite dated_bi = (dated_bi, OK None)
  /\ get_sources_list parsedate_east release_always read_extra_list "http://m"
                      None dated_bi
     = (dated_bi,
        Returns (base_sources release_always "http://m"
                              (strftime_snapshot east_datetime) None))
  /\ In "deb-src http://deb.debian.org/debian None main"
        (base_sources release_always "http://m"
                      (strftime_snapshot east_datetime) None).
Proof.
  apply (get_sources_list_without_base_files parsedate_east release_always
           read_extra_list "http://m" dated_bi east_text east_datetime).
  - reflexivity.
  - reflexivity.
  - reflexivity.
  - constructor.
Defined.

Lemma get_sources_list_missing_file_witness :
  snd (get_sources_list parsedate_east release_always read_extra_list
                        "http://m" (Some ["extra.list"; "absent.list"])
                        dated_bi)
  = Raises (RepositoryFileNotFound "absent.list").
Proof.
  refine (get_sources_list_missing_file parsedate_east release_always
            read_extra_list "http://m" dated_bi ["extra.list"] []
            "absent.list" _ "20210504T120000Z" eq_refl _ _ eq_refl).
  - exists dated_bi, None. reflexivity.
  - repeat constructor.
Defined.

(** ** What [run] builds *)

(** X19.  For a parsed buildinfo file and a builder whose architecture is
    not one of the words [source], [all] and [any], the value that [run]
    and [mmdebstrap] give to [--build] is [binary] when the file names an
    architecture, else [all] when [build_archall] is set, else [source]
    when [build_source] is set; when none of the three holds, [run] raises
    [NothingToBuild]. *)
Theorem run_build_mode
    (candidate : string) (file : option (list (list (string * string))))
    (b : BuildInfo) (host : string) :
  BuildInfo_init candidate file = OK b ->
  (host =? "source") || (host =? "all") || (host =? "any") = false ->
  match run_build_arch (Some host) b with
  | Returns build_arch => Returns (mmdebstrap_build build_arch)
  | Raises e => Raises e
  end
  = if build_archany b then Returns "binary"
    else if build_archall b then Returns "all"
    else if build_source b then Returns "source"
    else Raises NothingToBuild.
Proof.
  intros Hinit Hhost.
  destruct (BuildInfo_init_post _ _ _ Hinit)
    as (archs & Ha & Hlen & _ & Hany & _).
  unfold run_build_arch. rewrite Ha, Hany.
  destruct archs as [|a [|a' archs]]; cbn [List.length Nat.eqb].
  - destruct (build_archall b); [reflexivity|].
    destruct (build_source b); reflexivity.
  - unfold mmdebstrap_build. now rewrite Hhost.
  - simpl in Hlen. lia.
Qed.

Lemma run_build_mode_witness :
  exists b,
    BuildInfo_init "x" (Some hello_file) = OK b
    /\ match run_build_arch (Some "amd64") b with
       | Returns build_arch => Returns (mmdebstrap_build build_arch)
       | Raises e => Raises e
       end
       = if build_archany b then Returns "binary"
         else if build_archall b then Returns "all"
         else if build_source b then Returns "source"
         else Raises NothingToBuild.
Proof.
  eexists.
  assert (H : BuildInfo_init "x" (Some hello_file) = OK _)
    by (vm_compute; reflexivity).
  split; [exact H|].
  exact (run_build_mode "x" (Some hello_file) _ "amd64" H eq_refl).
Defined.

(** ** The resolver: every package in one bucket *)

Lemma bucketed_set_present (d : Dict.t (list nat)) k l r :
  Dict.get d k = Some l ->
  Permutation (bucketed (Dict.set d k (l ++ [r])%list)) (bucketed d ++ [r]).
Proof.
  unfold bucketed. induction d as [|[k' l'] d IH]; cbn [Dict.get]; [discriminate|].
  destruct (k' =? k) eqn:E; cbn [Dict.set]; rewrite E; cbn [map snd List.concat].
  - intros [= ->]. rewrite <- !app_assoc. apply Permutation_app_head.
    apply Permutation_app_comm.
  - intros H. rewrite <- app_assoc. apply Permutation_app_head. now apply IH.
Qed.

Lemma bucketed_setdefault_append (d : Dict.t (list nat)) k r :
  Permutation (bucketed (setdefault_append d k r)) (bucketed d ++ [r]).
Proof.
  unfold setdefault_append. destruct (Dict.get d k) as [l|] eqn:E.
  - now apply bucketed_set_present.
  - rewrite (set_fresh d k [r] E). unfold bucketed.
    rewrite map_app, concat_app. reflexivity.
Qed.

Lemma set_entries {V} (d : Dict.t V) k v x :
  In x (Dict.set d k v) -> x = (k, v) \/ In x d.
Proof.
  induction d as [|[k' v'] d IH]; cbn [Dict.set].
  - intros [<-|[]]. now left.
  - destruct (k' =? k) eqn:E.
    + apply String.eqb_eq in E. subst k'.
      intros [<-|H]; [now left|right; now right].
    + intros [<-|H]; [right; now left|].
      destruct (IH H); [now left|right; now right].
Qed.

Lemma fill_keys_invariant (krs : list (string * nat)) :
  forall d,
    NoDup (Dict.keys d) -> Forall (fun x => snd x <> []) d ->
    Permutation (bucketed (fill_keys krs d)) (bucketed d ++ map snd krs)
    /\ NoDup (Dict.keys (fill_keys krs d))
    /\ Forall (fun x => snd x <> []) (fill_keys krs d).
Proof.
  unfold fill_keys.
  induction krs as [|[k r] krs IH]; intros d Hnd Hne; cbn [fold_left map fst snd].
  - rewrite app_nil_r. auto.
  - assert (Hnd' : NoDup (Dict.keys (setdefault_append d k r))).
    { rewrite keys_setdefault_append.
      destruct (Dict.mem d k) eqn:E; [assumption|].
      apply NoDup_app; [assumption|repeat constructor; intros []|].
      intros x Hx [<-|[]]. apply mem_in_keys in Hx. congruence. }
    assert (Hne' : Forall (fun x => snd x <> []) (setdefault_append d k r)).
    { apply Forall_forall. intros x Hx. unfold setdefault_append in Hx.
      rewrite Forall_forall in Hne.
      destruct (Dict.get d k) as [l|]; apply set_entries in Hx;
        destruct Hx as [->|Hx]; auto; cbn [snd]; [|discriminate].
      destruct l; discriminate. }
    destruct (IH _ Hnd' Hne') as (Hp & Hk & Hf).
    split; [|split; assumption].
    rewrite Hp, bucketed_setdefault_append, <- app_assoc. reflexivity.
Qed.

Section BucketFacts.

Variable parsedate : string -> option datetime.
Variable snapshot : string -> string -> option binfiles.

Lemma timestamps_loop_fills ba pkgs :
  forall i d pkgs' d',
    timestamps_loop parsedate snapshot ba i pkgs d = (pkgs', OK d') ->
    exists ks,
      List.length ks = List.length pkgs
      /\ d' = fill_keys (combine ks (seq i (List.length pkgs))) d
      /\ List.length pkgs' = List.length pkgs.
Proof.
  induction pkgs as [|pkg pkgs IH]; intros i d pkgs' d'; cbn [timestamps_loop].
  - intros [= <- <-]. exists []. auto.
  - destruct (if Py.truthy (first_seen pkg) then (pkg, OK "") else _)
      as [pkg1 [s|e]]; [|discriminate].
    destruct (first_seen pkg1) as [seen|]; [|discriminate].
    destruct (snapshot_timestamp parsedate seen) as [ts|e]; [|discriminate].
    destruct (timestamps_loop parsedate snapshot ba (S i) pkgs
                (setdefault_append d ts i)) as [rest' r'] eqn:E.
    intros [= <- ->].
    destruct (IH _ _ _ _ E) as (ks & Hlen & -> & Hlen').
    exists (ts :: ks). cbn [List.length]. repeat split; auto.
Qed.

Lemma map_snd_combine_seq (ks : list string) :
  forall i, map snd (combine ks (seq i (List.length ks)))
            = seq i (List.length ks).
Proof.
  induction ks as [|k ks IH]; intros i; [reflexivity|].
  cbn [List.length seq combine map snd]. now rewrite IH.
Qed.

Lemma Permutation_bucketed (d l : list (string * list nat)) :
  Permutation d l -> Permutation (bucketed d) (bucketed l).
Proof.
  unfold bucketed. induction 1; cbn [map List.concat].
  - constructor.
  - now apply Permutation_app_head.
  - rewrite !app_assoc. apply Permutation_app_tail, Permutation_app_comm.
  - etransitivity; eassumption.
Qed.

(** X20.  When [get_build_depends_timestamps] returns, every build
    dependency is in exactly one bucket: the buckets together hold the
    positions of [build_depends], each once; no two buckets have the same
    timestamp, no bucket is empty, and the list of packages keeps its
    length. *)
Theorem buckets_partition (b b' : BuildInfo) (l : list (string * list nat)) :
  get_build_depends_timestamps parsedate snapshot b = (b', OK l) ->
  Permutation (bucketed l) (seq 0 (List.length (build_depends b)))
  /\ NoDup (map fst l)
  /\ Forall (fun x => snd x <> []) l
  /\ List.length (build_depends b') = List.length (build_depends b).
Proof.
  unfold get_build_depends_timestamps.
  destruct (timestamps_loop parsedate snapshot (build_arch b) 0
              (build_depends b) []) as [deps [d|e]] eqn:E; [|discriminate].
  intros [= <- <-].
  destruct (timestamps_loop_fills _ _ _ _ _ _ E) as (ks & Hlen & -> & Hlen').
  destruct (fill_keys_invariant (combine ks (seq 0 (List.length (build_depends b))))
              [] (NoDup_nil _) (Forall_nil _)) as (Hp & Hk & Hf).
  set (d := fill_keys _ _) in *.
  pose proof (sorted_desc_perm (fun x : string * list nat => List.length (snd x)) d)
    as Hsort.
  repeat split.
  - rewrite <- (Permutation_bucketed _ _ Hsort), Hp. cbn [bucketed map List.concat app].
    rewrite <- Hlen. apply Permutation_refl'. apply map_snd_combine_seq.
  - eapply Permutation_NoDup; [apply Permutation_map; exact Hsort|exact Hk].
  - eapply Permutation_Forall; [exact Hsort|exact Hf].
  - exact Hlen'.
Qed.

End BucketFacts.

Lemma buckets_partition_witness :
  Permutation (bucketed [(march, [0; 1; 2; 4; 5; 6; 7; 8; 9]); (january, [3])])
              (seq 0 (List.length (build_depends ten_bi)))
  /\ NoDup (map fst [(march, [0; 1; 2; 4; 5; 6; 7; 8; 9]); (january, [3])])
  /\ Forall (fun x => snd x <> [])
            [(march, [0; 1; 2; 4; 5; 6; 7; 8; 9]); (january, [3])]
  /\ List.length (build_depends ten_bi) = List.length (build_depends ten_bi).
Proof.
  apply (buckets_partition parsedate_two no_snapshot ten_bi ten_bi).
  vm_compute. reflexivity.
Defined.

(** ** The resolver: what the selection keeps and what it covers *)

Section SelectionFacts.

Variable parsedate : string -> option datetime.
Variable snapshot : string -> string -> option binfiles.
Variable apt_has : list string -> Package -> bool.
Variable base_mirror : string.

Lemma list_remove_incl (r x : nat) (l : list nat) :
  In x (list_remove r l) -> In x l.
Proof.
  induction l as [|y l IH]; cbn [list_remove]; [tauto|].
  destruct (y =? r)%nat; [now right|].
  intros [<-|H]; [now left|right; auto].
Qed.

Lemma list_remove_other (r x : nat) (l : list nat) :
  In x l -> x <> r -> In x (list_remove r l).
Proof.
  induction l as [|y l IH]; cbn [list_remove]; [tauto|].
  destruct (y =? r)%nat eqn:E.
  - apply Nat.eqb_eq in E. subst y. intros [<-|H] Hne; [congruence|exact H].
  - intros [<-|H] Hne; [now left|right; auto].
Qed.

Lemma drop_found_incl deps sources notfound x :
  In x (drop_found apt_has deps sources notfound) -> In x notfound.
Proof.
  unfold drop_found.
  set (step := fun (nf : list nat) (r : nat) =>
                 match nth_error deps r with
                 | Some pkg => if apt_has sources pkg
                               then list_remove r nf else nf
                 | None => nf
                 end).
  assert (Hgen : forall xs nf, In x (fold_left step xs nf) -> In x nf).
  { induction xs as [|r xs IH]; intros nf H; [exact H|].
    cbn [fold_left] in H. apply IH in H. unfold step in H.
    destruct (nth_error deps r) as [pkg|]; [|exact H].
    destruct (apt_has sources pkg); [now apply list_remove_incl in H|exact H]. }
  intros H. apply (Hgen notfound notfound). exact H.
Qed.

Lemma drop_found_or_found deps sources notfound x :
  In x notfound ->
  In x (drop_found apt_has deps sources notfound)
  \/ cache_found apt_has deps sources x = true.
Proof.
  unfold drop_found.
  set (step := fun (nf : list nat) (r : nat) =>
                 match nth_error deps r with
                 | Some pkg => if apt_has sources pkg
                               then list_remove r nf else nf
                 | None => nf
                 end).
  assert (Hgen : forall xs nf,
             In x nf ->
             In x (fold_left step xs nf)
             \/ cache_found apt_has deps sources x = true).
  { induction xs as [|r xs IH]; intros nf Hx; [now left|].
    cbn [fold_left]. destruct (Nat.eq_dec x r) as [->|Hne].
    - destruct (cache_found apt_has deps sources r) eqn:Ef; [now right|].
      assert (Hstep : step nf r = nf).
      { unfold step. unfold cache_found in Ef.
        destruct (nth_error deps r) as [pkg|]; [now rewrite Ef|reflexivity]. }
      rewrite Hstep. destruct (IH nf Hx) as [H|H]; [now left|].
      discriminate H.
    - apply IH. unfold step.
      destruct (nth_error deps r) as [pkg|]; [|exact Hx].
      destruct (apt_has sources pkg); [now apply list_remove_other|exact Hx]. }
  intros H. apply (Hgen notfound notfound). exact H.
Qed.

Lemma Subseq_nil_l (b : list string) : Subseq [] b.
Proof. induction b; constructor; assumption. Qed.

(** What [select_sources] keeps: the packages still missing were missing
    before, the sources selected come after those already there and are
    candidates in the order of the candidates, and a package no longer
    missing was found in the cache at some moment of the selection. *)
Lemma select_sources_invariant deps candidates :
  forall notfound required notfound' required',
    select_sources apt_has deps candidates notfound required
    = (notfound', required') ->
    (forall x, In x notfound' -> In x notfound)
    /\ (exists added,
          required' = (required ++ added)%list
          /\ Subseq added (map fst candidates))
    /\ (forall x, In x notfound ->
          In x notfound'
          \/ exists pre suf,
               required' = (pre ++ suf)%list
               /\ cache_found apt_has deps pre x = true).
Proof.
  induction candidates as [|[src pkgs] candidates IH];
    intros notfound required notfound' required'; cbn [select_sources].
  - intros [= <- <-]. split; [auto|]. split; [|auto].
    exists []. split; [now rewrite app_nil_r|constructor].
  - destruct notfound as [|n0 nf] eqn:Enf.
    + intros [= <- <-]. split; [auto|]. split; [|auto].
      exists []. split; [now rewrite app_nil_r|apply Subseq_nil_l].
    + rewrite <- Enf. clear Enf n0 nf.
      destruct (negb (existsb (fun p => list_mem p notfound) pkgs)).
      * intros H. destruct (IH _ _ _ _ H) as (H1 & (added & Ha & Hs) & H3).
        split; [exact H1|]. split; [|exact H3].
        exists added. split; [exact Ha|]. cbn [map fst]. now constructor.
      * intros H. destruct (IH _ _ _ _ H) as (H1 & (added & Ha & Hs) & H3).
        split; [|split].
        -- intros x Hx. eapply drop_found_incl. apply H1. exact Hx.
        -- exists (src :: added). split.
           ++ rewrite Ha, <- app_assoc. reflexivity.
           ++ cbn [map fst]. now constructor.
        -- intros x Hx.
           destruct (drop_found_or_found deps (required ++ [src]) notfound x Hx)
             as [Hin|Hfound].
           ++ apply H3. exact Hin.
           ++ right. exists (required ++ [src])%list, added.
              split; [exact Ha|exact Hfound].
Qed.

(** X21.  The selection loop of [find_build_dependencies] never puts a
    package back among the missing ones, never removes a source already
    selected, and selects its new sources among the candidates, in their
    order and each at most once. *)
Theorem select_sources_monotone deps candidates notfound required :
  (forall x, In x (fst (select_sources apt_has deps candidates notfound
                                       required)) ->
             In x notfound)
  /\ exists added,
       snd (select_sources apt_has deps candidates notfound required)
       = (required ++ added)%list
       /\ Subseq added (map fst candidates).
Proof.
  destruct (select_sources apt_has deps candidates notfound required)
    as [nf' req'] eqn:E.
  destruct (select_sources_invariant _ _ _ _ _ _ E) as (H1 & H2 & _).
  split; assumption.
Qed.

(** X22.  When [find_build_dependencies] returns, every build dependency
    was found in the cache, at its pinned version, at some moment of the
    selection: with the sources selected up to that moment, which are the
    first ones of the final list.  The sources it started with are still
    the first ones of that list. *)
Theorem find_build_dependencies_covers (b : BuildInfo)
    (required required' : list string) :
  find_build_dependencies parsedate snapshot apt_has base_mirror b required
  = (required', OK tt) ->
  exists b' added,
    fst (get_sources_list_from_timestamp parsedate snapshot base_mirror b) = b'
    /\ required' = (required ++ added)%list
    /\ forall i, i < List.length (build_depends b) ->
         exists pre suf,
           required' = (pre ++ suf)%list
           /\ cache_found apt_has (build_depends b') pre i = true.
Proof.
  unfold find_build_dependencies.
  destruct (get_sources_list_from_timestamp parsedate snapshot base_mirror b)
    as [b' [candidates|e]]; [|discriminate].
  destruct (select_sources apt_has (build_depends b') candidates
              (seq 0 (List.length (build_depends b))) required)
    as [nf' req'] eqn:E.
  destruct nf' as [|n nf']; [|discriminate].
  intros [= <-].
  destruct (select_sources_invariant _ _ _ _ _ _ E)
    as (_ & (added & Ha & _) & Hcov).
  exists b', added. split; [reflexivity|]. split; [exact Ha|].
  intros i Hi.
  destruct (Hcov i) as [[]|H]; [apply in_seq; lia|exact H].
Qed.

End SelectionFacts.

Lemma find_build_dependencies_covers_witness :
  exists b' added,
    fst (get_sources_list_from_timestamp parsedate_two no_snapshot mirror
                                         ten_bi) = b'
    /\ [timestamp_source mirror march; timestamp_source mirror january]
       = ([] ++ added)%list
    /\ forall i, i < List.length (build_depends ten_bi) ->
         exists pre suf,
           [timestamp_source mirror march; timestamp_source mirror january]
           = (pre ++ suf)%list
           /\ cache_found apt_own (build_depends b') pre i = true.
Proof.
  apply (find_build_dependencies_covers parsedate_two no_snapshot apt_own
           mirror ten_bi []).
  vm_compute. reflexivity.
Defined.

(** ** The verifier: what success means, and which error is raised *)

Lemma verify_prop_ok_iff (old new : checksums_t) (f p : string) :
  verify_prop old new f tt p = OK tt <-> prop_matches old new f p.
Proof.
  unfold verify_prop, prop_matches, Dict.item, Dict.mem. split.
  - destruct (Dict.get old f) as [o|] eqn:Eo;
      [|destruct (p =? "size"); cbn [bind];
        [discriminate|destruct (Dict.get new f) as [n|]; cbn [bind];
                      [destruct (Dict.get n p); discriminate|discriminate]]].
    destruct (Dict.get new f) as [n|] eqn:En;
      [|destruct (p =? "size"); cbn [bind];
        [destruct (Dict.get o "size"); discriminate|discriminate]].
    intros H.
    assert (H2 : (if negb match Dict.get n p with Some _ => true | None => false end
                  then Raise (MissingChecksumAlg f p)
                  else bind match Dict.get o p with
                            | Some v => OK v | None => Raise (PyKeyError p) end
                         (fun ov =>
                          bind match Dict.get n p with
                               | Some v => OK v | None => Raise (PyKeyError p) end
                            (fun nv => if negb (ov =? nv)
                                       then Raise (ChecksumDiffers f p)
                                       else OK tt))) = OK tt).
    { destruct (p =? "size"); cbn [bind] in H.
      - destruct (Dict.get o "size"); cbn [bind] in H; [|discriminate H].
        destruct (Dict.get n "size"); cbn [bind] in H; [|discriminate H].
        destruct (negb _); cbn [bind] in H; [discriminate H|exact H].
      - exact H. }
    clear H. destruct (Dict.get n p) as [nv|] eqn:Gn; [|discriminate H2].
    cbn [negb] in H2.
    destruct (Dict.get o p) as [ov|] eqn:Go; cbn [bind] in H2;
      [|discriminate H2].
    destruct (ov =? nv) eqn:E; [|discriminate H2].
    apply String.eqb_eq in E. subst nv. exists o, n, ov. auto.
  - intros (o & n & v & -> & -> & Ho & Hn).
    destruct (p =? "size") eqn:E; cbn [bind].
    + apply String.eqb_eq in E. subst p. rewrite Ho, Hn. cbn [bind].
      rewrite String.eqb_refl. reflexivity.
    + rewrite Ho, Hn. cbn [negb bind]. now rewrite String.eqb_refl.
Qed.

Lemma verify_file_ok_iff (old new : checksums_t) (f : string) :
  In f (Dict.keys old) ->
  (verify_file old new tt f = OK tt <-> file_matches old new f).
Proof.
  intros Hin. destruct (get_in_keys old f Hin) as [o Ho].
  unfold verify_file, file_matches, Dict.item. rewrite Ho. cbn [bind]. split.
  - intros H. exists o. split; [reflexivity|]. intros p Hp.
    apply verify_prop_ok_iff. exact (for_each_unit_ok_inv _ _ H p Hp).
  - intros (o' & [= <-] & H). apply for_each_unit_ok.
    intros p Hp. apply verify_prop_ok_iff. now apply H.
Qed.

(** X23.  [verify_checksums] succeeds exactly when the original names,
    [.dsc] files apart, as many files as the rebuilt map names in all, and
    each of these files of the original is in the rebuilt map with every
    property the original records for it, under the same value.  Nothing
    is asked of the other properties and files of the rebuilt map. *)
Theorem verify_checksums_ok_iff (old new : checksums_t) :
  verify_checksums old new = OK tt <->
  List.length (filter not_dsc (Dict.keys old)) = List.length (Dict.keys new)
  /\ forall f, In f (filter not_dsc (Dict.keys old)) -> file_matches old new f.
Proof.
  unfold verify_checksums. fold not_dsc.
  destruct (List.length (filter not_dsc (Dict.keys old))
            =? List.length (Dict.keys new))%nat eqn:E; cbn [negb].
  - apply Nat.eqb_eq in E. split.
    + intros H. split; [exact E|]. intros f Hf.
      apply verify_file_ok_iff; [apply filter_In in Hf; tauto|].
      exact (for_each_unit_ok_inv _ _ H f Hf).
    + intros [_ H]. apply for_each_unit_ok. intros f Hf.
      apply verify_file_ok_iff; [apply filter_In in Hf; tauto|]. now apply H.
  - apply Nat.eqb_neq in E. split; [discriminate|]. intros [H _]. contradiction.
Qed.

(** X24.  The error that the verifier raises for a file is decided by the
    first property of the original, in the order the original records
    them, that the rebuilt entry does not match: a different value raises
    [SizeDiffers] for [size] and [ChecksumDiffers] for another property; an
    absent property raises [MissingChecksumAlg], except [size], whose
    absence raises [KeyError]. *)
Theorem verify_file_first_mismatch
    (old new : checksums_t) (f p : string) (o n : Dict.t string)
    (before after : list string) (v : string) :
  Dict.get old f = Some o -> Dict.get new f = Some n ->
  Dict.keys o = (before ++ p :: after)%list ->
  (forall q, In q before -> prop_matches old new f q) ->
  Dict.get o p = Some v -> Dict.get n p <> Some v ->
  verify_file old new tt f =
  Raise (match Dict.get n p with
         | Some _ => if p =? "size" then SizeDiffers f else ChecksumDiffers f p
         | None => if p =? "size" then PyKeyError "size"
                   else MissingChecksumAlg f p
         end).
Proof.
  intros Ho Hn Hkeys Hbefore Hv Hne.
  unfold verify_file, Dict.item. rewrite Ho. cbn [bind].
  rewrite Hkeys, for_each_app.
  rewrite for_each_unit_ok
    by (intros q Hq; apply verify_prop_ok_iff; now apply Hbefore).
  cbn [bind for_each].
  assert (Hp : verify_prop old new f tt p =
               Raise (match Dict.get n p with
                      | Some _ => if p =? "size" then SizeDiffers f
                                  else ChecksumDiffers f p
                      | None => if p =? "size" then PyKeyError "size"
                                else MissingChecksumAlg f p
                      end)).
  { unfold verify_prop, Dict.item, Dict.mem. rewrite Ho, Hn. cbn [bind].
    destruct (p =? "size") eqn:E.
    - apply String.eqb_eq in E. subst p. rewrite Hv. cbn [bind].
      destruct (Dict.get n "size") as [nv|]; cbn [bind]; [|reflexivity].
      destruct (v =? nv) eqn:Ev; [|reflexivity].
      apply String.eqb_eq in Ev. subst nv. now elim Hne.
    - destruct (Dict.get n p) as [nv|]; cbn [negb bind]; [|reflexivity].
      rewrite Hv. cbn [bind].
      destruct (v =? nv) eqn:Ev; [|reflexivity].
      apply String.eqb_eq in Ev. subst nv. now elim Hne. }
  now rewrite Hp.
Qed.

Lemma verify_file_first_mismatch_witness :
  verify_file [("a.deb", [("size", "10"); ("sha256", "aa")])]
              [("a.deb", [("size", "10"); ("sha256", "ff")])] tt "a.deb"
  = Raise (ChecksumDiffers "a.deb" "sha256").
Proof.
  refine (verify_file_first_mismatch
            [("a.deb", [("size", "10"); ("sha256", "aa")])]
            [("a.deb", [("size", "10"); ("sha256", "ff")])]
            "a.deb" "sha256" [("size", "10"); ("sha256", "aa")]
            [("size", "10"); ("sha256", "ff")] ["size"] [] "aa"
            eq_refl eq_refl eq_refl _ eq_refl _).
  - intros q [<-|[]].
    exists [("size", "10"); ("sha256", "aa")],
           [("size", "10"); ("sha256", "ff")], "10".
    repeat split.
  - discriminate.
Defined.

(** ** The parser of apt stanzas *)

Lemma apt_helper_item_other (st : option string * option string * option string)
    (item : string) :
  apt_field_line item = false -> apt_helper_item st item = st.
Proof.
  unfold apt_field_line, apt_helper_item. destruct st as [[n v] a].
  destruct (split_once ":" item) as [[f x]|]; [|reflexivity].
  cbn zeta. intros H.
  apply orb_false_iff in H. destruct H as [H Ha].
  apply orb_false_iff in H. destruct H as [Hn Hv].
  now rewrite Hn, Hv, Ha.
Qed.

Lemma apt_helper_fold_filter (pkg : list string)
    (st : option string * option string * option string) :
  fold_left apt_helper_item (filter apt_field_line pkg) st
  = fold_left apt_helper_item pkg st.
Proof.
  revert st. induction pkg as [|item pkg IH]; intros st; [reflexivity|].
  cbn [filter fold_left]. destruct (apt_field_line item) eqn:E.
  - cbn [fold_left]. apply IH.
  - rewrite (apt_helper_item_other st item E). apply IH.
Qed.

Lemma strip_after_blank (t : string) :
  token t = true -> Py.strip (String " " t) = t.
Proof.
  intros H. rewrite <- (strip_token t H) at 2. reflexivity.
Qed.

Lemma token_not_empty (t : string) : token t = true -> (t =? "") = false.
Proof.
  unfold token. intros H. apply andb_true_iff in H.
  now apply negb_true_iff.
Qed.

(** X25.  [parsePkgAptHelper] reads a stanza by its [Package], [Version]
    and [Architecture] lines only: lines without a colon and lines of other
    fields change nothing.  The value is what follows the first colon, so
    a version with an epoch is kept whole. *)
Theorem parsePkgAptHelper_stanza (pkg : list string) (n v a : string) :
  token n = true -> token v = true -> token a = true ->
  filter apt_field_line pkg
  = ["Package: " ++ n; "Version: " ++ v; "Architecture: " ++ a] ->
  parsePkgAptHelper pkg = Some (Package_init n v (Some a)).
Proof.
  intros Hn Hv Ha Hlines. unfold parsePkgAptHelper.
  rewrite <- apt_helper_fold_filter, Hlines.
  cbn [fold_left apt_helper_item append split_once Ascii.eqb Bool.eqb].
  cbn zeta.
  rewrite (strip_after_blank n Hn), (strip_after_blank v Hv),
    (strip_after_blank a Ha).
  change (Py.strip "Package") with "Package".
  change (Py.strip "Version") with "Version".
  change (Py.strip "Architecture") with "Architecture".
  change ("Package" =? "Package") with true.
  change ("Package" =? "Version") with false.
  change ("Package" =? "Architecture") with false.
  change ("Version" =? "Package") with false.
  change ("Version" =? "Version") with true.
  change ("Version" =? "Architecture") with false.
  change ("Architecture" =? "Package") with false.
  change ("Architecture" =? "Version") with false.
  change ("Architecture" =? "Architecture") with true.
  cbv iota.
  now rewrite (token_not_empty n Hn), (token_not_empty v Hv),
    (token_not_empty a Ha).
Qed.

Lemma parsePkgAptHelper_stanza_witness :
  parsePkgAptHelper
    ["Package: gcc"; "Status: install ok installed"; "Version: 4:10.2.1-1";
     " a continuation line"; "Architecture: amd64"; "Description: GNU C"]
  = Some (Package_init "gcc" "4:10.2.1-1" (Some "amd64")).
Proof.
  apply (parsePkgAptHelper_stanza
           ["Package: gcc"; "Status: install ok installed";
            "Version: 4:10.2.1-1"; " a continuation line";
            "Architecture: amd64"; "Description: GNU C"]
           "gcc" "4:10.2.1-1" "amd64"); reflexivity.
Defined.
